(** * Lucid trading-stats extension: the computational core, embedded and verified

    The repository holds two near-duplicate content scripts:
    - [src/extension/content.js]  -- variant A, the per-trade statistics;
    - [src/unnamed/part_000]      -- variant B, the per-day statistics.

    Both parse an HTML table into trade records ([parseTable]), group the
    records ([groupBySymbol], [groupByDayOfWeek]) and reduce a record list to
    a summary ([computeStats]).  This file embeds those functions and proves
    what the specification says about them.

    Conventions of the embedding.
    - A JavaScript Number is an IEEE 754 binary64 value: the primitive [float]
      of the Standard Library, with its operations ([+], [/], [<?], [abs]).
    - A JavaScript String is a [string]; only code units below 256 can be
      written, the white space among them is listed in [JS.isWhiteSpace].
    - An object literal used as a dictionary is an ordered list of own
      properties on top of [Object.prototype] (module [JSObject]).
    - A function that can throw returns a [completion].
    - A spread call [Math.min(...xs)] is taken within the number of arguments
      the engine accepts, and [new Date(s)], the local time zone and
      [toISOString] are parameters ([JS.Host]).
    - Where a record and the summary have a field of the same name, the
      summary's is written [s_netPnl], [s_avgWin], [s_avgLoss], [s_grossPnl]. *)

From Stdlib Require Import ZArith NArith List String Ascii Bool Lia.
From Stdlib Require Import Floats Permutation Sorted.
Import ListNotations.

Local Open Scope string_scope.
Local Open Scope list_scope.

(** ** The JavaScript built-ins the scripts call *)

Module JS.

(** Numbers. *)
Definition number := float.

Definition isNaN (x : number) : bool := PrimFloat.is_nan x.
Definition Math_abs (x : number) : number := PrimFloat.abs x.
Definition neg (x : number) : number := PrimFloat.opp x.

(** [x > y] and [x < y] on Numbers: false as soon as one side is NaN. *)
Definition gt (x y : number) : bool := PrimFloat.ltb y x.
Definition lt (x y : number) : bool := PrimFloat.ltb x y.

(** Truthiness of a Number: [0], [-0] and [NaN] are falsy. *)
Definition truthy (x : number) : bool :=
  negb (PrimFloat.is_nan x || PrimFloat.is_zero x).

(** The Number of an array length or of any other count.  Array lengths are
    below 2^32, where the conversion is exact. *)
Definition of_nat (n : nat) : number :=
  PrimFloat.of_uint63 (Uint63.of_Z (Z.of_nat n)).

(** Strings. [WhiteSpace] and [LineTerminator] code units below 256: TAB, LF,
    VT, FF, CR, SP and NBSP.  They are what [trim], the regular expression
    class [\s] and the prefix skipping of [parseFloat] remove. *)
Definition isWhiteSpace (c : ascii) : bool :=
  let n := N_of_ascii c in
  ((9 <=? n) && (n <=? 13) || (n =? 32) || (n =? 160))%N.

Fixpoint trimStart (s : string) : string :=
  match s with
  | String c r => if isWhiteSpace c then trimStart r else s
  | EmptyString => EmptyString
  end.

(** [trimEnd] keeps a character when it is not white space or when something
    that is kept follows it. *)
Fixpoint trimEnd (s : string) : string :=
  match s with
  | EmptyString => EmptyString
  | String c r =>
      match trimEnd r with
      | EmptyString => if isWhiteSpace c then EmptyString else String c EmptyString
      | r' => String c r'
      end
  end.

Definition trim (s : string) : string := trimEnd (trimStart s).

(** [s.replace(/[...]/g, '')] for a character class: every code unit of the
    class is deleted. *)
Fixpoint removeAll (cls : ascii -> bool) (s : string) : string :=
  match s with
  | EmptyString => EmptyString
  | String c r => if cls c then removeAll cls r else String c (removeAll cls r)
  end.

(** [s.indexOf(c) !== -1] for a one-character needle. *)
Fixpoint includesChar (c : ascii) (s : string) : bool :=
  match s with
  | EmptyString => false
  | String d r => Ascii.eqb c d || includesChar c r
  end.

(** *** [parseFloat]

    ECMA-262 21.1.2.12: skip leading white space, take the longest prefix
    that is a [StrDecimalLiteral], NaN when there is none, otherwise the
    Number nearest to its mathematical value (ties to even).

    [StrDecimalLiteral] is an optional sign followed by [Infinity], or by
    digits with an optional fraction, or by a fraction that has digits; an
    exponent part belongs to the prefix only when it has digits. *)

Definition digit (c : ascii) : option Z :=
  let n := N_of_ascii c in
  if ((48 <=? n) && (n <=? 57))%N then Some (Z.of_N n - 48)%Z else None.

(** [digits s acc cnt] reads the digits that start [s]: the value they extend
    [acc] to, how many were read after [cnt], and the rest of [s]. *)
Fixpoint digits (s : string) (acc cnt : Z) : Z * Z * string :=
  match s with
  | String c r =>
      match digit c with
      | Some d => digits r (10 * acc + d)%Z (cnt + 1)%Z
      | None => (acc, cnt, s)
      end
  | EmptyString => (acc, cnt, s)
  end.

(** The exponent part at the head of [s], when it is well formed. *)
Definition exponentPart (s : string) : Z :=
  match s with
  | String c r =>
      if (Ascii.eqb c "e" || Ascii.eqb c "E")%char then
        let '(sgn, r') :=
          match r with
          | String "+"%char t => (1%Z, t)
          | String "-"%char t => ((-1)%Z, t)
          | _ => (1%Z, r)
          end in
        let '(v, cnt, _) := digits r' 0%Z 0%Z in
        if (cnt =? 0)%Z then 0%Z else (sgn * v)%Z
      else 0%Z
  | EmptyString => 0%Z
  end.

(** The correctly rounded binary64 value of [n / d], for [0 < n] and [0 < d].
    The quotient is computed with at least 65 significant bits and a sticky
    bit for the remainder, then rounded once by [binary_normalize]. *)
Definition roundRatio (negative : bool) (n d : Z) : spec_float :=
  let s := Z.max 0 (Z.log2 d + 66 - Z.log2 n) in
  let '(q, r) := Z.div_eucl (n * 2 ^ s) d in
  let m := (2 * q + (if (r =? 0)%Z then 0 else 1))%Z in
  binary_normalize prec emax (if negative then (- m)%Z else m) (- (s + 1))%Z negative.

(** The Number of [m * 10^k] with the sign given ([-0] for a negative zero). *)
Definition decimalValue (negative : bool) (m k : Z) : number :=
  if (m =? 0)%Z then (if negative then PrimFloat.neg_zero else PrimFloat.zero)
  else if (0 <=? k)%Z then SF2Prim (roundRatio negative (m * 10 ^ k) 1)
  else SF2Prim (roundRatio negative m (10 ^ (- k))).

Definition parseUnsigned (negative : bool) (s : string) : number :=
  if String.prefix "Infinity" s then
    (if negative then PrimFloat.neg_infinity else PrimFloat.infinity)
  else
    let '(ip, ni, r1) := digits s 0%Z 0%Z in
    let '(m, nf, r2) :=
      match r1 with
      | String "."%char t =>
          let '(m', nf', t') := digits t ip 0%Z in
          (* "." with no digit on either side is not a literal *)
          if ((ni =? 0) && (nf' =? 0))%Z then (ip, 0%Z, r1) else (m', nf', t')
      | _ => (ip, 0%Z, r1)
      end in
    if ((ni =? 0) && (nf =? 0))%Z then PrimFloat.nan
    else decimalValue negative m (exponentPart r2 - nf)%Z.

Definition parseFloat (s : string) : number :=
  match trimStart s with
  | String "-"%char r => parseUnsigned true r
  | String "+"%char r => parseUnsigned false r
  | t => parseUnsigned false t
  end.

(** *** [Math.min] and [Math.max] of a spread array

    ECMA-262 21.3.2.24/25: NaN as soon as one argument is NaN; [-0] is below
    [+0]; the empty call gives the infinity the scan starts from. *)

Definition isNegZero (x : number) : bool :=
  match PrimFloat.classify x with NZero => true | _ => false end.
Definition isPosZero (x : number) : bool :=
  match PrimFloat.classify x with PZero => true | _ => false end.

Definition minStep (lowest x : number) : number :=
  if isNegZero x && isPosZero lowest then x
  else if PrimFloat.ltb x lowest then x else lowest.

Definition maxStep (highest x : number) : number :=
  if isPosZero x && isNegZero highest then x
  else if PrimFloat.ltb highest x then x else highest.

Definition Math_min (xs : list number) : number :=
  if existsb isNaN xs then PrimFloat.nan
  else fold_left minStep xs PrimFloat.infinity.

Definition Math_max (xs : list number) : number :=
  if existsb isNaN xs then PrimFloat.nan
  else fold_left maxStep xs PrimFloat.neg_infinity.

(** *** [Date]

    A valid Date is its time value, the milliseconds since the epoch.  How a
    string is read by [new Date(s)] outside the ISO format, the offset of
    local time and the text of [toISOString] belong to the host. *)
Record Host := {
  Date_parse : string -> option Z;   (* the time value of [new Date(s)], [None] when invalid *)
  LocalTZA : Z -> Z;                 (* local time minus UTC at a time value, in ms *)
  toISOString : Z -> string
}.

Definition msPerDay : Z := 86400000.

(** [getDay]: [WeekDay(LocalTime(t))], 0 for Sunday; the epoch was a Thursday. *)
Definition getDay (h : Host) (t : Z) : nat :=
  Z.to_nat (((t + LocalTZA h t) / msPerDay + 4) mod 7).

(** Completion of a call: a value, or a thrown error. *)
Inductive error := TypeError.
Inductive completion (A : Type) :=
| Normal (a : A)
| Throw (e : error).
Arguments Normal {A} a.
Arguments Throw {A} e.

Definition bind {A B} (c : completion A) (k : A -> completion B) : completion B :=
  match c with
  | Normal a => k a
  | Throw e => Throw e
  end.

End JS.

(** ** Object literals used as dictionaries

    [const o = {}] creates an ordinary object whose prototype is
    [Object.prototype].  Reading [o[k]] returns the own property [k] when
    there is one, the property inherited from [Object.prototype] when [k]
    names one, and [undefined] otherwise.  [Object.keys(o)] lists the own keys
    that are array indices in ascending numeric order, then the other keys in
    creation order. *)

Module JSObject.

(** The property names of [Object.prototype] in a browser (ECMA-262 20.1.3
    and Annex B.2.2).  Every one of them holds a function, or for
    [__proto__] the prototype object itself: a truthy value without a
    [push] method. *)
Definition Object_prototype_keys : list string :=
  [ "constructor"; "hasOwnProperty"; "isPrototypeOf"; "propertyIsEnumerable";
    "toLocaleString"; "toString"; "valueOf"; "__proto__";
    "__defineGetter__"; "__defineSetter__"; "__lookupGetter__"; "__lookupSetter__" ].

Definition inherited (k : string) : bool :=
  existsb (String.eqb k) Object_prototype_keys.

Section Dict.
Context {V : Type}.

(** Own properties, oldest first. *)
Definition obj := list (string * V).

Fixpoint getOwn (o : obj) (k : string) : option V :=
  match o with
  | [] => None
  | (k', v) :: o' => if String.eqb k k' then Some v else getOwn o' k
  end.

Inductive value :=
| Own (v : V)        (* an own property: one of the arrays the script stored *)
| Inherited          (* a function or object found on the prototype *)
| Undefined.

Definition get (o : obj) (k : string) : value :=
  match getOwn o k with
  | Some v => Own v
  | None => if inherited k then Inherited else Undefined
  end.

(** [o[k] = v] for a key that is already an own property. *)
Fixpoint update (o : obj) (k : string) (v : V) : obj :=
  match o with
  | [] => []
  | (k', v') :: o' =>
      if String.eqb k k' then (k', v) :: o' else (k', v') :: update o' k v
  end.

(** [o[k] = v] for a key that [o] neither owns nor inherits. *)
Definition create (o : obj) (k : string) (v : V) : obj := o ++ [(k, v)].

(** An array index is a canonical numeric string of an integer below
    2^32 - 1: digits only, no leading zero unless it is "0". *)
Definition arrayIndex (k : string) : option Z :=
  match k with
  | EmptyString => None
  | String c r =>
      let '(v, cnt, rest) := JS.digits k 0%Z 0%Z in
      if negb (rest =? "") then None
      else if Ascii.eqb c "0" && negb (r =? "") then None
      else if (v <? 2 ^ 32 - 1)%Z then Some v else None
  end.

Fixpoint insertByIndex (i : Z) (e : string * V) (l : list (Z * (string * V)))
  : list (Z * (string * V)) :=
  match l with
  | [] => [(i, e)]
  | (j, e') :: l' =>
      if (i <? j)%Z then (i, e) :: l else (j, e') :: insertByIndex i e l'
  end.

(** The own properties split into the index keys, sorted, and the others. *)
Fixpoint indexed (o : obj) : list (Z * (string * V)) :=
  match o with
  | [] => []
  | (k, v) :: o' =>
      match arrayIndex k with
      | Some i => insertByIndex i (k, v) (indexed o')
      | None => indexed o'
      end
  end.

Definition named (o : obj) : obj :=
  filter (fun e => match arrayIndex (fst e) with Some _ => false | None => true end) o.

(** [Object.entries(o)], and [Object.keys(o)] with it. *)
Definition entries (o : obj) : obj := map snd (indexed o) ++ named o.
Definition keys (o : obj) : list string := map fst (entries o).

End Dict.

Arguments obj V : clear implicits.
Arguments value V : clear implicits.

End JSObject.

(** ** The table as the scripts query it *)

Module DOM.

(** A [tr] element, through the three queries the scripts make on it:
    - [td[data-label="L"]]: the labelled cells in document order, each with
      its [textContent];
    - [.symbol-badge] and [.win-badge]: the [textContent] of the first such
      descendant, when there is one. *)
Record Row := {
  cells : list (string * string);
  symbolBadge : option string;
  winBadge : option string
}.

(** [table.querySelectorAll('tbody tr')], in document order. *)
Definition Table := list Row.

Fixpoint querySelector (cs : list (string * string)) (dataLabel : string) : option string :=
  match cs with
  | [] => None
  | (l, text) :: cs' => if String.eqb l dataLabel then Some text else querySelector cs' dataLabel
  end.

Definition getCellText (row : Row) (dataLabel : string) : string :=
  match querySelector (cells row) dataLabel with
  | Some text => JS.trim text
  | None => ""
  end.

End DOM.

(** Sorting an array of strings with [sort()] and no comparator: ascending
    code-unit order.  The result of a stable sort is determined by the order,
    here it is computed by insertion. *)
Module Sort.

Fixpoint insert (s : string) (l : list string) : list string :=
  match l with
  | [] => [s]
  | t :: l' => if String.leb s t then s :: l else t :: insert s l'
  end.

Definition sort (l : list string) : list string := fold_right insert [] l.

End Sort.

(** ** The grouping loops

    [groupBySymbol] and [groupByDayOfWeek] have the same text in both scripts;
    they are embedded once, for any record type. *)

Module Grouping.

Import JS JSObject.

Section Records.
Context {R : Type}.

(** [if (!o[k]) o[k] = []; o[k].push(r)].  An own property holds an array,
    which is truthy; an inherited one is truthy and has no [push], so
    calling it throws a [TypeError]. *)
Definition pushTo (o : obj (list R)) (k : string) (r : R) : completion (obj (list R)) :=
  match get o k with
  | Own bucket => Normal (update o k (bucket ++ [r]))
  | Undefined => Normal (create o k [r])
  | Inherited => Throw TypeError
  end.

(** [rows.forEach((r) => { ... })] over a step that can throw. *)
Definition forEach (step : obj (list R) -> R -> completion (obj (list R)))
    (rows : list R) (o : obj (list R)) : completion (obj (list R)) :=
  fold_left (fun acc r => bind acc (fun o' => step o' r)) rows (Normal o).

(** [groupBySymbol], for the projection [r.symbol]. *)
Definition groupBy (key : R -> string) (rows : list R) : completion (obj (list R)) :=
  forEach (fun o r => pushTo o (key r) r) rows [].

(** [if (r.dayName && byDay[r.dayName]) byDay[r.dayName].push(r)] *)
Definition pushDay (dayName : R -> string) (o : obj (list R)) (r : R)
  : completion (obj (list R)) :=
  if (dayName r =? "")%string then Normal o
  else
    match get o (dayName r) with
    | Own bucket => Normal (update o (dayName r) (bucket ++ [r]))
    | Undefined => Normal o
    | Inherited => Throw TypeError
    end.

(** [groupByDayOfWeek]: [DAYS.forEach((d) => { byDay[d] = []; })], then the
    records. *)
Definition groupByDay (DAYS : list string) (dayName : R -> string) (rows : list R)
  : completion (obj (list R)) :=
  let byDay := fold_left (fun o d => create o d []) DAYS [] in
  forEach (pushDay dayName) rows byDay.

End Records.

End Grouping.

(** ** Variant A: [src/extension/content.js] *)

Module VariantA.

Import JS DOM JSObject.
Local Open Scope float_scope.

Definition DAYS : list string := ["Sun"; "Mon"; "Tue"; "Wed"; "Thu"; "Fri"; "Sat"].

Definition isDollarOrComma (c : ascii) : bool :=
  (Ascii.eqb c "$" || Ascii.eqb c ",")%char.

Definition parseCurrency (s : string) : number :=
  if (s =? "")%string then 0
  else
    let cleaned := trim (removeAll isDollarOrComma s) in
    let n := parseFloat cleaned in
    if isNaN n then 0 else n.

(** [s.replace('%', '')]: a string pattern replaces the first match only. *)
Fixpoint removeFirst (c : ascii) (s : string) : string :=
  match s with
  | EmptyString => EmptyString
  | String d r => if Ascii.eqb c d then r else String d (removeFirst c r)
  end.

Definition parsePct (s : string) : number :=
  if (s =? "")%string then 0
  else
    let n := parseFloat (trim (removeFirst "%" s)) in
    if isNaN n then 0 else n.

Record TradeRecord := {
  date : option Z;
  dateStr : string;
  symbol : string;
  netPnl : number;
  winPct : number;
  avgWin : number;
  avgLoss : number;
  dayOfWeek : option nat;
  dayName : string
}.

Record StatsSummary := {
  totalTrades : nat;
  winningTrades : nat;
  losingTrades : nat;
  winRate : number;
  grossProfit : number;
  grossLoss : number;
  profitFactor : number;
  s_netPnl : number;
  expectancy : number;
  s_avgWin : number;
  s_avgLoss : number;
  largestWin : number;
  largestLoss : number;
  avgWinPct : number
}.

Definition emptyStats : StatsSummary :=
  {| totalTrades := 0; winningTrades := 0; losingTrades := 0; winRate := 0;
     grossProfit := 0; grossLoss := 0; profitFactor := 0; s_netPnl := 0;
     expectancy := 0; s_avgWin := 0; s_avgLoss := 0; largestWin := 0;
     largestLoss := 0; avgWinPct := 0 |}.

(** [xs.reduce((s, x) => s + f(x), 0)] *)
Definition sumOf {A} (f : A -> number) (xs : list A) : number :=
  fold_left (fun s x => s + f x) xs 0.

Definition isEmpty {A} (xs : list A) : bool :=
  match xs with [] => true | _ => false end.

Section Host.
Variable host : Host.

Definition parseDate (s : string) : option Z :=
  if (s =? "")%string then None else Date_parse host s.

(** The body of the [rows.map] callback of [parseTable]. *)
Definition normalize (tr : Row) : TradeRecord :=
  let netPnlText := getCellText tr "Net PnL" in
  let netPnl := parseCurrency netPnlText in
  let symbol :=
    match symbolBadge tr with
    | Some text => trim text
    | None => getCellText tr "Symbol"
    end in
  let dateText := getCellText tr "Date" in
  let date := parseDate dateText in
  let winPctText :=
    match winBadge tr with
    | Some text => trim text
    | None => getCellText tr "Win %"
    end in
  let winPct := parsePct winPctText in
  let avgWin := parseCurrency (getCellText tr "Avg Win") in
  let avgLoss := parseCurrency (getCellText tr "Avg Loss") in
  {| date := date;
     dateStr := dateText;
     symbol := symbol;
     netPnl := netPnl;
     winPct := winPct;
     avgWin := avgWin;
     avgLoss := avgLoss;
     dayOfWeek := option_map (getDay host) date;
     dayName := match date with
                | Some t => nth (getDay host t) DAYS ""
                | None => ""
                end |}.

(** The [filter] callback: [r.symbol && r.dateStr]. *)
Definition kept (r : TradeRecord) : bool :=
  negb (symbol r =? "")%string && negb (dateStr r =? "")%string.

Definition parseTable (table : Table) : list TradeRecord :=
  filter kept (map normalize table).

End Host.

(** [computeStats], with the division operator as a parameter: the script
    runs it with the division of Numbers ([computeStats] below); the
    parameter lets a theorem compare runs under divisions that differ where
    the divisor is zero. *)
Section Division.
Variable div : number -> number -> number.

Definition computeStatsWith (rows : list TradeRecord) : StatsSummary :=
  if isEmpty rows then emptyStats
  else
    let wins := filter (fun r => gt (netPnl r) 0) rows in
    let losses := filter (fun r => lt (netPnl r) 0) rows in
    let grossProfit := sumOf netPnl wins in
    let grossLoss := Math_abs (sumOf netPnl losses) in
    let netPnl' := sumOf netPnl rows in
    let profitFactor :=
      if gt grossLoss 0 then div grossProfit grossLoss
      else if gt grossProfit 0 then 999 else 0 in
    let winRate :=
      if isEmpty rows then 0
      else div (of_nat (List.length wins)) (of_nat (List.length rows)) * 100 in
    let avgWin :=
      if isEmpty wins then 0
      else div (sumOf netPnl wins) (of_nat (List.length wins)) in
    let avgLoss :=
      if isEmpty losses then 0
      else div (sumOf (fun r => Math_abs (netPnl r)) losses) (of_nat (List.length losses)) in
    let expectancy :=
      if isEmpty rows then 0
      else div winRate 100 * avgWin - (1 - div winRate 100) * avgLoss in
    let largestWin := if isEmpty wins then 0 else Math_max (map netPnl wins) in
    let largestLoss := if isEmpty losses then 0 else Math_min (map netPnl losses) in
    let winPcts := filter (fun p => gt p 0) (map winPct rows) in
    let avgWinPct :=
      if isEmpty winPcts then 0
      else div (fold_left (fun a b => a + b) winPcts 0) (of_nat (List.length winPcts)) in
    {| totalTrades := List.length rows;
       winningTrades := List.length wins;
       losingTrades := List.length losses;
       winRate := winRate;
       grossProfit := grossProfit;
       grossLoss := grossLoss;
       profitFactor := profitFactor;
       s_netPnl := netPnl';
       expectancy := expectancy;
       s_avgWin := avgWin;
       s_avgLoss := avgLoss;
       largestWin := largestWin;
       largestLoss := largestLoss;
       avgWinPct := avgWinPct |}.

End Division.

Definition computeStats : list TradeRecord -> StatsSummary :=
  computeStatsWith PrimFloat.div.

Definition groupBySymbol (rows : list TradeRecord) : completion (obj (list TradeRecord)) :=
  Grouping.groupBy symbol rows.

Definition groupByDayOfWeek (rows : list TradeRecord) : completion (obj (list TradeRecord)) :=
  Grouping.groupByDay DAYS dayName rows.

(** [Object.keys(bySymbol).sort()] of [renderPanel]. *)
Definition symbols (bySymbol : obj (list TradeRecord)) : list string :=
  Sort.sort (keys bySymbol).

End VariantA.

(** ** Variant B: [src/unnamed/part_000] *)

Module VariantB.

Import JS DOM JSObject.
Local Open Scope float_scope.

Definition DAYS : list string := ["Sun"; "Mon"; "Tue"; "Wed"; "Thu"; "Fri"; "Sat"].
Definition WORK_DAYS : list string := ["Mon"; "Tue"; "Wed"; "Thu"; "Fri"].

Definition isDollarOrComma (c : ascii) : bool :=
  (Ascii.eqb c "$" || Ascii.eqb c ",")%char.

Definition parseCurrency (s : string) : number :=
  if (s =? "")%string then 0
  else
    let trimmed := trim s in
    let cleaned := removeAll isWhiteSpace (removeAll isDollarOrComma trimmed) in
    let n := parseFloat cleaned in
    if isNaN n then 0
    else if includesChar "(" trimmed then neg (Math_abs n)
    else n.

(** [pnlHigh] and [pnlLow] are [None] on a record that has no Number there
    ([computeStats] tests [typeof v === 'number']); [parseTable] always
    stores one. *)
Record TradeRecord := {
  date : option Z;
  dateStr : string;
  symbol : string;
  netPnl : number;
  grossPnl : number;
  commission : number;
  pnlHigh : option number;
  pnlLow : option number;
  dayOfWeek : option nat;
  dayName : string
}.

Record StatsSummary := {
  profitableDays : nat;
  losingDays : nat;
  dayWinRatePct : number;
  s_grossPnl : number;
  totalCommission : number;
  profitFactor : number;
  s_netPnl : number;
  expectancy : number;
  worstDayNet : number;
  worstIntradayLow : number
}.

Definition emptyStats : StatsSummary :=
  {| profitableDays := 0; losingDays := 0; dayWinRatePct := 0; s_grossPnl := 0;
     totalCommission := 0; profitFactor := 0; s_netPnl := 0; expectancy := 0;
     worstDayNet := 0; worstIntradayLow := 0 |}.

Definition sumOf {A} (f : A -> number) (xs : list A) : number :=
  fold_left (fun s x => s + f x) xs 0.

Definition isEmpty {A} (xs : list A) : bool :=
  match xs with [] => true | _ => false end.

(** [x || y] on Numbers. *)
Definition orElse (x y : number) : number := if truthy x then x else y.

Section Host.
Variable host : Host.

Definition parseDate (s : string) : option Z :=
  if (s =? "")%string then None else Date_parse host s.

Definition normalize (tr : Row) : TradeRecord :=
  let netPnlText := getCellText tr "Net PnL" in
  let netPnl := parseCurrency netPnlText in
  let pnlHigh := parseCurrency (getCellText tr "PnL High") in
  let pnlLow := parseCurrency (getCellText tr "PnL Low") in
  let symbol :=
    match symbolBadge tr with
    | Some text => trim text
    | None => getCellText tr "Symbol"
    end in
  let dateText := getCellText tr "Date" in
  let date := parseDate dateText in
  let commission := parseCurrency (getCellText tr "Commission") in
  let grossPnl := netPnl + commission in
  {| date := date;
     dateStr := dateText;
     symbol := symbol;
     netPnl := netPnl;
     grossPnl := grossPnl;
     commission := commission;
     pnlHigh := Some pnlHigh;
     pnlLow := Some pnlLow;
     dayOfWeek := option_map (getDay host) date;
     dayName := match date with
                | Some t => nth (getDay host t) DAYS ""
                | None => ""
                end |}.

Definition kept (r : TradeRecord) : bool :=
  negb (symbol r =? "")%string && negb (dateStr r =? "")%string.

Definition parseTable (table : Table) : list TradeRecord :=
  filter kept (map normalize table).

(** [r.dateStr || (r.date ? r.date.toISOString().slice(0, 10) : '')] *)
Definition dateKey (r : TradeRecord) : string :=
  if negb (dateStr r =? "")%string then dateStr r
  else match date r with
       | Some t => String.substring 0 10 (toISOString host t)
       | None => ""
       end.

(** One step of the [forEach] that fills [byDate]:
    [if (!key) return; if (!byDate[key]) byDate[key] = []; byDate[key].push(r)]. *)
Definition pushDate (o : obj (list TradeRecord)) (r : TradeRecord)
  : completion (obj (list TradeRecord)) :=
  let key := dateKey r in
  if (key =? "")%string then Normal o else Grouping.pushTo o key r.

Definition groupByDate (rows : list TradeRecord) : completion (obj (list TradeRecord)) :=
  Grouping.forEach pushDate rows [].

(** An element of [dateTotals]. *)
Record DateTotal := { d_date : string; d_netPnl : number; d_grossPnl : number }.

Definition dateTotal (e : string * list TradeRecord) : DateTotal :=
  {| d_date := fst e;
     d_netPnl := sumOf netPnl (snd e);
     d_grossPnl :=
       sumOf (fun r => orElse (grossPnl r) (netPnl r + orElse (commission r) 0)) (snd e) |}.

(** [rows.map((r) => r.pnlLow).filter((v) => typeof v === 'number' && !isNaN(v))] *)
Definition numbersOf (vs : list (option number)) : list number :=
  flat_map (fun v => match v with
                     | Some x => if isNaN x then [] else [x]
                     | None => []
                     end) vs.

Definition dateTotals (byDate : obj (list TradeRecord)) : list DateTotal :=
  map dateTotal (entries byDate).

Definition grossProfitFromDays (dts : list DateTotal) : number :=
  sumOf d_grossPnl (filter (fun d => gt (d_grossPnl d) 0) dts).

Definition grossLossFromDays (dts : list DateTotal) : number :=
  Math_abs (sumOf d_grossPnl (filter (fun d => lt (d_grossPnl d) 0) dts)).

Section Division.
Variable div : number -> number -> number.

(** The part of [computeStats] after [byDate] is filled. *)
Definition summarize (rows : list TradeRecord) (byDate : obj (list TradeRecord))
  : StatsSummary :=
  let dateTotals := dateTotals byDate in
  let profitableDays := List.length (filter (fun d => gt (d_netPnl d) 0) dateTotals) in
  let losingDays := List.length (filter (fun d => lt (d_netPnl d) 0) dateTotals) in
  let totalTradingDays := List.length dateTotals in
  let dayWinRatePct :=
    if (totalTradingDays =? 0)%nat then 0
    else div (of_nat profitableDays) (of_nat totalTradingDays) * 100 in
  let grossProfitFromDays := grossProfitFromDays dateTotals in
  let grossLossFromDays := grossLossFromDays dateTotals in
  let profitFactor :=
    if gt grossLossFromDays 0 then div grossProfitFromDays grossLossFromDays
    else if gt grossProfitFromDays 0 then 999 else 0 in
  let profitable := filter (fun r => gt (netPnl r) 0) rows in
  let losing := filter (fun r => lt (netPnl r) 0) rows in
  (* [netProfit] and [netLoss]: computed here by the script, and never read *)
  let netProfit := sumOf netPnl profitable in
  let netLoss := Math_abs (sumOf netPnl losing) in
  let netPnl' := sumOf netPnl rows in
  let totalCommission := sumOf (fun r => orElse (commission r) 0) rows in
  let grossProfit := sumOf grossPnl (filter (fun r => gt (grossPnl r) 0) rows) in
  let grossLoss := Math_abs (sumOf grossPnl (filter (fun r => lt (grossPnl r) 0) rows)) in
  let grossPnl' := grossProfit - grossLoss in
  let avgWinPerDay :=
    if isEmpty profitable then 0
    else div (sumOf netPnl profitable) (of_nat (List.length profitable)) in
  let avgLossPerDay :=
    if isEmpty losing then 0
    else div (sumOf (fun r => Math_abs (netPnl r)) losing) (of_nat (List.length losing)) in
  let expectancy :=
    div dayWinRatePct 100 * avgWinPerDay - (1 - div dayWinRatePct 100) * avgLossPerDay in
  let worstDayNet := if isEmpty losing then 0 else Math_min (map netPnl losing) in
  let pnlLows := numbersOf (map pnlLow rows) in
  let worstIntradayLow :=
    if isEmpty pnlLows
    then (if isEmpty losing then 0 else worstDayNet)
    else Math_min pnlLows in
  {| profitableDays := profitableDays;
     losingDays := losingDays;
     dayWinRatePct := dayWinRatePct;
     s_grossPnl := grossPnl';
     totalCommission := totalCommission;
     profitFactor := profitFactor;
     s_netPnl := netPnl';
     expectancy := expectancy;
     worstDayNet := worstDayNet;
     worstIntradayLow := worstIntradayLow |}.

Definition computeStatsWith (rows : list TradeRecord) : completion StatsSummary :=
  if isEmpty rows then Normal emptyStats
  else bind (groupByDate rows) (fun byDate => Normal (summarize rows byDate)).

End Division.

Definition computeStats : list TradeRecord -> completion StatsSummary :=
  computeStatsWith PrimFloat.div.

End Host.

Definition groupBySymbol (rows : list TradeRecord) : completion (obj (list TradeRecord)) :=
  Grouping.groupBy symbol rows.

Definition groupByDayOfWeek (rows : list TradeRecord) : completion (obj (list TradeRecord)) :=
  Grouping.groupByDay DAYS dayName rows.

(** [Object.keys(bySymbol).sort()] of [renderPanel]. *)
Definition symbols (bySymbol : obj (list TradeRecord)) : list string :=
  Sort.sort (keys bySymbol).

End VariantB.

(** ** A host and a table to run the scripts on *)

Module Demo.

Import JS DOM.

Local Open Scope Z_scope.

(** Days since the epoch of a civil date, and back (proleptic Gregorian). *)
Definition daysFromCivil (y m d : Z) : Z :=
  let y' := if m <=? 2 then y - 1 else y in
  let era := y' / 400 in
  let yoe := y' - era * 400 in
  let doy := (153 * (if 2 <? m then m - 3 else m + 9) + 2) / 5 + d - 1 in
  let doe := yoe * 365 + yoe / 4 - yoe / 100 + doy in
  era * 146097 + doe - 719468.

Definition civilFromDays (z : Z) : Z * Z * Z :=
  let z' := z + 719468 in
  let era := z' / 146097 in
  let doe := z' - era * 146097 in
  let yoe := (doe - doe / 1460 + doe / 36524 - doe / 146096) / 365 in
  let doy := doe - (365 * yoe + yoe / 4 - yoe / 100) in
  let mp := (5 * doy + 2) / 153 in
  let d := doy - (153 * mp + 2) / 5 + 1 in
  let m := if mp <? 10 then mp + 3 else mp - 9 in
  ((if m <=? 2 then yoe + era * 400 + 1 else yoe + era * 400), m, d).

Definition digitChar (d : Z) : ascii := ascii_of_N (Z.to_N (48 + d mod 10)).

(** [n] written with [width] digits. *)
Fixpoint padded (width : nat) (n : Z) : string :=
  match width with
  | O => ""
  | S w => padded w (n / 10) ++ String (digitChar n) ""
  end.

Definition decimal (s : string) : option Z :=
  let '(v, cnt, rest) := JS.digits s 0 0 in
  if (0 <? cnt) && (rest =? "")%string then Some v else None.

(** The date-only ISO form [YYYY-MM-DD], read as UTC midnight (ECMA-262
    21.4.1.32); every other text is an invalid date for this host. *)
Definition parseIso (s : string) : option Z :=
  if negb (Nat.eqb (String.length s) 10) then None
  else if negb ((substring 4 1 s =? "-") && (substring 7 1 s =? "-"))%string then None
  else
    match decimal (substring 0 4 s), decimal (substring 5 2 s), decimal (substring 8 2 s) with
    | Some y, Some m, Some d =>
        if (1 <=? m) && (m <=? 12) && (1 <=? d) && (d <=? 31)
        then Some (daysFromCivil y m d * 86400000)
        else None
    | _, _, _ => None
    end.

(** [toISOString] for the years 0 to 9999. *)
Definition isoString (t : Z) : string :=
  let '(y, m, d) := civilFromDays (t / 86400000) in
  let ms := t mod 86400000 in
  padded 4 y ++ "-" ++ padded 2 m ++ "-" ++ padded 2 d ++ "T"
  ++ padded 2 (ms / 3600000) ++ ":" ++ padded 2 (ms / 60000 mod 60) ++ ":"
  ++ padded 2 (ms / 1000 mod 60) ++ "." ++ padded 3 (ms mod 1000) ++ "Z".

Definition host : Host :=
  {| Date_parse := parseIso; LocalTZA := fun _ => 0; toISOString := isoString |}.

Definition row (date symbol netPnl : string) (more : list (string * string)) : Row :=
  {| cells := [("Date", date); ("Symbol", symbol); ("Net PnL", netPnl)] ++ more;
     symbolBadge := None;
     winBadge := None |}.

(** The three trades of the specification's scenario, then a row with an
    unreadable date, a row without a symbol and a row without a date. *)
Definition table : Table :=
  [ row "2024-01-02" "AAA" "$100.00" [("Win %", "60%"); ("Commission", "$2.00"); ("PnL Low", "-$15.00")];
    row "2024-01-03" "AAA" "-$40.00" [("Win %", "0%"); ("Commission", "$2.00"); ("PnL Low", "-$55.00")];
    row " 2024-01-03 " "BBB" "-$10.00" [("Commission", "$1.00"); ("PnL Low", "-$12.50")];
    row "n/a" "CCC" "$7.50" [("Win %", "garbage")];
    row "2024-01-04" "" "$1.00" [];
    row "" "DDD" "$1.00" [] ].

(** A table whose first row carries a symbol and a date label that name
    properties of [Object.prototype]. *)
Definition oddTable : Table :=
  [ row "constructor" "toString" "$5.00" [] ].

(** A winning and a losing trade whose ratio is the sentinel of the profit
    factor. *)
Definition ratioTable : Table :=
  [ row "2024-01-02" "AAA" "$999.00" []; row "2024-01-03" "AAA" "-$1.00" [] ].

(** Two trading days, one that nets $50 and one that nets -$20. *)
Definition twoDays : Table :=
  [ row "2024-01-02" "AAA" "$30.00" []; row "2024-01-03" "AAA" "-$20.00" [];
    row "2024-01-02" "BBB" "$20.00" [] ].

(** A table with amounts beyond the binary64 range. *)
Definition hugeTable : Table :=
  [ row "2024-01-02" "AAA" "1e999" []; row "2024-01-03" "AAA" "-1e999" [] ].

End Demo.

(** ** The vocabulary of the theorems *)

Module Spec.

Import JS JSObject DOM.
Local Open Scope float_scope.

(** *** Numbers *)

(** A binary64 value that is a zero, a finite value or an infinity of the
    sign [s]. *)
Definition signed (s : bool) (x : spec_float) : Prop :=
  match x with
  | S754_zero s' | S754_infinity s' | S754_finite s' _ _ => s' = s
  | S754_nan => False
  end.

(** A zero of either sign, or a finite value or an infinity of the sign [s]. *)
Definition weakly (s : bool) (x : spec_float) : Prop :=
  match x with
  | S754_zero _ => True
  | S754_infinity s' | S754_finite s' _ _ => s' = s
  | S754_nan => False
  end.



(** The profit factor [pf], from the total [gp] of the gains and the absolute
    total [gl] of the losses. *)
Definition profitFactorRule (pf gp gl : number) : Prop :=
  ((gl =? 0) = true \/ gt gl 0 = true)
  /\ ((gp =? 0) = true \/ gt gp 0 = true)
  /\ ((gl =? 0) = true -> gt gp 0 = true -> pf = 999)
  /\ ((gl =? 0) = true -> (gp =? 0) = true -> pf = 0)
  /\ (gt gl 0 = true -> pf = gp / gl).

(** *** Strings: ascending code-unit order *)
Definition codeUnitLe (s t : string) : Prop := String.leb s t = true.

(** *** Records under a key *)

Section Records.
Context {R : Type}.
Variable key : R -> string.

Definition hasKey (k : string) (r : R) : bool := String.eqb (key r) k.

(** The records of [rows] under the key [k], in the order of [rows]. *)
Definition bucketOf (k : string) (rows : list R) : list R := filter (hasKey k) rows.

(** No key of [rows] names a property of [Object.prototype]. *)
Definition safeKeys (rows : list R) : bool :=
  forallb (fun r => negb (inherited (key r))) rows.

(** What the dictionary holds once the records [done] went through [pushTo]:
    a key for every key met, with the records met under it. *)
Definition grouped (o : obj (list R)) (done : list R) : Prop :=
  NoDup (map fst o) /\
  forall k, getOwn o k = if existsb (hasKey k) done then Some (bucketOf k done) else None.

(** The weekday dictionary once the records [done] went through [pushDay]:
    the keys it started with, each with the records met under it. *)
Definition dayGrouped (days : list string) (o : obj (list R)) (done : list R) : Prop :=
  map fst o = days /\ forall d, In d days -> getOwn o d = Some (bucketOf d done).

(** The records whose key is one of [days]. *)
Definition labelled (days : list string) (r : R) : bool :=
  existsb (String.eqb (key r)) days.

End Records.

(** *** Rows *)

(** The two texts a row must resolve to be kept. *)
Definition symbolText (tr : Row) : string :=
  match symbolBadge tr with
  | Some text => trim text
  | None => getCellText tr "Symbol"
  end.

Definition dateLabel (tr : Row) : string := getCellText tr "Date".

Definition resolves (tr : Row) : bool :=
  negb (symbolText tr =? "")%string && negb (dateLabel tr =? "")%string.

(** *** Records of variant A *)

(** The weekday fields as [parseTable] sets them: a label of [DAYS] when the
    date was readable, the empty string otherwise. *)
Definition dayFieldsA (r : VariantA.TradeRecord) : Prop :=
  match VariantA.date r with
  | Some _ => In (VariantA.dayName r) VariantA.DAYS
  | None => VariantA.dayName r = ""%string
  end.

Definition hasDateA (r : VariantA.TradeRecord) : bool :=
  match VariantA.date r with Some _ => true | None => false end.

(** The amounts [computeStats] reduces. *)
Definition wins (rows : list VariantA.TradeRecord) : list VariantA.TradeRecord :=
  filter (fun r => gt (VariantA.netPnl r) 0) rows.

Definition losses (rows : list VariantA.TradeRecord) : list VariantA.TradeRecord :=
  filter (fun r => lt (VariantA.netPnl r) 0) rows.

Definition positiveWinPcts (rows : list VariantA.TradeRecord) : list number :=
  filter (fun p => gt p 0) (map VariantA.winPct rows).

(** *** Records of variant B *)

Definition dayFieldsB (r : VariantB.TradeRecord) : Prop :=
  match VariantB.date r with
  | Some _ => In (VariantB.dayName r) VariantB.DAYS
  | None => VariantB.dayName r = ""%string
  end.

Definition hasDateB (r : VariantB.TradeRecord) : bool :=
  match VariantB.date r with Some _ => true | None => false end.

(** The records that count for a day: those with a date key. *)
Definition dated (host : Host) (r : VariantB.TradeRecord) : bool :=
  negb (VariantB.dateKey host r =? "")%string.

(** The trading days of a record list: its distinct date keys. *)
Definition tradingDays (host : Host) (rows : list VariantB.TradeRecord) : list string :=
  nodup string_dec (map (VariantB.dateKey host) (filter (dated host) rows)).

(** The net total of a day: the records of that key, summed in encounter order. *)
Definition netOfDay (host : Host) (rows : list VariantB.TradeRecord) (d : string) : number :=
  VariantB.sumOf VariantB.netPnl
    (filter (fun r => (VariantB.dateKey host r =? d)%string) rows).

(** The gross amount [computeStats] adds up for a day. *)
Definition grossOf (r : VariantB.TradeRecord) : number :=
  VariantB.orElse (VariantB.grossPnl r)
    (VariantB.netPnl r + VariantB.orElse (VariantB.commission r) 0).

Definition grossOfDay (host : Host) (rows : list VariantB.TradeRecord) (d : string) : number :=
  VariantB.sumOf grossOf (filter (fun r => (VariantB.dateKey host r =? d)%string) rows).

(** The Numbers among the [pnlLow] fields. *)
Definition pnlLowValues (rows : list VariantB.TradeRecord) : list number :=
  VariantB.numbersOf (map VariantB.pnlLow rows).

(** The net amounts of the records that lost. *)
Definition lossAmounts (rows : list VariantB.TradeRecord) : list number :=
  map VariantB.netPnl (filter (fun r => lt (VariantB.netPnl r) 0) rows).

End Spec.

(** ** Formatting

    [formatMoney], [formatPct] and [formatNum] have the same text in both
    scripts.  The digits come from the engine: [toLocaleString] with the
    options the scripts pass and [toFixed] are parameters. *)

Module Format.

Import JS.
Local Open Scope float_scope.

Record Formatter := {
  (* [x.toLocaleString('en-US', { minimumFractionDigits: 2, maximumFractionDigits: 2 })] *)
  toLocaleString : number -> string;
  (* [x.toFixed(digits)] *)
  toFixed : number -> nat -> string
}.

Section Formatter.
Variable fmt : Formatter.

Definition formatMoney (n : number) : string :=
  let sign := if PrimFloat.leb 0 n then "" else "-" in
  sign ++ "$" ++ toLocaleString fmt (Math_abs n).

(** [(n || 0).toFixed(1) + '%'] *)
Definition formatPct (n : number) : string :=
  toFixed fmt (if truthy n then n else 0) 1 ++ "%".

(** [(n ?? 0).toFixed(decimals)]: a Number is never [null] or [undefined]. *)
Definition formatNum (n : number) (decimals : nat) : string :=
  toFixed fmt n decimals.

End Formatter.

End Format.

(** ** The panel

    [renderPanel] computes the two dictionaries, the sorted symbols and the
    summary to show, writes the template and registers the listeners.  The
    template is a function of the five values of a [View]; it is embedded up
    to them.  A listener calls [renderPanel] again on the same rows, with
    arguments that depend on the control.  [assetKey] and [dayKey] are
    [None] for [null]. *)

Module Panel.

Import JS JSObject.

(** The [length] of the value [Object.prototype] holds under a name: the
    number of parameters of the function (ECMA-262 20.1.2, 20.1.3 and B.2.2),
    and none for [__proto__], which reads the prototype object itself. *)
Definition inheritedLength (k : string) : option nat :=
  if k =? "__proto__" then None
  else if (k =? "toLocaleString") || (k =? "toString") || (k =? "valueOf") then Some 0
  else if (k =? "__defineGetter__") || (k =? "__defineSetter__") then Some 2
  else Some 1.

(** [key && o[key]]: the key is a non-empty string and the dictionary has a
    truthy value under it, own or inherited. *)
Definition selects {V} (o : obj V) (key : option string) : bool :=
  match key with
  | Some k =>
      negb (k =? "") && match get o k with Undefined => false | _ => true end
  | None => false
  end.

Definition keyText (key : option string) : string :=
  match key with Some k => k | None => "" end.

(** The arguments of a [renderPanel] call after the container and the rows. *)
Record Args := {
  viewMode : string;
  assetKey : option string;
  dayKey : option string
}.

(** [injectPanel] renders with ['all', null, null]. *)
Definition initial : Args := {| viewMode := "all"; assetKey := None; dayKey := None |}.

(** The listener of a toggle button whose [data-view] is [v], in a panel
    that lists [symbols]; [firstDay] is [DAYS[0]] or [WORK_DAYS[0]]. *)
Definition onToggle (firstDay : option string) (symbols : list string) (v : string) : Args :=
  {| viewMode := v;
     assetKey := if (v =? "asset") && negb (Nat.eqb (List.length symbols) 0)
                 then nth_error symbols 0 else None;
     dayKey := if v =? "day" then firstDay else None |}.

(** The listeners of the two selectors, for the [value] of the selector. *)
Definition onAssetChange (value : string) : Args :=
  {| viewMode := "asset"; assetKey := Some value; dayKey := None |}.

Definition onDayChange (value : string) : Args :=
  {| viewMode := "day"; assetKey := None; dayKey := Some value |}.

End Panel.

(** *** Variant A *)

Module PanelA.

Import JS JSObject VariantA Panel.

(** [computeStats(o[k])].  An own property is one of the arrays.  A value
    read through the prototype has no [filter]: [computeStats] returns the
    empty summary when its [length] is falsy and throws otherwise. *)
Definition computeStatsAt (o : obj (list TradeRecord)) (k : string) : completion StatsSummary :=
  match get o k with
  | Own rows => Normal (computeStats rows)
  | Inherited =>
      match inheritedLength k with
      | Some (S _) => Throw TypeError
      | _ => Normal emptyStats
      end
  | Undefined => Throw TypeError
  end.

Record View := {
  v_viewMode : string;
  v_assetKey : option string;
  v_dayKey : option string;
  v_symbols : list string;
  currentStats : StatsSummary
}.

Definition renderPanel (allRows : list TradeRecord) (a : Args) : completion View :=
  bind (groupBySymbol allRows) (fun bySymbol =>
  bind (groupByDayOfWeek allRows) (fun byDay =>
  let symbols := symbols bySymbol in
  let currentStats := computeStats allRows in
  bind
    (if (viewMode a =? "asset") && selects bySymbol (assetKey a)
     then computeStatsAt bySymbol (keyText (assetKey a))
     else if (viewMode a =? "day") && selects byDay (dayKey a)
     then computeStatsAt byDay (keyText (dayKey a))
     else Normal currentStats)
    (fun currentStats =>
  Normal {| v_viewMode := viewMode a;
            v_assetKey := assetKey a;
            v_dayKey := dayKey a;
            v_symbols := symbols;
            currentStats := currentStats |}))).

(** [DAYS[0]] *)
Definition toggle (symbols : list string) (v : string) : Args :=
  onToggle (nth_error DAYS 0) symbols v.

End PanelA.

(** *** Variant B *)

Module PanelB.

Import JS JSObject VariantB Panel.

Record View := {
  v_viewMode : string;
  v_assetKey : option string;
  v_dayKey : option string;
  v_symbols : list string;
  currentStats : StatsSummary
}.

(** [WORK_DAYS[0]] *)
Definition toggle (symbols : list string) (v : string) : Args :=
  onToggle (nth_error WORK_DAYS 0) symbols v.

Section Host.
Variable host : Host.

(** [computeStats(o[k])]; a value read through the prototype has no
    [forEach]. *)
Definition computeStatsAt (o : obj (list TradeRecord)) (k : string) : completion StatsSummary :=
  match get o k with
  | Own rows => computeStats host rows
  | Inherited =>
      match inheritedLength k with
      | Some (S _) => Throw TypeError
      | _ => Normal emptyStats
      end
  | Undefined => Throw TypeError
  end.

Definition renderPanel (allRows : list TradeRecord) (a : Args) : completion View :=
  bind (groupBySymbol allRows) (fun bySymbol =>
  bind (groupByDayOfWeek allRows) (fun byDay =>
  let symbols := symbols bySymbol in
  bind (computeStats host allRows) (fun currentStats =>
  bind
    (if (viewMode a =? "asset") && selects bySymbol (assetKey a)
     then computeStatsAt bySymbol (keyText (assetKey a))
     else if (viewMode a =? "day") && selects byDay (dayKey a)
     then computeStatsAt byDay (keyText (dayKey a))
     else Normal currentStats)
    (fun currentStats =>
  Normal {| v_viewMode := viewMode a;
            v_assetKey := assetKey a;
            v_dayKey := dayKey a;
            v_symbols := symbols;
            currentStats := currentStats |})))).

End Host.

End PanelB.

(** ** More vocabulary *)

Module Terms.

Import JS JSObject DOM.

(** A string that is white space only. *)
Definition blank (s : string) : bool := forallb isWhiteSpace (list_ascii_of_string s).

(** The last character of a string, when there is one. *)
Fixpoint last (s : string) : option ascii :=
  match s with
  | EmptyString => None
  | String c EmptyString => Some c
  | String _ r => last r
  end.

(** A string that [trim] leaves as it is. *)
Definition trimmed (s : string) : Prop := trim s = s.

(** [td.textContent] of the cell with a label, the empty string without
    such a cell; and the text the symbol is taken from. *)
Definition cellContent (tr : Row) (dataLabel : string) : string :=
  match querySelector (cells tr) dataLabel with
  | Some text => text
  | None => ""
  end.

Definition symbolContent (tr : Row) : string :=
  match symbolBadge tr with
  | Some text => text
  | None => cellContent tr "Symbol"
  end.

(** The three date fields of a record agree: a weekday index below 7 and
    its label when there is a date, [null] and the empty label otherwise. *)
Definition dayFieldsAgree (host : Host) (DAYS : list string)
    (date : option Z) (dayOfWeek : option nat) (dayName : string) : Prop :=
  match date with
  | Some t =>
      dayOfWeek = Some (getDay host t) /\ (getDay host t < 7)%nat
      /\ nth_error DAYS (getDay host t) = Some dayName
  | None => dayOfWeek = None /\ dayName = ""
  end.

(** The records of variant A that are neither a win nor a loss. *)
Definition flat (rows : list VariantA.TradeRecord) : list VariantA.TradeRecord :=
  filter (fun r => negb (gt (VariantA.netPnl r) 0%float) && negb (lt (VariantA.netPnl r) 0%float))
    rows.

(** The sum of a count over the buckets of a dictionary. *)
Definition sumOver {R} (count : list R -> nat) (buckets : list (string * list R)) : nat :=
  list_sum (map (fun e => count (snd e)) buckets).

(** A formatter for the examples: it prints a mark in place of the digits. *)
Definition marks : Format.Formatter :=
  {| Format.toLocaleString := fun _ => "#.##"; Format.toFixed := fun _ _ => "#" |}.



End Terms.

(** * Theorems *)

(** ** Facts on Numbers, from the specification of binary64 *)

Module FloatFacts.

Import JS Spec.
Local Open Scope float_scope.

Lemma SFcompare_refl (x : spec_float) :
  x <> S754_nan -> SFcompare x x = Some Eq.
Proof.
  destruct x as [s|s| |s m e]; simpl; intros H; try congruence.
  - now destruct s.
  - rewrite Z.compare_refl.
    change (Pos.compare_cont Eq m m) with (Pos.compare m m).
    rewrite Pos.compare_refl. now destruct s.
Qed.

Lemma is_nan_Prim2SF (x : float) :
  PrimFloat.is_nan x = true <-> Prim2SF x = S754_nan.
Proof.
  unfold PrimFloat.is_nan. rewrite eqb_spec. unfold SFeqb. split.
  - intros H. destruct (Prim2SF x) eqn:E; auto;
      rewrite SFcompare_refl in H by congruence; discriminate.
  - intros ->. reflexivity.
Qed.

Lemma not_nan_Prim2SF (x : float) :
  PrimFloat.is_nan x = false <-> Prim2SF x <> S754_nan.
Proof.
  rewrite <- is_nan_Prim2SF. destruct (PrimFloat.is_nan x); split; congruence.
Qed.

Lemma is_nan_abs (x : float) : PrimFloat.is_nan (abs x) = PrimFloat.is_nan x.
Proof.
  apply eq_true_iff_eq. rewrite !is_nan_Prim2SF, abs_spec.
  destruct (Prim2SF x); simpl; split; congruence.
Qed.

Lemma is_nan_opp (x : float) : PrimFloat.is_nan (- x) = PrimFloat.is_nan x.
Proof.
  apply eq_true_iff_eq. rewrite !is_nan_Prim2SF, opp_spec.
  destruct (Prim2SF x); simpl; split; congruence.
Qed.

(** The order of [SFcompare] on the values that are not NaN. *)
Ltac cmp_cases :=
  repeat match goal with
  | |- context [Z.compare ?a ?b] => destruct (Z.compare_spec a b)
  | H : context [Z.compare ?a ?b] |- _ => destruct (Z.compare_spec a b)
  | |- context [Pos.compare_cont Eq ?a ?b] =>
      change (Pos.compare_cont Eq a b) with (Pos.compare a b);
      destruct (Pos.compare_spec a b)
  | H : context [Pos.compare_cont Eq ?a ?b] |- _ =>
      change (Pos.compare_cont Eq a b) with (Pos.compare a b) in H;
      destruct (Pos.compare_spec a b)
  end.

Lemma SFleb_trans (x y z : spec_float) :
  SFleb x y = true -> SFleb y z = true -> SFleb x z = true.
Proof.
  unfold SFleb.
  destruct x as [sx|sx| |sx mx ex], y as [sy|sy| |sy my ey], z as [sz|sz| |sz mz ez];
    simpl; try discriminate; try reflexivity;
    try (destruct sx); try (destruct sy); try (destruct sz);
    simpl; try discriminate; try reflexivity;
    intros H1 H2; cmp_cases; simpl in *; try discriminate; try reflexivity; try lia.
Qed.

Lemma SFltb_leb (x y : spec_float) : SFltb x y = true -> SFleb x y = true.
Proof.
  unfold SFltb, SFleb. destruct (SFcompare x y) as [[| |]|]; congruence.
Qed.

Lemma SFleb_total (x y : spec_float) :
  x <> S754_nan -> y <> S754_nan -> SFltb y x = false -> SFleb x y = true.
Proof.
  unfold SFltb, SFleb.
  destruct x as [sx|sx| |sx mx ex], y as [sy|sy| |sy my ey];
    simpl; try congruence;
    try (destruct sx); try (destruct sy); simpl; try congruence;
    intros _ _ H; cmp_cases; simpl in *; try discriminate; try reflexivity; try lia.
Qed.

Lemma leb_trans (x y z : float) :
  (x <=? y) = true -> (y <=? z) = true -> (x <=? z) = true.
Proof. rewrite !leb_spec. apply SFleb_trans. Qed.

Lemma ltb_leb (x y : float) : (x <? y) = true -> (x <=? y) = true.
Proof. rewrite ltb_spec, leb_spec. apply SFltb_leb. Qed.

Lemma not_ltb_leb (x y : float) :
  PrimFloat.is_nan x = false -> PrimFloat.is_nan y = false ->
  (y <? x) = false -> (x <=? y) = true.
Proof.
  rewrite !not_nan_Prim2SF, ltb_spec, leb_spec. apply SFleb_total.
Qed.

Lemma leb_refl (x : float) : PrimFloat.is_nan x = false -> (x <=? x) = true.
Proof.
  rewrite not_nan_Prim2SF, leb_spec. intros H. unfold SFleb.
  now rewrite SFcompare_refl.
Qed.

Lemma ltb_not_nan (x y : float) :
  (x <? y) = true -> PrimFloat.is_nan x = false /\ PrimFloat.is_nan y = false.
Proof.
  rewrite ltb_spec, !not_nan_Prim2SF. unfold SFltb.
  destruct (Prim2SF x), (Prim2SF y); simpl; try discriminate; split; congruence.
Qed.

Lemma leb_not_nan (x y : float) :
  (x <=? y) = true -> PrimFloat.is_nan x = false /\ PrimFloat.is_nan y = false.
Proof.
  rewrite leb_spec, !not_nan_Prim2SF. unfold SFleb.
  destruct (Prim2SF x), (Prim2SF y); simpl; try discriminate; split; congruence.
Qed.


Lemma shr_1_nonneg mrs : (0 <= shr_m mrs)%Z -> (0 <= shr_m (shr_1 mrs))%Z.
Proof.
  destruct mrs as [m r s]. simpl. destruct m as [|p|p]; simpl; try lia.
  - destruct p; simpl; lia.
Qed.

Lemma iter_pos_nonneg (n : positive) mrs :
  (0 <= shr_m mrs)%Z -> (0 <= shr_m (iter_pos shr_1 n mrs))%Z.
Proof.
  revert mrs. induction n as [n IH|n IH|]; simpl; intros mrs H.
  - apply IH, IH, shr_1_nonneg, H.
  - apply IH, IH, H.
  - apply shr_1_nonneg, H.
Qed.

Lemma shr_nonneg mrs e n : (0 <= shr_m mrs)%Z -> (0 <= shr_m (fst (shr mrs e n)))%Z.
Proof.
  intros H. destruct n; simpl; auto. now apply iter_pos_nonneg.
Qed.

Lemma shr_record_of_loc_m m l : shr_m (shr_record_of_loc m l) = m.
Proof. destruct l as [|[| |]]; reflexivity. Qed.

Lemma shr_fexp_nonneg m e l :
  (0 <= m)%Z -> (0 <= shr_m (fst (shr_fexp prec emax m e l)))%Z.
Proof.
  intros H. unfold shr_fexp. apply shr_nonneg. now rewrite shr_record_of_loc_m.
Qed.

Lemma round_nearest_even_nonneg m l : (0 <= m)%Z -> (0 <= round_nearest_even m l)%Z.
Proof.
  intros H. destruct l as [|[| |]]; simpl; try lia. destruct (Z.even m); lia.
Qed.

Lemma binary_round_aux_signed s m e l :
  (0 <= m)%Z -> signed s (binary_round_aux prec emax s m e l).
Proof.
  intros H. unfold binary_round_aux.
  pose proof (shr_fexp_nonneg m e l H) as H1.
  destruct (shr_fexp prec emax m e l) as [mrs' e']. simpl in H1.
  pose proof (shr_fexp_nonneg _ e' loc_Exact
                (round_nearest_even_nonneg _ (loc_of_shr_record mrs') H1)) as H2.
  destruct (shr_fexp prec emax _ e' loc_Exact) as [mrs'' e'']. simpl in H2.
  destruct (shr_m mrs'') as [|p|p]; simpl; try lia; auto.
  destruct (_ <=? _)%Z; simpl; reflexivity.
Qed.

Lemma binary_round_signed s m e : signed s (binary_round prec emax s m e).
Proof.
  unfold binary_round. destruct (shl_align _ _ _) as [mz ez].
  apply binary_round_aux_signed. lia.
Qed.

Lemma signed_weakly s x : signed s x -> weakly s x.
Proof. destruct x; simpl; auto. Qed.

Lemma binary_normalize_signed (s : bool) (m e : Z) (sz : bool) :
  (if s then m < 0 else 0 < m)%Z -> signed s (binary_normalize prec emax m e sz).
Proof.
  destruct s, m; simpl; try lia; intros _; apply binary_round_signed.
Qed.

Lemma SFadd_weakly s x y :
  weakly s x -> weakly s y -> weakly s (SF64add x y).
Proof.
  unfold SF64add.
  destruct x as [sx|sx| |sx mx ex], y as [sy|sy| |sy my ey];
    cbn [weakly SFadd]; try tauto; intros Hx Hy; subst; try reflexivity.
  - destruct sx, sy; exact I.
  - destruct s; reflexivity.
  - apply signed_weakly, binary_normalize_signed.
    destruct s; cbn [cond_Zopp]; lia.
Qed.

Lemma Prim2SF_zero : Prim2SF 0 = S754_zero false.
Proof. reflexivity. Qed.

Lemma nonneg_weakly (x : float) : (0 <=? x) = true <-> weakly false (Prim2SF x).
Proof.
  rewrite leb_spec, Prim2SF_zero. unfold SFleb.
  destruct (Prim2SF x) as [s|s| |s m e]; simpl; try (destruct s); simpl;
    split; intros; try discriminate; try tauto; auto.
Qed.

Lemma nonpos_weakly (x : float) : (x <=? 0) = true <-> weakly true (Prim2SF x).
Proof.
  rewrite leb_spec, Prim2SF_zero. unfold SFleb.
  destruct (Prim2SF x) as [s|s| |s m e]; simpl; try (destruct s); simpl;
    split; intros; try discriminate; try tauto; auto.
Qed.

Lemma add_nonneg (x y : float) :
  (0 <=? x) = true -> (0 <=? y) = true -> (0 <=? x + y) = true.
Proof. rewrite !nonneg_weakly, add_spec. apply SFadd_weakly. Qed.

Lemma add_nonpos (x y : float) :
  (x <=? 0) = true -> (y <=? 0) = true -> (x + y <=? 0) = true.
Proof. rewrite !nonpos_weakly, add_spec. apply SFadd_weakly. Qed.

Lemma abs_nonneg (x : float) : PrimFloat.is_nan x = false -> (0 <=? abs x) = true.
Proof.
  rewrite not_nan_Prim2SF, nonneg_weakly, abs_spec.
  destruct (Prim2SF x); simpl; intros H; auto; congruence.
Qed.

(** A value that is not below zero and not NaN is a zero or is positive. *)
Lemma nonneg_cases (x : float) :
  (0 <=? x) = true -> (x =? 0) = true \/ (0 <? x) = true.
Proof.
  rewrite leb_spec, eqb_spec, ltb_spec, Prim2SF_zero.
  unfold SFleb, SFeqb, SFltb.
  destruct (Prim2SF x) as [s|s| |s m e]; simpl; try (destruct s); simpl; auto.
Qed.

Lemma zero_not_positive (x : float) : (x =? 0) = true -> (0 <? x) = false /\ (x <? 0) = false.
Proof.
  rewrite eqb_spec, !ltb_spec, Prim2SF_zero. unfold SFeqb, SFltb.
  destruct (Prim2SF x) as [s|s| |s m e]; simpl; try (destruct s); simpl;
    try discriminate; auto.
Qed.


(** [xs.reduce((s, x) => s + f(x), 0)] over values of one sign. *)
Lemma sum_nonneg {A} (f : A -> float) (xs : list A) (acc : float) :
  (0 <=? acc) = true -> (forall x, In x xs -> (0 <=? f x) = true) ->
  (0 <=? fold_left (fun s x => s + f x) xs acc) = true.
Proof.
  revert acc. induction xs as [|x xs IH]; simpl; intros acc Ha Hx; auto.
  apply IH; auto. apply add_nonneg; auto.
Qed.

Lemma sum_nonpos {A} (f : A -> float) (xs : list A) (acc : float) :
  (acc <=? 0) = true -> (forall x, In x xs -> (f x <=? 0) = true) ->
  (fold_left (fun s x => s + f x) xs acc <=? 0) = true.
Proof.
  revert acc. induction xs as [|x xs IH]; simpl; intros acc Ha Hx; auto.
  apply IH; auto. apply add_nonpos; auto.
Qed.

(** The Number of a count: a count between 1 and 2^53 is converted without
    rounding, to a value that is not a zero. *)
Lemma digits2_pos_iter_xO (p k : positive) :
  digits2_pos (Pos.iter xO p k) = (digits2_pos p + k)%positive.
Proof.
  induction k as [|k IH] using Pos.peano_ind.
  - simpl. lia.
  - rewrite Pos.iter_succ. simpl. rewrite IH. lia.
Qed.

Ltac shift_zero :=
  match goal with
  | |- context [shr _ _ ?n] =>
      replace n with 0%Z by (unfold fexp, emin, prec, emax; lia)
  end.

Lemma binary_round_aux_exact (m : positive) (e : Z) :
  Zpos (digits2_pos m) = 53%Z -> (-1074 <= e <= 971)%Z ->
  binary_round_aux prec emax false (Zpos m) e loc_Exact = S754_finite false m e.
Proof.
  intros Hd He. unfold binary_round_aux, shr_fexp.
  cbn [Zdigits2 shr_record_of_loc round_nearest_even loc_of_shr_record shr_m].
  rewrite Hd. shift_zero.
  cbn [shr round_nearest_even loc_of_shr_record shr_m Zdigits2].
  rewrite Hd. shift_zero.
  cbn [shr shr_m].
  match goal with
  | |- (if ?b then _ else _) = _ =>
      replace b with true
        by (symmetry; apply Z.leb_le; unfold prec, emax; lia)
  end.
  reflexivity.
Qed.

Lemma binary_normalize_count (p : positive) :
  (Zpos (digits2_pos p) <= 53)%Z ->
  exists m e, binary_normalize prec emax (Zpos p) 0 false = S754_finite false m e.
Proof.
  intros Hd. cbn [binary_normalize]. unfold binary_round, shl_align.
  match goal with
  | |- context [match ?n with Z0 => _ | Zpos _ => _ | Zneg _ => _ end] =>
      replace n with (Zpos (digits2_pos p) - 53)%Z
        by (unfold fexp, emin, prec, emax; lia)
  end.
  match goal with
  | |- context [fexp prec emax ?n] =>
      replace (fexp prec emax n) with (Zpos (digits2_pos p) - 53)%Z
        by (unfold fexp, emin, prec, emax; lia)
  end.
  destruct (Zpos (digits2_pos p) - 53)%Z as [|k|k] eqn:E; try lia.
  - exists p, 0%Z. apply binary_round_aux_exact; lia.
  - exists (Pos.iter xO p k), (Zneg k).
    apply binary_round_aux_exact; [rewrite digits2_pos_iter_xO|]; lia.
Qed.

Lemma digits2_pos_bound (p : positive) (n : Z) :
  (0 <= n)%Z -> (Zpos p < 2 ^ n)%Z -> (Zpos (digits2_pos p) <= n)%Z.
Proof.
  revert n. induction p as [p IH|p IH|]; intros n Hn H; cbn [digits2_pos].
  - assert (n <> 0)%Z by (intros ->; simpl in H; lia).
    specialize (IH (n - 1)%Z ltac:(lia)).
    replace n with (Z.succ (n - 1)) in H by lia. rewrite Z.pow_succ_r in H by lia.
    lia.
  - assert (n <> 0)%Z by (intros ->; simpl in H; lia).
    specialize (IH (n - 1)%Z ltac:(lia)).
    replace n with (Z.succ (n - 1)) in H by lia. rewrite Z.pow_succ_r in H by lia.
    lia.
  - assert (n <> 0)%Z by (intros ->; simpl in H; lia). lia.
Qed.


End FloatFacts.

(** ** The field parsers *)

Module ParserFacts.

Import JS FloatFacts.
Local Open Scope float_scope.
#[local] Set Warnings "-inexact-float".

Lemma guarded_not_nan (n : number) : isNaN (if isNaN n then 0 else n) = false.
Proof. destruct (isNaN n) eqn:E; [reflexivity | exact E]. Qed.

Lemma parseCurrencyA_not_nan (s : string) : isNaN (VariantA.parseCurrency s) = false.
Proof.
  unfold VariantA.parseCurrency. destruct (s =? "")%string; [reflexivity|].
  apply guarded_not_nan.
Qed.

Lemma parseCurrencyB_not_nan (s : string) : isNaN (VariantB.parseCurrency s) = false.
Proof.
  unfold VariantB.parseCurrency. destruct (s =? "")%string; [reflexivity|].
  cbv zeta. destruct (isNaN (parseFloat _)) eqn:E; [reflexivity|].
  destruct (includesChar _ _); [|exact E].
  unfold isNaN, neg, Math_abs in *. now rewrite is_nan_opp, is_nan_abs.
Qed.

Lemma parsePct_not_nan (s : string) : isNaN (VariantA.parsePct s) = false.
Proof.
  unfold VariantA.parsePct. destruct (s =? "")%string; [reflexivity|].
  apply guarded_not_nan.
Qed.

(** What [trim] and the two [replace] calls leave of a string that starts
    with an opening parenthesis still starts with it. *)
Lemma trimEnd_paren (s : string) : exists t, trimEnd (String "(" s) = String "(" t.
Proof.
  cbn [trimEnd]. destruct (trimEnd s); [exists ""|eexists]; reflexivity.
Qed.

Lemma parseFloat_paren (s : string) : parseFloat (String "(" s) = PrimFloat.nan.
Proof. reflexivity. Qed.

Lemma trim_paren (s : string) : exists t, trim (String "(" s) = String "(" t.
Proof. unfold trim. change (trimStart (String "(" s)) with (String "(" s). apply trimEnd_paren. Qed.

Lemma removeAll_paren (cls : ascii -> bool) (s : string) :
  cls "("%char = false -> removeAll cls (String "(" s) = String "(" (removeAll cls s).
Proof. intros H. cbn [removeAll]. now rewrite H. Qed.

Lemma parseCurrencyB_leading_paren (s : string) :
  VariantB.parseCurrency (String "(" s) = 0.
Proof.
  unfold VariantB.parseCurrency. cbn [String.eqb].
  destruct (trim_paren s) as [t ->]. cbv zeta.
  rewrite !removeAll_paren by reflexivity.
  now rewrite parseFloat_paren.
Qed.

Lemma parseCurrencyA_leading_paren (s : string) :
  VariantA.parseCurrency (String "(" s) = 0.
Proof.
  unfold VariantA.parseCurrency. cbn [String.eqb]. cbv zeta.
  rewrite removeAll_paren by reflexivity.
  destruct (trim_paren (removeAll VariantA.isDollarOrComma s)) as [t ->].
  now rewrite parseFloat_paren.
Qed.

(** [parseFloat] on literals at the edges of binary64 and on malformed text. *)
Lemma parseFloat_examples :
  parseFloat "0.1" = 0.1
  /\ parseFloat "  -12.5e+3abc" = -12500
  /\ parseFloat ".5" = 0.5
  /\ parseFloat "5." = 5
  /\ parseFloat "9007199254740993" = 9007199254740992
  /\ parseFloat "1.7976931348623157e308" = 0x1.fffffffffffffp+1023
  /\ parseFloat "1.7976931348623159e308" = PrimFloat.infinity
  /\ parseFloat "5e-324" = 0x1p-1074
  /\ parseFloat "2.4703282292062327e-324" = 0
  /\ parseFloat "2.4703282292062328e-324" = 0x1p-1074
  /\ parseFloat "-0" = PrimFloat.neg_zero
  /\ parseFloat "-Infinity" = PrimFloat.neg_infinity
  /\ isNaN (parseFloat "") = true
  /\ isNaN (parseFloat ".") = true
  /\ isNaN (parseFloat "e5") = true
  /\ isNaN (parseFloat "$5") = true
  /\ parseFloat "1e" = 1
  /\ parseFloat "0x10" = 0.
Proof. do 17 (split; [vm_compute; reflexivity|]). vm_compute; reflexivity. Qed.

(** C1.  [parseCurrency] on the inputs of the scenario, in both scripts:
    ["$1,234.56"] gives 1234.56, the empty string and ["garbage"] give 0,
    and no input makes it return NaN (it is a total function, nothing in
    it throws).  The parenthesized input ["(123.45)"] gives 0 and not
    -123.45, also in variant B: [parseFloat] finds no number at the
    parenthesis, so the function returns 0 before it tests for one.  The
    same happens to every input that starts with a parenthesis; the test is
    reached only when the parenthesis follows the number. *)
Theorem parseCurrency_scenarios :
  VariantA.parseCurrency "$1,234.56" = 1234.56
  /\ VariantB.parseCurrency "$1,234.56" = 1234.56
  /\ VariantA.parseCurrency "" = 0
  /\ VariantB.parseCurrency "" = 0
  /\ VariantA.parseCurrency "garbage" = 0
  /\ VariantB.parseCurrency "garbage" = 0
  /\ VariantA.parseCurrency "(123.45)" = 0
  /\ VariantB.parseCurrency "(123.45)" = 0
  /\ (forall s, VariantB.parseCurrency (String "(" s) = 0)
  /\ VariantB.parseCurrency "123.45 (loss)" = -123.45
  /\ (forall s, isNaN (VariantA.parseCurrency s) = false)
  /\ (forall s, isNaN (VariantB.parseCurrency s) = false).
Proof.
  do 8 (split; [vm_compute; reflexivity|]).
  split; [exact parseCurrencyB_leading_paren|].
  split; [vm_compute; reflexivity|].
  split; [exact parseCurrencyA_not_nan | exact parseCurrencyB_not_nan].
Qed.

End ParserFacts.

(** ** Dictionaries *)

Module ObjectFacts.

Import JS JSObject.

Section Dict.
Context {V : Type}.
Implicit Types (o : obj V) (k : string) (v : V).

Lemma getOwn_In o k v : getOwn o k = Some v -> In (k, v) o.
Proof.
  induction o as [|[k' v'] o IH]; simpl; [discriminate|].
  destruct (String.eqb_spec k k') as [->|_].
  - intros [= ->]. now left.
  - intros H. right. now apply IH.
Qed.

Lemma getOwn_None o k : getOwn o k = None <-> ~ In k (map fst o).
Proof.
  induction o as [|[k' v'] o IH]; simpl; [tauto|].
  destruct (String.eqb_spec k k') as [->|Hne].
  - split; [discriminate | intros H; exfalso; apply H; now left].
  - rewrite IH. split; intros H; [intros [E|E]; [congruence | tauto] | tauto].
Qed.

Lemma In_getOwn o k v : NoDup (map fst o) -> In (k, v) o -> getOwn o k = Some v.
Proof.
  induction o as [|[k' v'] o IH]; simpl; [tauto|].
  intros Hnd [E|Hin]; inversion Hnd as [|? ? Hk Hnd']; subst.
  - injection E as -> ->. now rewrite String.eqb_refl.
  - destruct (String.eqb_spec k k') as [->|_]; [|now apply IH].
    exfalso. apply Hk. apply (in_map fst) in Hin. exact Hin.
Qed.

Lemma update_keys o k v : map fst (update o k v) = map fst o.
Proof.
  induction o as [|[k' v'] o IH]; simpl; [reflexivity|].
  destruct (String.eqb k k'); simpl; congruence.
Qed.

Lemma getOwn_update o k v k' :
  getOwn o k <> None ->
  getOwn (update o k v) k' = if String.eqb k' k then Some v else getOwn o k'.
Proof.
  induction o as [|[k0 v0] o IH]; simpl; [congruence|].
  destruct (String.eqb_spec k k0) as [->|Hne]; simpl.
  - intros _. destruct (String.eqb k' k0); reflexivity.
  - intros H. rewrite IH by exact H.
    destruct (String.eqb_spec k' k0) as [->|_]; [|reflexivity].
    destruct (String.eqb_spec k0 k); congruence.
Qed.

Lemma create_keys o k v : map fst (create o k v) = map fst o ++ [k].
Proof. unfold create. now rewrite map_app. Qed.

Lemma getOwn_create o k v k' :
  getOwn o k = None ->
  getOwn (create o k v) k' = if String.eqb k' k then Some v else getOwn o k'.
Proof.
  unfold create. induction o as [|[k0 v0] o IH]; simpl.
  - intros _. reflexivity.
  - destruct (String.eqb_spec k k0) as [->|Hne]; [discriminate|].
    intros H. rewrite IH by exact H.
    destruct (String.eqb_spec k' k0) as [->|_]; [|reflexivity].
    destruct (String.eqb_spec k0 k); congruence.
Qed.

(** [Object.entries] lists every own property once. *)
Lemma insertByIndex_perm i (e : string * V) l :
  Permutation (insertByIndex i e l) ((i, e) :: l).
Proof.
  induction l as [|[j e'] l IH]; simpl; [reflexivity|].
  destruct (i <? j)%Z; [reflexivity|].
  rewrite IH. apply perm_swap.
Qed.

Lemma entries_perm o : Permutation (entries o) o.
Proof.
  unfold entries. induction o as [|[k v] o IH]; simpl; [reflexivity|].
  destruct (arrayIndex k) as [i|]; simpl.
  - rewrite insertByIndex_perm. simpl. now constructor.
  - symmetry. apply Permutation_cons_app. symmetry. exact IH.
Qed.

Lemma keys_perm o : Permutation (keys o) (map fst o).
Proof. unfold keys. apply Permutation_map, entries_perm. Qed.

End Dict.

End ObjectFacts.

(** ** The grouping loops *)

Module GroupingFacts.

Import JS JSObject Grouping ObjectFacts Spec.

Section Records.
Context {R : Type}.
Implicit Types (o : obj (list R)) (k : string) (r : R) (rows : list R).

Lemma forEach_nil step o : forEach (R:=R) step [] o = Normal o.
Proof. reflexivity. Qed.

Lemma forEach_thrown step rows e :
  fold_left (fun acc r => bind acc (fun o' => step o' r)) rows (Throw e)
  = Throw (A:=obj (list R)) e.
Proof. induction rows as [|r rows IH]; simpl; auto. Qed.

Lemma forEach_cons step r rows o :
  forEach step (r :: rows) o
  = match step o r with
    | Normal o' => forEach step rows o'
    | Throw e => Throw e
    end.
Proof.
  unfold forEach. simpl. destruct (step o r); simpl; [reflexivity|].
  apply forEach_thrown.
Qed.

Lemma forEach_app step rows1 rows2 o :
  forEach step (rows1 ++ rows2) o
  = match forEach step rows1 o with
    | Normal o' => forEach step rows2 o'
    | Throw e => Throw e
    end.
Proof.
  revert o. induction rows1 as [|r rows1 IH]; intros o; [reflexivity|].
  simpl app. rewrite !forEach_cons. destruct (step o r); auto.
Qed.

(** A step that ignores some records can run on the others alone. *)
Lemma forEach_filter step (keep : R -> bool) rows o :
  (forall o' r, keep r = false -> step o' r = Normal o') ->
  forEach step rows o = forEach step (filter keep rows) o.
Proof.
  intros Hskip. revert o. induction rows as [|r rows IH]; intros o; [reflexivity|].
  simpl filter. destruct (keep r) eqn:E.
  - rewrite !forEach_cons. destruct (step o r); auto.
  - rewrite forEach_cons, Hskip by exact E. apply IH.
Qed.

Variable key : R -> string.
Local Abbreviation hasKey := (Spec.hasKey key).
Local Abbreviation bucketOf := (Spec.bucketOf key).
Local Abbreviation grouped := (Spec.grouped key).

Lemma grouped_nil : grouped [] [].
Proof. split; [constructor | reflexivity]. Qed.

Lemma bucketOf_absent k rows : existsb (hasKey k) rows = false -> bucketOf k rows = [].
Proof.
  unfold Spec.bucketOf. induction rows as [|r rows IH]; simpl; [reflexivity|].
  destruct (hasKey k r); simpl; [discriminate | exact IH].
Qed.

Lemma existsb_snoc k done r :
  existsb (hasKey k) (done ++ [r]) = existsb (hasKey k) done || hasKey k r.
Proof. rewrite existsb_app. simpl. now rewrite orb_false_r. Qed.

Lemma bucketOf_snoc k done r :
  bucketOf k (done ++ [r]) = bucketOf k done ++ (if hasKey k r then [r] else []).
Proof. unfold Spec.bucketOf. rewrite filter_app. simpl. now destruct (hasKey k r). Qed.

Lemma hasKey_eqb k r : hasKey k r = String.eqb k (key r).
Proof. apply String.eqb_sym. Qed.

Lemma pushTo_grouped o done r :
  grouped o done -> inherited (key r) = false ->
  exists o', pushTo o (key r) r = Normal o' /\ grouped o' (done ++ [r]).
Proof.
  intros [Hnd Hget] Hinh. unfold pushTo, get. rewrite Hinh.
  pose proof (Hget (key r)) as Hk.
  destruct (existsb (hasKey (key r)) done) eqn:Ek; rewrite Hk.
  - eexists; split; [reflexivity|]. split.
    + now rewrite update_keys.
    + intros k. rewrite getOwn_update by congruence.
      rewrite existsb_snoc, bucketOf_snoc, <- hasKey_eqb.
      destruct (hasKey k r) eqn:E.
      * rewrite hasKey_eqb in E. apply String.eqb_eq in E. subst k.
        now rewrite Ek.
      * rewrite orb_false_r, app_nil_r. apply Hget.
  - eexists; split; [reflexivity|]. split.
    + rewrite create_keys. apply NoDup_app; [exact Hnd | repeat constructor; simpl; tauto |].
      intros k Hin [<-|[]]. apply getOwn_None in Hk. tauto.
    + intros k. rewrite getOwn_create by exact Hk.
      rewrite existsb_snoc, bucketOf_snoc, <- hasKey_eqb.
      destruct (hasKey k r) eqn:E.
      * rewrite hasKey_eqb in E. apply String.eqb_eq in E. subst k.
        now rewrite orb_true_r, bucketOf_absent.
      * rewrite orb_false_r, app_nil_r. apply Hget.
Qed.

Lemma forEach_pushTo_grouped rows o done :
  grouped o done -> forallb (fun r => negb (inherited (key r))) rows = true ->
  exists o', forEach (fun o r => pushTo o (key r) r) rows o = Normal o'
             /\ grouped o' (done ++ rows).
Proof.
  revert o done. induction rows as [|r rows IH]; intros o done Hg Hall.
  - exists o. rewrite app_nil_r. now split.
  - simpl in Hall. apply andb_prop in Hall as [Hr Hall].
    apply negb_true_iff in Hr.
    destruct (pushTo_grouped o done r Hg Hr) as (o1 & E1 & Hg1).
    destruct (IH o1 (done ++ [r]) Hg1 Hall) as (o' & E' & Hg').
    exists o'. rewrite forEach_cons, E1. split; [exact E'|].
    now rewrite <- app_assoc in Hg'.
Qed.

(** [groupBy] returns the grouping when no key names a property of
    [Object.prototype] ... *)
Lemma groupBy_grouped rows :
  forallb (fun r => negb (inherited (key r))) rows = true ->
  exists o, groupBy key rows = Normal o /\ grouped o rows.
Proof.
  intros H. exact (forEach_pushTo_grouped rows [] [] grouped_nil H).
Qed.

(** ... and throws as soon as one does. *)
Lemma pushTo_inherited o done r :
  grouped o done -> forallb (fun r => negb (inherited (key r))) done = true ->
  inherited (key r) = true -> pushTo o (key r) r = Throw TypeError.
Proof.
  intros [_ Hget] Hdone Hinh. unfold pushTo, get. rewrite Hget, Hinh.
  destruct (existsb (hasKey (key r)) done) eqn:E; [|reflexivity].
  apply existsb_exists in E as (r' & Hin & Hk).
  rewrite forallb_forall in Hdone. specialize (Hdone r' Hin).
  apply String.eqb_eq in Hk. rewrite Hk, Hinh in Hdone. discriminate.
Qed.

Lemma forEach_pushTo_throws rows o done :
  grouped o done -> forallb (fun r => negb (inherited (key r))) done = true ->
  forallb (fun r => negb (inherited (key r))) rows = false ->
  forEach (fun o r => pushTo o (key r) r) rows o = Throw TypeError.
Proof.
  revert o done. induction rows as [|r rows IH]; intros o done Hg Hdone Hall.
  - discriminate.
  - simpl in Hall. rewrite forEach_cons.
    destruct (inherited (key r)) eqn:Hr.
    + now rewrite (pushTo_inherited o done r Hg Hdone Hr).
    + simpl in Hall.
      destruct (pushTo_grouped o done r Hg Hr) as (o1 & -> & Hg1).
      apply (IH o1 (done ++ [r])); auto.
      rewrite forallb_app, Hdone. simpl. now rewrite Hr.
Qed.

Lemma groupBy_throws rows :
  forallb (fun r => negb (inherited (key r))) rows = false ->
  groupBy key rows = Throw TypeError.
Proof.
  intros H. exact (forEach_pushTo_throws rows [] [] grouped_nil eq_refl H).
Qed.

(** Reading a grouping. *)
Lemma grouped_bucket o rows k v :
  grouped o rows -> In (k, v) o -> v = bucketOf k rows /\ v <> [].
Proof.
  intros [Hnd Hget] Hin. apply In_getOwn in Hin; [|exact Hnd].
  rewrite Hget in Hin. destruct (existsb (hasKey k) rows) eqn:E; [|discriminate].
  injection Hin as <-. split; [reflexivity|].
  apply existsb_exists in E as (r & Hr & Hk). intros Hnil.
  assert (Hin' : In r (bucketOf k rows)) by (apply filter_In; auto).
  rewrite Hnil in Hin'. exact Hin'.
Qed.

Lemma grouped_keys o rows k :
  grouped o rows -> (In k (map fst o) <-> exists r, In r rows /\ key r = k).
Proof.
  intros [Hnd Hget]. specialize (Hget k).
  destruct (existsb (hasKey k) rows) eqn:E.
  - split; intros _.
    + apply existsb_exists in E as (r & Hr & Hk). apply String.eqb_eq in Hk. eauto.
    + apply getOwn_In in Hget. apply (in_map fst) in Hget. exact Hget.
  - apply getOwn_None in Hget. split; [tauto|].
    intros (r & Hr & Hk). exfalso.
    assert (existsb (hasKey k) rows = true); [|congruence].
    apply existsb_exists. exists r. split; [exact Hr|]. now apply String.eqb_eq.
Qed.

Lemma grouped_entries o rows :
  grouped o rows -> o = map (fun k => (k, bucketOf k rows)) (map fst o).
Proof.
  intros Hg. rewrite map_map.
  rewrite <- (map_id o) at 1. apply map_ext_in. intros [k v] Hin. simpl.
  now destruct (grouped_bucket o rows k v Hg Hin) as [-> _].
Qed.

(** The buckets of distinct keys that cover the records hold every record
    once. *)
Lemma filter_split (p : R -> bool) rows :
  Permutation rows (filter p rows ++ filter (fun r => negb (p r)) rows).
Proof.
  induction rows as [|r rows IH]; simpl; [reflexivity|].
  destruct (p r); simpl.
  - now constructor.
  - apply Permutation_cons_app. exact IH.
Qed.

Lemma bucketOf_other k k' rows :
  k <> k' -> bucketOf k' (filter (fun r => negb (hasKey k r)) rows) = bucketOf k' rows.
Proof.
  intros Hne. unfold Spec.bucketOf. induction rows as [|r rows IH]; simpl; [reflexivity|].
  destruct (hasKey k r) eqn:Ek; simpl.
  - destruct (hasKey k' r) eqn:Ek'; [|exact IH].
    apply String.eqb_eq in Ek, Ek'. congruence.
  - now rewrite IH.
Qed.

Lemma buckets_partition ks rows :
  NoDup ks -> (forall r, In r rows -> In (key r) ks) ->
  Permutation (List.concat (map (fun k => bucketOf k rows) ks)) rows.
Proof.
  intros Hnd. revert rows. induction Hnd as [|k ks Hk Hnd IH]; intros rows Hcov.
  - destruct rows as [|r rows]; [reflexivity|]. destruct (Hcov r (or_introl eq_refl)).
  - simpl. rewrite (filter_split (hasKey k) rows) at 2.
    apply Permutation_app; [reflexivity|].
    rewrite <- (IH (filter (fun r => negb (hasKey k r)) rows)).
    + apply Permutation_refl'. f_equal. apply map_ext_in. intros k' Hk'.
      symmetry. apply bucketOf_other. congruence.
    + intros r Hr. apply filter_In in Hr as [Hr Hneg].
      destruct (Hcov r Hr) as [E|Hin]; [|exact Hin].
      unfold Spec.hasKey in Hneg. rewrite <- E, String.eqb_refl in Hneg. discriminate.
Qed.

Lemma grouped_partition o rows :
  grouped o rows -> Permutation (List.concat (map snd o)) rows.
Proof.
  intros Hg. rewrite (grouped_entries o rows Hg) at 1.
  rewrite map_map. simpl.
  apply buckets_partition; [exact (proj1 Hg)|].
  intros r Hr. apply (grouped_keys o rows (key r) Hg). eauto.
Qed.

(** [Object.entries] lists the same buckets, in the order of [Object.keys]. *)
Lemma grouped_entries_partition o rows :
  grouped o rows -> Permutation (List.concat (map snd (entries o))) rows.
Proof.
  intros Hg. rewrite <- (grouped_partition o rows Hg).
  clear Hg. generalize (entries_perm o). generalize (entries o) as o'.
  intros o' Hp. induction Hp; simpl.
  - reflexivity.
  - now apply Permutation_app_head.
  - rewrite !app_assoc. apply Permutation_app_tail, Permutation_app_comm.
  - etransitivity; eassumption.
Qed.

(** The weekday dictionary: one key per label, from the start. *)
Variable days : list string.
Hypothesis days_nodup : NoDup days.
Hypothesis days_own : forall d, In d days -> d <> "".
Local Abbreviation dayGrouped := (Spec.dayGrouped key days).
Local Abbreviation labelled := (Spec.labelled key days).

Lemma byDay_init (acc : obj (list R)) :
  fold_left (fun o d => create o d []) days acc = acc ++ map (fun d => (d, [])) days.
Proof.
  clear days_nodup days_own. revert acc.
  induction days as [|d ds IH]; intros acc; simpl.
  - now rewrite app_nil_r.
  - rewrite IH. unfold create. now rewrite <- app_assoc.
Qed.

Lemma dayGrouped_init : dayGrouped (fold_left (fun o d => create o d []) days []) [].
Proof.
  rewrite byDay_init. simpl. split.
  - rewrite map_map. simpl. apply map_id.
  - intros d Hd. apply In_getOwn.
    + rewrite map_map. simpl. now rewrite map_id.
    + apply in_map_iff. exists d. now split.
Qed.

Lemma pushDay_grouped o done r :
  dayGrouped o done -> In (key r) days \/ inherited (key r) = false ->
  exists o', pushDay key o r = Normal o' /\ dayGrouped o' (done ++ [r]).
Proof.
  intros [Hkeys Hget] Hr. unfold pushDay.
  destruct (String.eqb_spec (key r) "") as [E|Hne].
  - exists o. split; [reflexivity|]. split; [exact Hkeys|].
    intros d Hd. rewrite bucketOf_snoc, hasKey_eqb, E.
    destruct (String.eqb_spec d "") as [->|_]; [now apply days_own in Hd|].
    rewrite app_nil_r. now apply Hget.
  - unfold get. destruct (getOwn o (key r)) as [bucket|] eqn:Eo.
    + eexists. split; [reflexivity|]. split; [now rewrite update_keys|].
      intros d Hd. rewrite getOwn_update by congruence.
      rewrite bucketOf_snoc, <- hasKey_eqb.
      destruct (hasKey d r) eqn:Ed.
      * rewrite hasKey_eqb in Ed. apply String.eqb_eq in Ed. subst d.
        rewrite Hget in Eo by exact Hd. congruence.
      * rewrite app_nil_r. now apply Hget.
    + assert (Hout : ~ In (key r) days)
        by (rewrite <- Hkeys; now apply getOwn_None).
      destruct Hr as [Hin | ->]; [tauto|].
      exists o. split; [reflexivity|]. split; [exact Hkeys|].
      intros d Hd. rewrite bucketOf_snoc, hasKey_eqb.
      destruct (String.eqb_spec d (key r)) as [->|_]; [tauto|].
      rewrite app_nil_r. now apply Hget.
Qed.

Lemma groupByDay_grouped rows :
  (forall r, In r rows -> In (key r) days \/ inherited (key r) = false) ->
  exists o, groupByDay days key rows = Normal o /\ dayGrouped o rows.
Proof.
  unfold groupByDay. cbv zeta.
  generalize dayGrouped_init.
  generalize (fold_left (fun o d => create o d []) days ([] : obj (list R))) as o.
  change rows with ([] ++ rows) at 3. generalize (@nil R) as done.
  induction rows as [|r rows IH]; intros done o Hg Hall.
  - exists o. rewrite app_nil_r. now split.
  - destruct (pushDay_grouped o done r Hg (Hall r (or_introl eq_refl))) as (o1 & E1 & Hg1).
    destruct (IH (done ++ [r]) o1 Hg1) as (o' & E' & Hg').
    + intros r' Hr'. apply Hall. now right.
    + exists o'. rewrite forEach_cons, E1. split; [exact E'|].
      now rewrite <- app_assoc in Hg'.
Qed.

(** The buckets of the labels hold the records that carry a label, once. *)
Lemma dayGrouped_entries o rows :
  dayGrouped o rows -> o = map (fun d => (d, bucketOf d rows)) days.
Proof.
  intros [Hkeys Hget]. rewrite <- Hkeys at 1. rewrite map_map.
  rewrite <- (map_id o) at 1. apply map_ext_in. intros [d v] Hin. simpl.
  assert (Hd : In d days) by (rewrite <- Hkeys; apply (in_map fst) in Hin; exact Hin).
  apply In_getOwn in Hin; [|now rewrite Hkeys].
  rewrite Hget in Hin by exact Hd. congruence.
Qed.

Lemma bucketOf_labelled d rows :
  In d days -> bucketOf d (filter labelled rows) = bucketOf d rows.
Proof.
  intros Hd. unfold Spec.bucketOf. induction rows as [|r rows IH]; simpl; [reflexivity|].
  destruct (hasKey d r) eqn:Ed.
  - assert (El : labelled r = true).
    { apply existsb_exists. exists d. split; [exact Hd|]. exact Ed. }
    rewrite El. simpl. now rewrite Ed, IH.
  - destruct (labelled r); simpl; rewrite ?Ed; exact IH.
Qed.

Lemma dayGrouped_partition o rows :
  dayGrouped o rows -> Permutation (List.concat (map snd o)) (filter labelled rows).
Proof.
  intros Hg. rewrite (dayGrouped_entries o rows Hg), map_map. simpl.
  rewrite <- (buckets_partition days (filter labelled rows) days_nodup).
  - apply Permutation_refl'. f_equal. apply map_ext_in. intros d Hd.
    symmetry. now apply bucketOf_labelled.
  - intros r Hr. apply filter_In in Hr as [_ Hr].
    apply existsb_exists in Hr as (d & Hd & E). apply String.eqb_eq in E. congruence.
Qed.

End Records.
End GroupingFacts.

(** ** Sorting *)

Module SortFacts.

Import Spec.
Local Abbreviation le := codeUnitLe.

Lemma ascii_compare_N (a b : ascii) :
  Ascii.compare a b = N.compare (N_of_ascii a) (N_of_ascii b).
Proof. reflexivity. Qed.

Lemma compare_trans_lt (s t u : string) :
  String.compare s t = Lt -> String.compare t u = Lt -> String.compare s u = Lt.
Proof.
  revert t u. induction s as [|a s IH]; intros [|b t] [|c u]; simpl; try congruence.
  rewrite !ascii_compare_N.
  destruct (N.compare_spec (N_of_ascii a) (N_of_ascii b)) as [E1|L1|G1]; try discriminate;
    destruct (N.compare_spec (N_of_ascii b) (N_of_ascii c)) as [E2|L2|G2]; try discriminate;
    intros H1 H2.
  - rewrite E1, E2, N.compare_refl. eauto.
  - rewrite E1. now apply N.compare_lt_iff in L2 as ->.
  - rewrite <- E2. now apply N.compare_lt_iff in L1 as ->.
  - assert (L : (N_of_ascii a < N_of_ascii c)%N) by lia.
    now apply N.compare_lt_iff in L as ->.
Qed.

Lemma le_trans (s t u : string) : le s t -> le t u -> le s u.
Proof.
  unfold codeUnitLe, String.leb. intros H1 H2.
  destruct (String.compare s t) eqn:E1; try discriminate;
    destruct (String.compare t u) eqn:E2; try discriminate.
  - apply String.compare_eq_iff in E1, E2. subst. 
    destruct (String.compare u u) eqn:E; auto.
    pose proof (String.compare_antisym u u) as H. rewrite E in H. discriminate.
  - apply String.compare_eq_iff in E1. subst. now rewrite E2.
  - apply String.compare_eq_iff in E2. subst. now rewrite E1.
  - now rewrite (compare_trans_lt s t u).
Qed.

Lemma insert_perm (s : string) (l : list string) : Permutation (Sort.insert s l) (s :: l).
Proof.
  induction l as [|t l IH]; simpl; [reflexivity|].
  destruct (String.leb s t); [reflexivity|].
  rewrite IH. apply perm_swap.
Qed.

Lemma sort_perm (l : list string) : Permutation (Sort.sort l) l.
Proof.
  induction l as [|s l IH]; simpl; [reflexivity|].
  rewrite insert_perm. now constructor.
Qed.

Lemma insert_sorted (s : string) (l : list string) :
  StronglySorted le l -> StronglySorted le (Sort.insert s l).
Proof.
  induction 1 as [|t l Hs IH Ht]; simpl.
  - repeat constructor.
  - destruct (String.leb s t) eqn:E.
    + constructor; [now constructor|]. constructor; [exact E|].
      eapply Forall_impl; [|exact Ht]. intros u Hu. now apply (le_trans s t u).
    + constructor; [exact IH|].
      rewrite insert_perm. constructor; [|exact Ht].
      destruct (String.leb_total s t) as [H|H]; [congruence | exact H].
Qed.

Lemma sort_sorted (l : list string) : StronglySorted le (Sort.sort l).
Proof.
  induction l as [|s l IH]; simpl; [constructor | now apply insert_sorted].
Qed.

End SortFacts.

(** ** [Math.min] *)

Module MathFacts.

Import JS FloatFacts.
Local Open Scope float_scope.

Lemma classify_NZero (x : float) : isNegZero x = true -> Prim2SF x = S754_zero true.
Proof.
  unfold isNegZero. rewrite classify_spec. unfold SF64classify, SFclassify.
  destruct (Prim2SF x) as [[|]|[|]| |[|] m e]; try discriminate; try reflexivity;
    destruct (_ =? _)%Z; discriminate.
Qed.

Lemma classify_PZero (x : float) : isPosZero x = true -> Prim2SF x = S754_zero false.
Proof.
  unfold isPosZero. rewrite classify_spec. unfold SF64classify, SFclassify.
  destruct (Prim2SF x) as [[|]|[|]| |[|] m e]; try discriminate; try reflexivity;
    destruct (_ =? _)%Z; discriminate.
Qed.

Lemma negzero_leb_poszero (x y : float) :
  isNegZero x = true -> isPosZero y = true -> (x <=? y) = true.
Proof.
  intros Hx Hy. rewrite leb_spec, (classify_NZero x Hx), (classify_PZero y Hy).
  reflexivity.
Qed.

Lemma leb_infinity (x : float) : (infinity <=? x) = true -> x = infinity.
Proof.
  rewrite leb_spec. change (Prim2SF infinity) with (S754_infinity false).
  intros H. apply Prim2SF_inj. change (Prim2SF infinity) with (S754_infinity false).
  destruct (Prim2SF x) as [s|[|]| |s m e]; try discriminate; try reflexivity.
Qed.

(** One step of the scan keeps a lower bound of what was seen. *)
Lemma minStep_choice (lowest x : float) : minStep lowest x = x \/ minStep lowest x = lowest.
Proof.
  unfold minStep. destruct (_ && _); auto. destruct (_ <? _); auto.
Qed.

Lemma minStep_lower (lowest x : float) :
  isNaN lowest = false -> isNaN x = false ->
  (minStep lowest x <=? lowest) = true /\ (minStep lowest x <=? x) = true.
Proof.
  intros Hl Hx. unfold minStep.
  destruct (isNegZero x && isPosZero lowest) eqn:Ez.
  - apply andb_prop in Ez as [Ex El]. split.
    + now apply negzero_leb_poszero.
    + now apply leb_refl.
  - destruct (x <? lowest) eqn:Elt.
    + split; [now apply ltb_leb | now apply leb_refl].
    + split; [now apply leb_refl | now apply not_ltb_leb].
Qed.

Lemma minStep_not_nan (lowest x : float) :
  isNaN lowest = false -> isNaN x = false -> isNaN (minStep lowest x) = false.
Proof. intros Hl Hx. destruct (minStep_choice lowest x) as [-> | ->]; auto. Qed.

Lemma fold_minStep (xs : list float) (lowest : float) :
  isNaN lowest = false -> existsb isNaN xs = false ->
  let m := fold_left minStep xs lowest in
  isNaN m = false /\ (m <=? lowest) = true /\ (forall x, In x xs -> (m <=? x) = true)
  /\ (m = lowest \/ In m xs).
Proof.
  revert lowest. induction xs as [|x xs IH]; intros lowest Hl Hxs; cbn [fold_left].
  - repeat split; auto. now apply leb_refl.
  - simpl in Hxs. apply orb_false_iff in Hxs as [Hx Hxs].
    destruct (minStep_lower lowest x Hl Hx) as [H1 H2].
    destruct (IH (minStep lowest x) (minStep_not_nan _ _ Hl Hx) Hxs) as (Hn & Hm & Hall & Hin).
    cbv zeta. repeat split; auto.
    + eapply leb_trans; eassumption.
    + intros y [<-|Hy]; [eapply leb_trans; eassumption | now apply Hall].
    + destruct Hin as [E|Hin]; [|right; now right].
      rewrite E. destruct (minStep_choice lowest x) as [-> | ->]; [right; now left | now left].
Qed.

(** [Math.min(...xs)] of Numbers that are not NaN is one of them, and none is
    below it. *)
Lemma Math_min_spec (xs : list float) :
  xs <> [] -> existsb isNaN xs = false ->
  In (Math_min xs) xs /\ forall x, In x xs -> (Math_min xs <=? x) = true.
Proof.
  intros Hne Hxs. unfold Math_min. rewrite Hxs.
  destruct (fold_minStep xs infinity eq_refl Hxs) as (_ & _ & Hall & Hin).
  split; [|exact Hall].
  destruct Hin as [E|Hin]; [|exact Hin].
  destruct xs as [|x xs]; [congruence|].
  rewrite E. left. apply leb_infinity. rewrite <- E. apply Hall. now left.
Qed.

End MathFacts.

(** ** The row normalizer *)

Module TableFacts.

Import JS DOM Spec.

Lemma filter_map_swap {A B} (f : A -> B) (p : B -> bool) (l : list A) :
  filter p (map f l) = map f (filter (fun a => p (f a)) l).
Proof.
  induction l as [|a l IH]; simpl; [reflexivity|].
  destruct (p (f a)); simpl; now rewrite IH.
Qed.

Lemma nonempty_iff (s t : string) :
  negb (s =? "") && negb (t =? "") = true <-> s <> "" /\ t <> "".
Proof.
  rewrite andb_true_iff, !negb_true_iff, !String.eqb_neq. tauto.
Qed.

Lemma parseTableA_spec host table :
  VariantA.parseTable host table = map (VariantA.normalize host) (filter resolves table).
Proof. unfold VariantA.parseTable. now rewrite filter_map_swap. Qed.

Lemma parseTableB_spec host table :
  VariantB.parseTable host table = map (VariantB.normalize host) (filter resolves table).
Proof. unfold VariantB.parseTable. now rewrite filter_map_swap. Qed.

(** C9.  In both scripts [parseTable] goes through the rows in source order
    and keeps the record of a row if and only if the symbol and the date
    label of that record are both non-empty; a row that fails this adds
    nothing to the result, and the records kept stand in the order of their
    rows. *)
Theorem parseTable_keeps_iff_symbol_and_date (host : Host) :
  VariantA.parseTable host [] = []
  /\ VariantB.parseTable host [] = []
  /\ (forall tr table,
        VariantA.parseTable host (tr :: table)
        = let r := VariantA.normalize host tr in
          if negb (VariantA.symbol r =? "") && negb (VariantA.dateStr r =? "")
          then r :: VariantA.parseTable host table
          else VariantA.parseTable host table)
  /\ (forall tr table,
        VariantB.parseTable host (tr :: table)
        = let r := VariantB.normalize host tr in
          if negb (VariantB.symbol r =? "") && negb (VariantB.dateStr r =? "")
          then r :: VariantB.parseTable host table
          else VariantB.parseTable host table)
  /\ (forall table r,
        In r (VariantA.parseTable host table) <->
        (exists tr, In tr table /\ VariantA.normalize host tr = r)
        /\ VariantA.symbol r <> "" /\ VariantA.dateStr r <> "")
  /\ (forall table r,
        In r (VariantB.parseTable host table) <->
        (exists tr, In tr table /\ VariantB.normalize host tr = r)
        /\ VariantB.symbol r <> "" /\ VariantB.dateStr r <> "")
  /\ (forall table,
        VariantA.parseTable host table
        = map (VariantA.normalize host) (filter resolves table))
  /\ (forall table,
        VariantB.parseTable host table
        = map (VariantB.normalize host) (filter resolves table)).
Proof.
  split; [reflexivity|]. split; [reflexivity|].
  split; [intros tr table; reflexivity|].
  split; [intros tr table; reflexivity|].
  split; [|split; [|split; [exact (parseTableA_spec host) | exact (parseTableB_spec host)]]].
  - intros table r. unfold VariantA.parseTable.
    rewrite filter_In, in_map_iff. unfold VariantA.kept. rewrite nonempty_iff.
    split; intros [(tr & H1 & H2) H3]; (split; [exists tr; auto | exact H3]).
  - intros table r. unfold VariantB.parseTable.
    rewrite filter_In, in_map_iff. unfold VariantB.kept. rewrite nonempty_iff.
    split; intros [(tr & H1 & H2) H3]; (split; [exists tr; auto | exact H3]).
Qed.

(** The weekday fields of a record that [parseTable] built: a label of [DAYS]
    when the date was readable, the empty string otherwise. *)
Lemma getDay_lt_7 host t : (getDay host t < 7)%nat.
Proof.
  unfold getDay.
  pose proof (Z.mod_pos_bound ((t + LocalTZA host t) / msPerDay + 4) 7 eq_refl).
  lia.
Qed.

Lemma normalizeA_dayFields host tr : dayFieldsA (VariantA.normalize host tr).
Proof.
  unfold dayFieldsA, VariantA.normalize. cbn [VariantA.date VariantA.dayName].
  destruct (VariantA.parseDate host _) as [t|]; [|reflexivity].
  apply nth_In. apply getDay_lt_7.
Qed.

Lemma normalizeB_dayFields host tr : dayFieldsB (VariantB.normalize host tr).
Proof.
  unfold dayFieldsB, VariantB.normalize. cbn [VariantB.date VariantB.dayName].
  destruct (VariantB.parseDate host _) as [t|]; [|reflexivity].
  apply nth_In. apply getDay_lt_7.
Qed.

Lemma parseTableA_dayFields host table : Forall dayFieldsA (VariantA.parseTable host table).
Proof.
  rewrite parseTableA_spec. apply Forall_forall. intros r Hr.
  apply in_map_iff in Hr as (tr & <- & _). apply normalizeA_dayFields.
Qed.

Lemma parseTableB_dayFields host table : Forall dayFieldsB (VariantB.parseTable host table).
Proof.
  rewrite parseTableB_spec. apply Forall_forall. intros r Hr.
  apply in_map_iff in Hr as (tr & <- & _). apply normalizeB_dayFields.
Qed.

End TableFacts.

(** ** Grouping by symbol and by weekday *)

Module GroupClaims.

Import JS JSObject Grouping ObjectFacts GroupingFacts SortFacts TableFacts Spec.

Section Records.
Context {R : Type}.
Variable key : R -> string.
Local Abbreviation safeKeys := (Spec.safeKeys key).

(** What [Object.keys(o).sort()] is for a grouping [o] of [rows]. *)
Lemma sorted_keys (o : obj (list R)) (rows : list R) :
  grouped key o rows ->
  StronglySorted codeUnitLe (Sort.sort (keys o))
  /\ NoDup (Sort.sort (keys o))
  /\ forall s, In s (Sort.sort (keys o)) <-> exists r, In r rows /\ key r = s.
Proof.
  intros Hg. split; [apply sort_sorted|].
  assert (Hp : Permutation (Sort.sort (keys o)) (map fst o))
    by (rewrite sort_perm; apply keys_perm).
  split.
  - eapply Permutation_NoDup; [symmetry; exact Hp | exact (proj1 Hg)].
  - intros s. rewrite <- (grouped_keys key o rows s Hg).
    split; apply Permutation_in; [exact Hp | symmetry; exact Hp].
Qed.

Lemma groupBy_spec (rows : list R) :
  safeKeys rows = true ->
  exists o, groupBy key rows = Normal o
    /\ Permutation (List.concat (map snd (entries o))) rows
    /\ (forall k bucket, In (k, bucket) (entries o) ->
          bucket = filter (fun r => key r =? k) rows /\ bucket <> [])
    /\ (forall r, In r rows -> exists bucket, In (key r, bucket) (entries o))
    /\ NoDup (keys o)
    /\ StronglySorted codeUnitLe (Sort.sort (keys o))
    /\ (forall s, In s (Sort.sort (keys o)) <-> exists r, In r rows /\ key r = s).
Proof.
  intros Hsafe. destruct (groupBy_grouped key rows Hsafe) as (o & E & Hg).
  exists o. split; [exact E|]. split; [now apply (grouped_entries_partition key)|].
  destruct (sorted_keys o rows Hg) as (Hs & _ & Hin).
  split; [|split; [|split; [|split; [exact Hs | exact Hin]]]].
  - intros k bucket Hk. apply (grouped_bucket key o rows k bucket Hg).
    eapply Permutation_in; [apply entries_perm | exact Hk].
  - intros r Hr.
    assert (Hk : In (key r) (map fst o)) by (apply (grouped_keys key o rows _ Hg); eauto).
    apply in_map_iff in Hk as ([k bucket] & Ek & Hk). simpl in Ek. subst k.
    exists bucket. eapply Permutation_in; [symmetry; apply entries_perm | exact Hk].
  - eapply Permutation_NoDup; [symmetry; apply keys_perm | exact (proj1 Hg)].
Qed.

End Records.

Section Weekdays.
Context {R : Type}.
Variable dayName : R -> string.
Variable days : list string.
Hypothesis days_nodup : NoDup days.
Hypothesis days_own : forall d, In d days -> d <> "".

Lemma groupByDay_spec (rows : list R) :
  (forall r, In r rows -> dayName r = "" \/ In (dayName r) days) ->
  exists o, groupByDay days dayName rows = Normal o
    /\ map fst o = days
    /\ (forall d bucket, In (d, bucket) o ->
          bucket = filter (fun r => dayName r =? d) rows)
    /\ Permutation (List.concat (map snd o)) (filter (labelled dayName days) rows).
Proof.
  intros Hrows.
  destruct (groupByDay_grouped dayName days days_nodup days_own rows) as (o & E & Hg).
  - intros r Hr. destruct (Hrows r Hr) as [-> | H]; [now right | now left].
  - exists o. split; [exact E|]. split; [exact (proj1 Hg)|]. split.
    + intros d bucket Hin.
      rewrite (dayGrouped_entries dayName days days_nodup o rows Hg) in Hin.
      apply in_map_iff in Hin as (d' & [= <- <-] & _). reflexivity.
    + now apply (dayGrouped_partition dayName days days_nodup).
Qed.

End Weekdays.

Lemma DAYS_nodup : NoDup VariantA.DAYS.
Proof.
  unfold VariantA.DAYS.
  repeat (constructor; [simpl; intros H; repeat destruct H as [H|H]; try discriminate; exact H|]).
  constructor.
Qed.

Lemma DAYS_own d : In d VariantA.DAYS -> d <> "".
Proof. simpl. intros H; repeat destruct H as [H|H]; subst; try discriminate; destruct H. Qed.

Lemma labelled_empty {R} (dayName : R -> string) r :
  dayName r = "" -> labelled dayName VariantA.DAYS r = false.
Proof. unfold labelled. intros ->. reflexivity. Qed.

Lemma labelled_day {R} (dayName : R -> string) r :
  In (dayName r) VariantA.DAYS -> labelled dayName VariantA.DAYS r = true.
Proof.
  intros H. apply existsb_exists. exists (dayName r). split; [exact H|].
  apply String.eqb_refl.
Qed.

(** C5.  For the records the row normalizer builds (a label of [DAYS] as
    [dayName] when the date is readable, the empty string otherwise),
    [groupByDayOfWeek] returns the seven keys of [DAYS], each with the
    records of that [dayName] in encounter order; together the buckets hold
    the records that have a date, each once, and a record whose [dayName] is
    empty is in none.  Both scripts. *)
Theorem weekday_buckets_partition_dated_records :
  (forall rows : list VariantA.TradeRecord,
      Forall dayFieldsA rows ->
      exists byDay,
        VariantA.groupByDayOfWeek rows = Normal byDay
        /\ map fst byDay = ["Sun"; "Mon"; "Tue"; "Wed"; "Thu"; "Fri"; "Sat"]
        /\ (forall d bucket, In (d, bucket) byDay ->
              bucket = filter (fun r => VariantA.dayName r =? d) rows)
        /\ Permutation (List.concat (map snd byDay)) (filter hasDateA rows)
        /\ (forall r d bucket, VariantA.dayName r = "" ->
              In (d, bucket) byDay -> ~ In r bucket))
  /\ (forall rows : list VariantB.TradeRecord,
      Forall dayFieldsB rows ->
      exists byDay,
        VariantB.groupByDayOfWeek rows = Normal byDay
        /\ map fst byDay = ["Sun"; "Mon"; "Tue"; "Wed"; "Thu"; "Fri"; "Sat"]
        /\ (forall d bucket, In (d, bucket) byDay ->
              bucket = filter (fun r => VariantB.dayName r =? d) rows)
        /\ Permutation (List.concat (map snd byDay)) (filter hasDateB rows)
        /\ (forall r d bucket, VariantB.dayName r = "" ->
              In (d, bucket) byDay -> ~ In r bucket)).
Proof.
  split; intros rows Hrows; rewrite Forall_forall in Hrows.
  - destruct (groupByDay_spec VariantA.dayName VariantA.DAYS DAYS_nodup DAYS_own rows)
      as (o & E & Hk & Hb & Hp).
    { intros r Hr. specialize (Hrows r Hr). unfold dayFieldsA in Hrows.
      destruct (VariantA.date r); auto. }
    exists o. split; [exact E|]. split; [exact Hk|]. split; [exact Hb|]. split.
    + rewrite Hp. apply Permutation_refl'. apply filter_ext_in. intros r Hr.
      specialize (Hrows r Hr). unfold dayFieldsA, hasDateA in *.
      destruct (VariantA.date r); [now apply labelled_day | now apply labelled_empty].
    + intros r d bucket Hr Hin Hrb. rewrite (Hb d bucket Hin) in Hrb.
      apply filter_In in Hrb as [_ Hd]. apply String.eqb_eq in Hd.
      apply (in_map fst) in Hin. rewrite Hk in Hin. simpl in Hin.
      apply (DAYS_own d Hin). congruence.
  - destruct (groupByDay_spec VariantB.dayName VariantA.DAYS DAYS_nodup DAYS_own rows)
      as (o & E & Hk & Hb & Hp).
    { intros r Hr. specialize (Hrows r Hr). unfold dayFieldsB in Hrows.
      destruct (VariantB.date r); auto. }
    exists o. split; [exact E|]. split; [exact Hk|]. split; [exact Hb|]. split.
    + rewrite Hp. apply Permutation_refl'. apply filter_ext_in. intros r Hr.
      specialize (Hrows r Hr). unfold dayFieldsB, hasDateB in *.
      destruct (VariantB.date r); [now apply labelled_day | now apply labelled_empty].
    + intros r d bucket Hr Hin Hrb. rewrite (Hb d bucket Hin) in Hrb.
      apply filter_In in Hrb as [_ Hd]. apply String.eqb_eq in Hd.
      apply (in_map fst) in Hin. rewrite Hk in Hin. simpl in Hin.
      apply (DAYS_own d Hin). congruence.
Qed.

(** C5 on the records [parseTable] builds from [Demo.table]. *)
Lemma weekday_buckets_witness :
  Forall dayFieldsA (VariantA.parseTable Demo.host Demo.table)
  /\ exists byDay,
       VariantA.groupByDayOfWeek (VariantA.parseTable Demo.host Demo.table) = Normal byDay
       /\ map fst byDay = ["Sun"; "Mon"; "Tue"; "Wed"; "Thu"; "Fri"; "Sat"]
       /\ (forall d bucket, In (d, bucket) byDay ->
             bucket = filter (fun r => VariantA.dayName r =? d)
                        (VariantA.parseTable Demo.host Demo.table))
       /\ Permutation (List.concat (map snd byDay))
            (filter hasDateA (VariantA.parseTable Demo.host Demo.table))
       /\ (forall r d bucket, VariantA.dayName r = "" ->
             In (d, bucket) byDay -> ~ In r bucket).
Proof.
  assert (H : Forall dayFieldsA (VariantA.parseTable Demo.host Demo.table)).
  { vm_compute. repeat (constructor; [auto 10|]). constructor. }
  split; [exact H|].
  exact (proj1 weekday_buckets_partition_dated_records _ H).
Defined.

(** C6.  [groupBySymbol] on a record list none of whose symbols names a
    property of [Object.prototype]: it returns a dictionary whose buckets,
    concatenated in the order of [Object.keys], are a permutation of the
    records; the bucket of a symbol holds the records of that symbol in
    encounter order and is not empty; every record's symbol has a bucket;
    and [Object.keys(bySymbol).sort()] is the duplicate-free list of the
    symbols met, in ascending code-unit order.  On a list where some symbol
    does name such a property ("constructor", "toString", ...) the function
    throws a [TypeError] instead of returning.  Both scripts. *)
Theorem groupBySymbol_buckets :
  (forall rows : list VariantA.TradeRecord,
      safeKeys VariantA.symbol rows = true ->
      exists bySymbol,
        VariantA.groupBySymbol rows = Normal bySymbol
        /\ Permutation (List.concat (map snd (entries bySymbol))) rows
        /\ (forall k bucket, In (k, bucket) (entries bySymbol) ->
              bucket = filter (fun r => VariantA.symbol r =? k) rows /\ bucket <> [])
        /\ (forall r, In r rows -> exists bucket, In (VariantA.symbol r, bucket) (entries bySymbol))
        /\ NoDup (keys bySymbol)
        /\ StronglySorted codeUnitLe (VariantA.symbols bySymbol)
        /\ (forall s, In s (VariantA.symbols bySymbol) <->
              exists r, In r rows /\ VariantA.symbol r = s))
  /\ (forall rows : list VariantA.TradeRecord,
      safeKeys VariantA.symbol rows = false ->
      VariantA.groupBySymbol rows = Throw TypeError)
  /\ (forall rows : list VariantB.TradeRecord,
      safeKeys VariantB.symbol rows = true ->
      exists bySymbol,
        VariantB.groupBySymbol rows = Normal bySymbol
        /\ Permutation (List.concat (map snd (entries bySymbol))) rows
        /\ (forall k bucket, In (k, bucket) (entries bySymbol) ->
              bucket = filter (fun r => VariantB.symbol r =? k) rows /\ bucket <> [])
        /\ (forall r, In r rows -> exists bucket, In (VariantB.symbol r, bucket) (entries bySymbol))
        /\ NoDup (keys bySymbol)
        /\ StronglySorted codeUnitLe (VariantB.symbols bySymbol)
        /\ (forall s, In s (VariantB.symbols bySymbol) <->
              exists r, In r rows /\ VariantB.symbol r = s))
  /\ (forall rows : list VariantB.TradeRecord,
      safeKeys VariantB.symbol rows = false ->
      VariantB.groupBySymbol rows = Throw TypeError).
Proof.
  split; [exact (groupBy_spec VariantA.symbol)|].
  split; [exact (groupBy_throws VariantA.symbol)|].
  split; [exact (groupBy_spec VariantB.symbol) | exact (groupBy_throws VariantB.symbol)].
Qed.

(** C6 on the records of [Demo.table], which are grouped, and on those of
    [Demo.oddTable], where the symbol is "toString". *)
Lemma groupBySymbol_witness :
  safeKeys VariantA.symbol (VariantA.parseTable Demo.host Demo.table) = true
  /\ (exists bySymbol,
        VariantA.groupBySymbol (VariantA.parseTable Demo.host Demo.table) = Normal bySymbol
        /\ Permutation (List.concat (map snd (entries bySymbol)))
             (VariantA.parseTable Demo.host Demo.table)
        /\ VariantA.symbols bySymbol = ["AAA"; "BBB"; "CCC"])
  /\ safeKeys VariantA.symbol (VariantA.parseTable Demo.host Demo.oddTable) = false
  /\ VariantA.groupBySymbol (VariantA.parseTable Demo.host Demo.oddTable) = Throw TypeError.
Proof.
  split; [vm_compute; reflexivity|]. split.
  - destruct (proj1 groupBySymbol_buckets (VariantA.parseTable Demo.host Demo.table) eq_refl)
      as (o & E & Hp & _).
    exists o. split; [exact E|]. split; [exact Hp|].
    vm_compute in E. injection E as <-. vm_compute. reflexivity.
  - split; [vm_compute; reflexivity|].
    exact (proj1 (proj2 groupBySymbol_buckets)
             (VariantA.parseTable Demo.host Demo.oddTable) eq_refl).
Defined.

End GroupClaims.

(** ** Variant B: the days of a record list *)

Module DayFacts.

Import JS JSObject Grouping ObjectFacts GroupingFacts GroupClaims VariantB Spec.
Local Open Scope float_scope.

Section Host.
Variable host : Host.

Local Abbreviation key := (dateKey host).
Local Abbreviation dated := (Spec.dated host).
Local Abbreviation tradingDays := (Spec.tradingDays host).
Local Abbreviation netOfDay := (Spec.netOfDay host).
Local Abbreviation grossOfDay := (Spec.grossOfDay host).

Lemma forEach_ext_in {R} (step1 step2 : obj (list R) -> R -> completion (obj (list R)))
    (rows : list R) (o : obj (list R)) :
  (forall o' r, In r rows -> step1 o' r = step2 o' r) ->
  forEach step1 rows o = forEach step2 rows o.
Proof.
  revert o. induction rows as [|r rows IH]; intros o H; [reflexivity|].
  rewrite !forEach_cons, H by now left.
  destruct (step2 o r); [|reflexivity]. apply IH. intros o' r' Hr'. apply H. now right.
Qed.

Lemma groupByDate_groupBy (rows : list TradeRecord) :
  groupByDate host rows = groupBy key (filter dated rows).
Proof.
  unfold groupByDate, groupBy.
  rewrite (forEach_filter (pushDate host) dated).
  - apply forEach_ext_in. intros o r Hr. apply filter_In in Hr as [_ Hr].
    unfold pushDate, dated in *. cbv zeta.
    now destruct (key r =? "")%string.
  - intros o r Hr. unfold pushDate, dated in *. cbv zeta.
    now destruct (key r =? "")%string.
Qed.

Lemma safeKeys_dated (rows : list TradeRecord) :
  safeKeys key (filter dated rows) = safeKeys key rows.
Proof.
  unfold safeKeys. induction rows as [|r rows IH]; [reflexivity|].
  simpl. unfold Spec.dated at 1. destruct (String.eqb_spec (key r) "") as [E|_]; simpl.
  - rewrite IH, E. reflexivity.
  - now rewrite IH.
Qed.

Lemma bucketOf_dated (k : string) (rows : list TradeRecord) :
  k <> "" -> bucketOf key k (filter dated rows) = bucketOf key k rows.
Proof.
  intros Hk. unfold bucketOf. induction rows as [|r rows IH]; simpl; [reflexivity|].
  unfold Spec.dated at 1. unfold hasKey at 2.
  destruct (String.eqb_spec (key r) "") as [E|_]; simpl.
  - rewrite E. destruct (String.eqb_spec "" k); [congruence | exact IH].
  - fold (hasKey key k r). destruct (hasKey key k r); now rewrite IH.
Qed.

(** [byDate] after the loop, for a record list whose date keys are safe. *)
Lemma groupByDate_spec (rows : list TradeRecord) :
  safeKeys key rows = true ->
  exists byDate,
    groupByDate host rows = Normal byDate
    /\ Permutation (keys byDate) (tradingDays rows)
    /\ dateTotals byDate
       = map (fun d => {| d_date := d; d_netPnl := netOfDay rows d;
                          d_grossPnl := grossOfDay rows d |}) (keys byDate).
Proof.
  intros Hsafe. rewrite groupByDate_groupBy.
  destruct (groupBy_grouped key (filter dated rows)) as (o & E & Hg).
  { fold (safeKeys key (filter dated rows)). now rewrite safeKeys_dated. }
  exists o. split; [exact E|]. split.
  - rewrite keys_perm. apply NoDup_Permutation.
    + exact (proj1 Hg).
    + apply NoDup_nodup.
    + intros k. unfold Spec.tradingDays. rewrite nodup_In.
      rewrite (grouped_keys key o _ k Hg), in_map_iff.
      split; intros (r & H1 & H2); eauto.
  - unfold dateTotals, keys. rewrite map_map. apply map_ext_in.
    intros [k v] Hin. simpl.
    assert (Hin' : In (k, v) o)
      by (eapply Permutation_in; [apply entries_perm | exact Hin]).
    destruct (grouped_bucket key o _ k v Hg Hin') as [Hv Hne].
    assert (Hk : k <> "").
    { apply (in_map fst) in Hin'. apply (grouped_keys key o _ k Hg) in Hin'.
      destruct Hin' as (r & Hr & <-). apply filter_In in Hr as [_ Hr].
      unfold Spec.dated in Hr. now apply negb_true_iff, String.eqb_neq in Hr. }
    rewrite bucketOf_dated in Hv by exact Hk.
    unfold dateTotal. simpl. rewrite Hv. reflexivity.
Qed.

Lemma groupByDate_throws (rows : list TradeRecord) :
  safeKeys key rows = false -> groupByDate host rows = Throw TypeError.
Proof.
  intros H. rewrite groupByDate_groupBy. apply groupBy_throws.
  fold (safeKeys key (filter dated rows)). now rewrite safeKeys_dated.
Qed.

(** [computeStats] returns a summary exactly when the date keys are safe. *)
Lemma computeStats_returns div (rows : list TradeRecord) :
  safeKeys key rows = true ->
  exists byDate,
    groupByDate host rows = Normal byDate
    /\ computeStatsWith host div rows
       = Normal (if isEmpty rows then emptyStats else summarize div rows byDate).
Proof.
  intros Hsafe. destruct (groupByDate_spec rows Hsafe) as (o & E & _).
  exists o. split; [exact E|]. unfold computeStatsWith. rewrite E.
  now destruct rows.
Qed.

Lemma computeStats_throws div (rows : list TradeRecord) :
  safeKeys key rows = false -> computeStatsWith host div rows = Throw TypeError.
Proof.
  intros H. unfold computeStatsWith. destruct rows as [|r rows]; [discriminate|].
  cbn [isEmpty]. now rewrite groupByDate_throws.
Qed.

End Host.

End DayFacts.

(** ** Variant A: the statistics *)

Module StatsA.

Import JS FloatFacts VariantA Spec.
Local Open Scope float_scope.



Lemma filter_count {A} (p : A -> bool) (l : list A) :
  (Z.of_nat (List.length l) < 2 ^ 53)%Z -> (Z.of_nat (List.length (filter p l)) < 2 ^ 53)%Z.
Proof. intros H. pose proof (filter_length_le p l). lia. Qed.




Lemma profitFactor_rule (gp gl : number) :
  (0 <=? gp) = true -> (0 <=? gl) = true ->
  profitFactorRule (if gt gl 0 then gp / gl else if gt gp 0 then 999 else 0) gp gl.
Proof.
  intros Hp Hl. unfold profitFactorRule, gt.
  split; [now apply nonneg_cases|]. split; [now apply nonneg_cases|].
  split; [|split].
  - intros Hz Hpos. apply zero_not_positive in Hz as [-> _]. now rewrite Hpos.
  - intros Hz Hz'. apply zero_not_positive in Hz as [-> _].
    apply zero_not_positive in Hz' as [-> _]. reflexivity.
  - intros ->. reflexivity.
Qed.

Lemma sum_of_wins_nonneg {A} (f : A -> number) (l : list A) :
  (0 <=? sumOf f (filter (fun r => gt (f r) 0) l)) = true.
Proof.
  unfold sumOf. apply sum_nonneg; [reflexivity|].
  intros x Hx. apply filter_In in Hx as [_ Hx]. now apply ltb_leb.
Qed.

Lemma sum_of_losses_nonneg {A} (f : A -> number) (l : list A) :
  (0 <=? Math_abs (sumOf f (filter (fun r => lt (f r) 0) l))) = true.
Proof.
  apply abs_nonneg.
  assert (H : (sumOf f (filter (fun r => lt (f r) 0) l) <=? 0) = true).
  { unfold sumOf. apply sum_nonpos; [reflexivity|].
    intros x Hx. apply filter_In in Hx as [_ Hx]. now apply ltb_leb. }
  now apply leb_not_nan in H as [H _].
Qed.

Lemma profitFactor_spec (rows : list TradeRecord) :
  let s := computeStats rows in
  grossProfit s = sumOf netPnl (wins rows)
  /\ grossLoss s = Math_abs (sumOf netPnl (losses rows))
  /\ profitFactorRule (profitFactor s) (grossProfit s) (grossLoss s).
Proof.
  unfold computeStats, computeStatsWith. destruct rows as [|r rows].
  - cbn. repeat split; try reflexivity; try (now left); discriminate.
  - cbv zeta. cbn [isEmpty grossProfit grossLoss profitFactor].
    split; [reflexivity|]. split; [reflexivity|].
    apply profitFactor_rule; [apply sum_of_wins_nonneg | apply sum_of_losses_nonneg].
Qed.

Lemma netPnl_spec (rows : list TradeRecord) :
  s_netPnl (computeStats rows) = sumOf netPnl rows.
Proof. destruct rows; reflexivity. Qed.

Lemma avgWinPct_spec (rows : list TradeRecord) :
  avgWinPct (computeStats rows)
  = match positiveWinPcts rows with
    | [] => 0
    | ps => fold_left (fun a b => a + b) ps 0 / of_nat (List.length ps)
    end.
Proof.
  unfold computeStats, computeStatsWith, positiveWinPcts.
  destruct rows as [|r rows]; [reflexivity|].
  cbv zeta. cbn [isEmpty avgWinPct].
  now destruct (filter _ _).
Qed.

Lemma positiveWinPcts_skip (l1 l2 : list TradeRecord) (r : TradeRecord) :
  gt (winPct r) 0 = false -> positiveWinPcts (l1 ++ r :: l2) = positiveWinPcts (l1 ++ l2).
Proof.
  intros H. unfold positiveWinPcts. rewrite !map_app, !filter_app. simpl.
  now rewrite H.
Qed.

Lemma winPct_missing host (tr : DOM.Row) :
  DOM.winBadge tr = None -> DOM.querySelector (DOM.cells tr) "Win %" = None ->
  winPct (normalize host tr) = 0.
Proof.
  intros Hb Hc. unfold normalize. cbn [winPct]. rewrite Hb.
  unfold DOM.getCellText. rewrite Hc. reflexivity.
Qed.

(** The scenario of the specification: three trades of AAA and BBB over two
    days, here followed by a fourth record that has no readable date. *)
Lemma scenario_all_view :
  let s := computeStats (firstn 3 (parseTable Demo.host Demo.table)) in
  totalTrades s = 3%nat /\ winningTrades s = 1%nat /\ losingTrades s = 2%nat
  /\ s_netPnl s = 50 /\ grossProfit s = 100 /\ grossLoss s = 50
  /\ profitFactor s = 2 /\ winRate s = 1 / 3 * 100.
Proof.
  cbv zeta. do 7 (split; [vm_compute; reflexivity|]). vm_compute; reflexivity.
Qed.

(** C10.  [avgWinPct] is the sum of the [winPct] values that are above zero,
    in record order, divided by how many they are, and 0 when there is none;
    a record whose [winPct] is not above zero changes neither, wherever it
    stands in the list.  The [winPct] of a row without a Win % cell or badge,
    or with text that is no number, is 0, so such a row is among those left
    out. *)
Theorem avgWinPct_is_mean_of_positive_winPct :
  (forall rows,
      avgWinPct (computeStats rows)
      = match positiveWinPcts rows with
        | [] => 0
        | ps => fold_left (fun a b => a + b) ps 0 / of_nat (List.length ps)
        end)
  /\ (forall rows p, In p (positiveWinPcts rows) <->
        (exists r, In r rows /\ winPct r = p) /\ (0 <? p) = true)
  /\ (forall l1 l2 r, (0 <? winPct r) = false ->
        avgWinPct (computeStats (l1 ++ r :: l2)) = avgWinPct (computeStats (l1 ++ l2)))
  /\ (forall host tr,
        DOM.winBadge tr = None -> DOM.querySelector (DOM.cells tr) "Win %" = None ->
        winPct (normalize host tr) = 0)
  /\ parsePct "" = 0
  /\ parsePct "n/a" = 0
  /\ parsePct "62.5%" = 62.5.
Proof.
  split; [exact avgWinPct_spec|]. split; [|split; [|split; [exact winPct_missing|]]].
  - intros rows p. unfold positiveWinPcts. rewrite filter_In, in_map_iff. unfold gt.
    split; intros [(r & H1 & H2) H3]; (split; [exists r; auto | exact H3]).
  - intros l1 l2 r H. rewrite !avgWinPct_spec. now rewrite positiveWinPcts_skip.
  - split; [reflexivity|]. split; vm_compute; reflexivity.
Qed.

(** C10 on [Demo.table], with and without a row that has no Win % cell. *)
Lemma avgWinPct_witness :
  (0 <? winPct (normalize Demo.host (Demo.row "2024-01-05" "AAA" "$1.00" []))) = false
  /\ avgWinPct (computeStats (parseTable Demo.host
                  (Demo.row "2024-01-05" "AAA" "$1.00" [] :: Demo.table)))
     = avgWinPct (computeStats (parseTable Demo.host Demo.table))
  /\ avgWinPct (computeStats (parseTable Demo.host Demo.table)) = 60.
Proof.
  split; [vm_compute; reflexivity|]. split; [|vm_compute; reflexivity].
  exact (proj1 (proj2 (proj2 avgWinPct_is_mean_of_positive_winPct))
           [] (parseTable Demo.host Demo.table)
           (normalize Demo.host (Demo.row "2024-01-05" "AAA" "$1.00" [])) eq_refl).
Defined.

End StatsA.

(** ** Variant B: the statistics *)

Module StatsB.

Import JS JSObject FloatFacts MathFacts ObjectFacts GroupingFacts GroupClaims DayFacts VariantB.
Import StatsA Spec.
Local Open Scope float_scope.

Lemma Permutation_filter_length {A} (p : A -> bool) (l1 l2 : list A) :
  Permutation l1 l2 -> List.length (filter p l1) = List.length (filter p l2).
Proof.
  induction 1 as [|x l1 l2 _ IH|x y l|l1 l2 l3 _ IH1 _ IH2]; simpl.
  - reflexivity.
  - destruct (p x); simpl; congruence.
  - destruct (p x), (p y); reflexivity.
  - congruence.
Qed.

Lemma filter_map_length {A B} (f : A -> B) (p : B -> bool) (l : list A) :
  List.length (filter p (map f l)) = List.length (filter (fun a => p (f a)) l).
Proof.
  induction l as [|a l IH]; simpl; [reflexivity|].
  destruct (p (f a)); simpl; congruence.
Qed.

Lemma numbersOf_In (vs : list (option number)) (v : number) :
  In v (numbersOf vs) <-> In (Some v) vs /\ isNaN v = false.
Proof.
  unfold numbersOf. rewrite in_flat_map. split.
  - intros ([x|] & Hx & Hv); [|destruct Hv].
    destruct (isNaN x) eqn:E; [destruct Hv|].
    destruct Hv as [<-|[]]. now split.
  - intros [Hin Hn]. exists (Some v). split; [exact Hin|]. rewrite Hn. now left.
Qed.

Lemma pnlLowValues_In (rows : list TradeRecord) (v : number) :
  In v (pnlLowValues rows) <-> exists r, In r rows /\ pnlLow r = Some v /\ isNaN v = false.
Proof.
  unfold pnlLowValues. rewrite numbersOf_In, in_map_iff. split.
  - intros [(r & H1 & H2) H3]. eauto.
  - intros (r & H1 & H2 & H3). eauto.
Qed.

Lemma numbersOf_not_nan (vs : list (option number)) : existsb isNaN (numbersOf vs) = false.
Proof.
  destruct (existsb isNaN (numbersOf vs)) eqn:E; [|reflexivity].
  apply existsb_exists in E as (v & Hv & Hn). apply numbersOf_In in Hv as [_ Hv]. congruence.
Qed.

Lemma lossAmounts_not_nan (rows : list TradeRecord) : existsb isNaN (lossAmounts rows) = false.
Proof.
  destruct (existsb isNaN (lossAmounts rows)) eqn:E; [|reflexivity].
  apply existsb_exists in E as (v & Hv & Hn). unfold lossAmounts in Hv.
  apply in_map_iff in Hv as (r & <- & Hr). apply filter_In in Hr as [_ Hr].
  apply ltb_not_nan in Hr as [Hr _]. unfold isNaN in Hn. congruence.
Qed.

(** What the summary of a non-empty record list holds, field by field. *)
Lemma summarize_worst div (rows : list TradeRecord) (byDate : obj (list TradeRecord)) :
  let s := summarize div rows byDate in
  worstDayNet s = (if isEmpty (lossAmounts rows) then 0 else Math_min (lossAmounts rows))
  /\ worstIntradayLow s
     = (if isEmpty (pnlLowValues rows) then worstDayNet s else Math_min (pnlLowValues rows)).
Proof.
  unfold summarize, lossAmounts, pnlLowValues. cbv zeta.
  cbn [worstDayNet worstIntradayLow].
  destruct (filter (fun r => lt (netPnl r) 0) rows); split; reflexivity.
Qed.

Section Host.
Variable host : Host.
Local Abbreviation key := (dateKey host).

Lemma summarize_days div (rows : list TradeRecord) (byDate : obj (list TradeRecord)) :
  groupByDate host rows = Normal byDate -> safeKeys key rows = true ->
  let s := summarize div rows byDate in
  let days := tradingDays host rows in
  profitableDays s = List.length (filter (fun d => gt (netOfDay host rows d) 0) days)
  /\ losingDays s = List.length (filter (fun d => lt (netOfDay host rows d) 0) days)
  /\ dayWinRatePct s
     = (if (List.length days =? 0)%nat then 0
        else div (of_nat (profitableDays s)) (of_nat (List.length days)) * 100).
Proof.
  intros E Hsafe. destruct (groupByDate_spec host rows Hsafe) as (o & E' & Hperm & Htot).
  rewrite E in E'. injection E' as <-.
  unfold summarize. cbv zeta. cbn [profitableDays losingDays dayWinRatePct].
  rewrite Htot, !filter_map_length, length_map. cbn [d_netPnl].
  rewrite !(Permutation_filter_length _ _ _ Hperm), (Permutation_length Hperm).
  repeat split; reflexivity.
Qed.

Lemma tradingDays_length (rows : list TradeRecord) :
  (List.length (tradingDays host rows) <= List.length rows)%nat.
Proof.
  unfold tradingDays.
  assert (H : forall l : list string, (List.length (nodup string_dec l) <= List.length l)%nat).
  { induction l as [|x l IH]; simpl; [lia|]. destruct (in_dec string_dec x l); simpl; lia. }
  rewrite H, length_map. apply filter_length_le.
Qed.



End Host.

(** Every record [parseTable] builds carries a [pnlLow] that is a Number other
    than NaN, so for its output the values of [pnlLowValues] are the [pnlLow]
    of all the records. *)
Lemma parseTable_pnlLow (host : Host) (table : DOM.Table) (r : TradeRecord) :
  In r (parseTable host table) -> exists v, pnlLow r = Some v /\ isNaN v = false.
Proof.
  unfold parseTable. intros Hr. apply filter_In in Hr as [Hr _].
  apply in_map_iff in Hr as (tr & <- & _).
  eexists. split; [reflexivity|]. apply ParserFacts.parseCurrencyB_not_nan.
Qed.

Lemma parseTable_pnlLowValues (host : Host) (table : DOM.Table) :
  List.length (pnlLowValues (parseTable host table)) = List.length (parseTable host table).
Proof.
  pose proof (parseTable_pnlLow host table) as H.
  induction (parseTable host table) as [|r rows IH]; [reflexivity|].
  destruct (H r (or_introl eq_refl)) as (v & Hv & Hn).
  unfold pnlLowValues, numbersOf in *. cbn [map flat_map].
  rewrite Hv, Hn. cbn [app List.length]. f_equal. apply IH.
  intros r' Hr'. apply H. now right.
Qed.

End StatsB.

(** ** The statistics aggregator, both variants *)

Module StatsClaims.

Import JS JSObject FloatFacts MathFacts ObjectFacts GroupingFacts GroupClaims DayFacts VariantB.
Import StatsA StatsB Spec.
Local Open Scope float_scope.


(** C3, as amended.  The profit factor is 999 when the total of the positive
    gross amounts is above zero and the absolute total of the negative ones
    is zero, 0 when both are zero, and the ratio of the two when the second
    is above zero; the two totals are never NaN nor negative, so one case
    applies.  (The ratio can be 999 as well, so 999 does not tell that there
    was no loss.)  Variant A totals the records' net amounts; variant B, when
    it returns, totals the gross amounts of the days in [byDate]. *)
Theorem profitFactor_sentinel_zero_or_ratio :
  (forall rows,
      let s := VariantA.computeStats rows in
      VariantA.grossProfit s = VariantA.sumOf VariantA.netPnl (wins rows)
      /\ VariantA.grossLoss s = Math_abs (VariantA.sumOf VariantA.netPnl (losses rows))
      /\ profitFactorRule (VariantA.profitFactor s) (VariantA.grossProfit s) (VariantA.grossLoss s))
  /\ (forall host rows byDate s,
        groupByDate host rows = Normal byDate ->
        computeStats host rows = Normal s ->
        profitFactorRule (profitFactor s)
          (grossProfitFromDays (dateTotals byDate))
          (grossLossFromDays (dateTotals byDate)))
  /\ (forall host rows,
        safeKeys (dateKey host) rows = true ->
        exists byDate s,
          groupByDate host rows = Normal byDate
          /\ computeStats host rows = Normal s
          /\ Permutation (map d_date (dateTotals byDate)) (tradingDays host rows)
          /\ (forall dt, In dt (dateTotals byDate) ->
                d_grossPnl dt = grossOfDay host rows (d_date dt))).
Proof.
  split; [exact StatsA.profitFactor_spec|]. split.
  - intros host rows byDate s E Es. unfold computeStats, computeStatsWith in Es.
    rewrite E in Es. destruct rows as [|r rows]; cbn [isEmpty bind] in Es; injection Es as <-.
    + cbv in E. injection E as <-. apply (profitFactor_rule 0 0); reflexivity.
    + unfold summarize. cbv zeta. cbn [profitFactor].
      apply profitFactor_rule.
      * apply (sum_of_wins_nonneg d_grossPnl).
      * apply (sum_of_losses_nonneg d_grossPnl).
  - intros host rows Hsafe.
    destruct (groupByDate_spec host rows Hsafe) as (o & E & Hperm & Htot).
    destruct (computeStats_returns host PrimFloat.div rows Hsafe) as (o' & E' & Es).
    rewrite E in E'. injection E' as <-.
    exists o. eexists. split; [exact E|]. split; [exact Es|]. split.
    + rewrite Htot, map_map. cbn [d_date]. rewrite map_id. exact Hperm.
    + intros dt Hdt. rewrite Htot in Hdt. apply in_map_iff in Hdt as (d & <- & _).
      reflexivity.
Qed.

(** C3 on [Demo.table], variant B. *)
Lemma profitFactor_witness :
  exists byDate s,
    groupByDate Demo.host (parseTable Demo.host Demo.table) = Normal byDate
    /\ computeStats Demo.host (parseTable Demo.host Demo.table) = Normal s
    /\ profitFactorRule (profitFactor s)
         (grossProfitFromDays (dateTotals byDate))
         (grossLossFromDays (dateTotals byDate)).
Proof.
  eexists. eexists. split; [vm_compute; reflexivity|]. split; [vm_compute; reflexivity|].
  apply (proj1 (proj2 profitFactor_sentinel_zero_or_ratio) Demo.host
           (parseTable Demo.host Demo.table)); vm_compute; reflexivity.
Defined.

(** C3, as stated, fails: a profit factor of 999 with a loss total that is
    not zero. *)
Lemma profitFactor_999_with_losses :
  let s := VariantA.computeStats (VariantA.parseTable Demo.host Demo.ratioTable) in
  VariantA.profitFactor s = 999
  /\ VariantA.grossProfit s = 999
  /\ VariantA.grossLoss s = 1
  /\ (VariantA.grossLoss s =? 0) = false.
Proof.
  cbv zeta. split; [vm_compute; reflexivity|]. split; [vm_compute; reflexivity|].
  split; vm_compute; reflexivity.
Qed.

(** C4.  The [netPnl] of the summary is the sum of the records' [netPnl],
    accumulated from 0 in record order: 0 for the empty list, and the total
    of [rows] plus the amount of [r] for [rows] followed by [r].  Variant A
    returns it for every record list.  Variant B returns it for every record
    list whose date keys name no property of [Object.prototype], and throws a
    [TypeError] on the others. *)
Theorem summary_netPnl_is_sum_of_records :
  (forall rows,
      VariantA.s_netPnl (VariantA.computeStats rows) = VariantA.sumOf VariantA.netPnl rows)
  /\ VariantA.s_netPnl (VariantA.computeStats []) = 0
  /\ (forall rows r,
        VariantA.s_netPnl (VariantA.computeStats (rows ++ [r]))
        = VariantA.s_netPnl (VariantA.computeStats rows) + VariantA.netPnl r)
  /\ (forall host rows,
        safeKeys (dateKey host) rows = true ->
        exists s, computeStats host rows = Normal s /\ s_netPnl s = sumOf netPnl rows)
  /\ (forall host rows r s s',
        computeStats host rows = Normal s -> computeStats host (rows ++ [r]) = Normal s' ->
        s_netPnl s' = s_netPnl s + netPnl r)
  /\ (forall host rows,
        safeKeys (dateKey host) rows = false -> computeStats host rows = Throw TypeError).
Proof.
  assert (HB : forall host rows s, computeStats host rows = Normal s ->
                                   s_netPnl s = sumOf netPnl rows).
  { intros host rows s Es. unfold computeStats, computeStatsWith in Es.
    destruct rows as [|r0 rows]; cbn [isEmpty] in Es; [now injection Es as <-|].
    destruct (groupByDate host (r0 :: rows)); cbn [bind] in Es; [|discriminate].
    now injection Es as <-. }
  split; [exact StatsA.netPnl_spec|]. split; [reflexivity|]. split; [|split; [|split]].
  - intros rows r. rewrite !StatsA.netPnl_spec. unfold VariantA.sumOf.
    now rewrite fold_left_app.
  - intros host rows Hsafe.
    destruct (computeStats_returns host PrimFloat.div rows Hsafe) as (o & _ & Es).
    eexists. split; [exact Es|]. now apply (HB host).
  - intros host rows r s s' Es Es'. rewrite (HB _ _ _ Es), (HB _ _ _ Es').
    unfold sumOf. now rewrite fold_left_app.
  - intros host rows. apply computeStats_throws.
Qed.

(** C4 on [Demo.table], and on [Demo.oddTable] where the date label is
    "constructor". *)
Lemma summary_netPnl_witness :
  safeKeys (dateKey Demo.host) (parseTable Demo.host Demo.table) = true
  /\ (exists s, computeStats Demo.host (parseTable Demo.host Demo.table) = Normal s
               /\ s_netPnl s = sumOf netPnl (parseTable Demo.host Demo.table))
  /\ safeKeys (dateKey Demo.host) (parseTable Demo.host Demo.oddTable) = false
  /\ computeStats Demo.host (parseTable Demo.host Demo.oddTable) = Throw TypeError.
Proof.
  split; [vm_compute; reflexivity|]. split.
  - exact (proj1 (proj2 (proj2 (proj2 summary_netPnl_is_sum_of_records)))
             Demo.host (parseTable Demo.host Demo.table) eq_refl).
  - split; [vm_compute; reflexivity|].
    exact (proj2 (proj2 (proj2 (proj2 (proj2 summary_netPnl_is_sum_of_records))))
             Demo.host (parseTable Demo.host Demo.oddTable) eq_refl).
Defined.

(** C7.  In variant B, for a non-empty record list whose date keys name no
    property of [Object.prototype], the summary is returned and
    [worstIntradayLow] is the least of the [pnlLow] values that are Numbers
    other than NaN: it is one of them and none is below it.  When there is no
    such value it is [worstDayNet], which is the least [netPnl] among the
    records that lost, or 0 when none lost.  On the other non-empty lists
    the function throws a [TypeError]. *)
Theorem worstIntradayLow_is_min_pnlLow :
  (forall host rows,
      rows <> [] -> safeKeys (dateKey host) rows = true ->
      exists s,
        computeStats host rows = Normal s
        /\ (pnlLowValues rows <> [] ->
              In (worstIntradayLow s) (pnlLowValues rows)
              /\ forall v, In v (pnlLowValues rows) -> (worstIntradayLow s <=? v) = true)
        /\ (pnlLowValues rows = [] -> worstIntradayLow s = worstDayNet s)
        /\ (lossAmounts rows <> [] ->
              In (worstDayNet s) (lossAmounts rows)
              /\ forall v, In v (lossAmounts rows) -> (worstDayNet s <=? v) = true)
        /\ (lossAmounts rows = [] -> worstDayNet s = 0))
  /\ (forall rows v,
        In v (pnlLowValues rows) <->
        exists r, In r rows /\ pnlLow r = Some v /\ isNaN v = false)
  /\ (forall rows v,
        In v (lossAmounts rows) <->
        exists r, In r rows /\ netPnl r = v /\ (v <? 0) = true)
  /\ (forall host rows,
        safeKeys (dateKey host) rows = false -> computeStats host rows = Throw TypeError).
Proof.
  split; [|split; [exact pnlLowValues_In|split]].
  - intros host rows Hne Hsafe.
    destruct (computeStats_returns host PrimFloat.div rows Hsafe) as (o & _ & Es).
    destruct rows as [|r0 rows]; [congruence|]. cbn [isEmpty] in Es.
    eexists. split; [exact Es|].
    destruct (summarize_worst PrimFloat.div (r0 :: rows) o) as [Hd Hl].
    rewrite Hl, Hd. clear Hl Hd.
    split; [|split; [|split]].
    + intros Hv. destruct (pnlLowValues (r0 :: rows)) eqn:E; [congruence|].
      cbn [isEmpty]. rewrite <- E. apply Math_min_spec; [congruence|].
      apply numbersOf_not_nan.
    + intros ->. reflexivity.
    + intros Hv. destruct (lossAmounts (r0 :: rows)) eqn:E; [congruence|].
      cbn [isEmpty]. rewrite <- E. apply Math_min_spec; [congruence|].
      apply lossAmounts_not_nan.
    + intros ->. reflexivity.
  - intros rows v. unfold lossAmounts. rewrite in_map_iff. split.
    + intros (r & <- & Hr). apply filter_In in Hr as [Hr Hlt]. eauto.
    + intros (r & Hr & <- & Hlt). exists r. split; [reflexivity|].
      apply filter_In. now split.
  - intros host rows. apply computeStats_throws.
Qed.

(** C7 on [Demo.table]: the least [pnlLow] is -55. *)
Lemma worstIntradayLow_witness :
  parseTable Demo.host Demo.table <> []
  /\ safeKeys (dateKey Demo.host) (parseTable Demo.host Demo.table) = true
  /\ exists s,
       computeStats Demo.host (parseTable Demo.host Demo.table) = Normal s
       /\ worstIntradayLow s = -55
       /\ (forall v, In v (pnlLowValues (parseTable Demo.host Demo.table)) ->
             (worstIntradayLow s <=? v) = true).
Proof.
  assert (Hne : parseTable Demo.host Demo.table <> []) by (vm_compute; discriminate).
  split; [exact Hne|]. split; [vm_compute; reflexivity|].
  destruct (proj1 worstIntradayLow_is_min_pnlLow Demo.host
              (parseTable Demo.host Demo.table) Hne eq_refl) as (s & Es & Hmin & _).
  exists s. split; [exact Es|].
  assert (Hv : pnlLowValues (parseTable Demo.host Demo.table) <> [])
    by (vm_compute; discriminate).
  split; [|exact (proj2 (Hmin Hv))].
  vm_compute in Es. injection Es as <-. vm_compute. reflexivity.
Defined.

(** C8.  In variant B, for a record list whose date keys name no property of
    [Object.prototype], the summary is returned with: [profitableDays] the
    number of distinct date keys whose records' net amounts sum to more than
    zero, [losingDays] the number of those that sum to less than zero, and
    [dayWinRatePct] the first count divided by the number of distinct date
    keys, times 100 (0 when there is no date key).  A day whose sum is a zero
    is in neither count and still in the divisor.  With two days, one that
    nets 50 and one that nets -20, the three fields are 50, 1 and 1.  On the
    other record lists the function throws a [TypeError]. *)
Theorem dayWinRate_counts_positive_days :
  (forall host rows,
      safeKeys (dateKey host) rows = true ->
      exists s,
        computeStats host rows = Normal s
        /\ profitableDays s
           = List.length (filter (fun d => gt (netOfDay host rows d) 0) (tradingDays host rows))
        /\ losingDays s
           = List.length (filter (fun d => lt (netOfDay host rows d) 0) (tradingDays host rows))
        /\ dayWinRatePct s
           = (if (List.length (tradingDays host rows) =? 0)%nat then 0
              else of_nat (profitableDays s) / of_nat (List.length (tradingDays host rows)) * 100))
  /\ (forall x : number, (x =? 0) = true -> gt x 0 = false /\ lt x 0 = false)
  /\ (forall host rows d1 d2,
        safeKeys (dateKey host) rows = true ->
        Permutation (tradingDays host rows) [d1; d2] ->
        netOfDay host rows d1 = 50 -> netOfDay host rows d2 = -20 ->
        exists s,
          computeStats host rows = Normal s
          /\ dayWinRatePct s = 50 /\ profitableDays s = 1%nat /\ losingDays s = 1%nat)
  /\ (forall host rows,
        safeKeys (dateKey host) rows = false -> computeStats host rows = Throw TypeError).
Proof.
  assert (H : forall host rows,
      safeKeys (dateKey host) rows = true ->
      exists s,
        computeStats host rows = Normal s
        /\ profitableDays s
           = List.length (filter (fun d => gt (netOfDay host rows d) 0) (tradingDays host rows))
        /\ losingDays s
           = List.length (filter (fun d => lt (netOfDay host rows d) 0) (tradingDays host rows))
        /\ dayWinRatePct s
           = (if (List.length (tradingDays host rows) =? 0)%nat then 0
              else of_nat (profitableDays s) / of_nat (List.length (tradingDays host rows)) * 100)).
  { intros host rows Hsafe.
    destruct (computeStats_returns host PrimFloat.div rows Hsafe) as (o & E & Es).
    eexists. split; [exact Es|]. destruct rows as [|r0 rows]; cbn [isEmpty].
    - repeat split; reflexivity.
    - exact (summarize_days host PrimFloat.div (r0 :: rows) o E Hsafe). }
  split; [exact H|]. split; [|split].
  - intros x Hx. unfold gt, lt. now apply zero_not_positive.
  - intros host rows d1 d2 Hsafe Hdays H1 H2.
    destruct (H host rows Hsafe) as (s & Es & Hp & Hl & Hr).
    exists s. split; [exact Es|].
    rewrite (Permutation_filter_length _ _ _ Hdays) in Hp.
    rewrite (Permutation_filter_length _ _ _ Hdays) in Hl.
    rewrite (Permutation_length Hdays) in Hr.
    cbn [filter] in Hp, Hl. rewrite H1, H2 in Hp, Hl.
    change (gt 50 0) with true in Hp. change (gt (-20) 0) with false in Hp.
    change (lt 50 0) with false in Hl. change (lt (-20) 0) with true in Hl.
    cbn in Hp, Hl. rewrite Hp in Hr. cbn [List.length Nat.eqb] in Hr.
    split; [|split; assumption]. rewrite Hr. vm_compute. reflexivity.
  - intros host rows. apply computeStats_throws.
Qed.

(** C8 on [Demo.twoDays]: the scenario of the specification. *)
Lemma dayWinRate_witness :
  safeKeys (dateKey Demo.host) (parseTable Demo.host Demo.twoDays) = true
  /\ Permutation (tradingDays Demo.host (parseTable Demo.host Demo.twoDays))
       ["2024-01-02"; "2024-01-03"]
  /\ netOfDay Demo.host (parseTable Demo.host Demo.twoDays) "2024-01-02" = 50
  /\ netOfDay Demo.host (parseTable Demo.host Demo.twoDays) "2024-01-03" = -20
  /\ exists s,
       computeStats Demo.host (parseTable Demo.host Demo.twoDays) = Normal s
       /\ dayWinRatePct s = 50 /\ profitableDays s = 1%nat /\ losingDays s = 1%nat.
Proof.
  assert (Hp : Permutation (tradingDays Demo.host (parseTable Demo.host Demo.twoDays))
                 ["2024-01-02"; "2024-01-03"]).
  { vm_compute. apply perm_swap. }
  split; [vm_compute; reflexivity|]. split; [exact Hp|].
  split; [vm_compute; reflexivity|]. split; [vm_compute; reflexivity|].
  exact (proj1 (proj2 (proj2 dayWinRate_counts_positive_days)) Demo.host
           (parseTable Demo.host Demo.twoDays) "2024-01-02" "2024-01-03"
           eq_refl Hp eq_refl eq_refl).
Defined.

End StatsClaims.

(** ** Strings: what [trim] and the global replacements keep *)

Module StringFacts.

Import JS Terms.

Lemma removeAll_app (cls : ascii -> bool) (s t : string) :
  removeAll cls (s ++ t)%string = (removeAll cls s ++ removeAll cls t)%string.
Proof.
  induction s as [|c s IH]; simpl; [reflexivity|].
  destruct (cls c); simpl; rewrite IH; reflexivity.
Qed.

Lemma removeAll_comm (p q : ascii -> bool) (s : string) :
  removeAll p (removeAll q s) = removeAll q (removeAll p s).
Proof.
  induction s as [|c s IH]; simpl; [reflexivity|].
  destruct (q c) eqn:Q, (p c) eqn:P; simpl; rewrite ?Q, ?P, IH; reflexivity.
Qed.

Lemma removeAll_idem (p : ascii -> bool) (s : string) :
  removeAll p (removeAll p s) = removeAll p s.
Proof.
  induction s as [|c s IH]; simpl; [reflexivity|].
  destruct (p c) eqn:P; simpl; rewrite ?P, IH; reflexivity.
Qed.

(** A string without a character of the class is left as it is. *)
Lemma removeAll_none (p : ascii -> bool) (s : string) :
  forallb (fun c => negb (p c)) (list_ascii_of_string s) = true -> removeAll p s = s.
Proof.
  induction s as [|c s IH]; simpl; [reflexivity|].
  intros H. apply andb_true_iff in H. destruct H as [H1 H2].
  apply negb_true_iff in H1. rewrite H1, IH by exact H2. reflexivity.
Qed.

Lemma removeAll_keeps (p q : ascii -> bool) (s : string) :
  forallb (fun c => negb (p c)) (list_ascii_of_string s) = true ->
  forallb (fun c => negb (p c)) (list_ascii_of_string (removeAll q s)) = true.
Proof.
  induction s as [|c s IH]; simpl; [reflexivity|].
  intros H. apply andb_true_iff in H. destruct H as [H1 H2].
  destruct (q c); simpl; rewrite ?H1; auto.
Qed.

Lemma removeAll_trimStart (s : string) :
  removeAll isWhiteSpace (trimStart s) = removeAll isWhiteSpace s.
Proof.
  induction s as [|c s IH]; simpl; [reflexivity|].
  destruct (isWhiteSpace c) eqn:W; [exact IH|].
  simpl. rewrite W. reflexivity.
Qed.

Lemma removeAll_trimEnd (s : string) :
  removeAll isWhiteSpace (trimEnd s) = removeAll isWhiteSpace s.
Proof.
  induction s as [|c s IH]; simpl; [reflexivity|].
  destruct (trimEnd s) as [|d t] eqn:E.
  - destruct (isWhiteSpace c) eqn:W; simpl; rewrite ?W, <- IH; reflexivity.
  - change (removeAll isWhiteSpace (String c (String d t)))
      with (if isWhiteSpace c then removeAll isWhiteSpace (String d t)
            else String c (removeAll isWhiteSpace (String d t))).
    rewrite IH. reflexivity.
Qed.

Lemma removeAll_trim (s : string) :
  removeAll isWhiteSpace (trim s) = removeAll isWhiteSpace s.
Proof. unfold trim. rewrite removeAll_trimEnd. apply removeAll_trimStart. Qed.

Lemma eqb_not_space (c d : ascii) :
  isWhiteSpace c = false -> isWhiteSpace d = true -> Ascii.eqb c d = false.
Proof.
  intros Hc Hd. destruct (Ascii.eqb c d) eqn:E; [|reflexivity].
  apply Ascii.eqb_eq in E. congruence.
Qed.

Lemma includesChar_trimStart (c : ascii) (s : string) :
  isWhiteSpace c = false -> includesChar c (trimStart s) = includesChar c s.
Proof.
  intros Hc. induction s as [|d s IH]; simpl; [reflexivity|].
  destruct (isWhiteSpace d) eqn:W; [|reflexivity].
  rewrite (eqb_not_space c d Hc W). exact IH.
Qed.

Lemma includesChar_trimEnd (c : ascii) (s : string) :
  isWhiteSpace c = false -> includesChar c (trimEnd s) = includesChar c s.
Proof.
  intros Hc. induction s as [|d s IH]; simpl; [reflexivity|].
  destruct (trimEnd s) as [|e t] eqn:E.
  - destruct (isWhiteSpace d) eqn:W; simpl.
    + rewrite (eqb_not_space c d Hc W), <- IH. reflexivity.
    + rewrite <- IH. reflexivity.
  - change (includesChar c (String d (String e t)))
      with (Ascii.eqb c d || includesChar c (String e t)).
    rewrite IH. reflexivity.
Qed.

Lemma includesChar_trim (c : ascii) (s : string) :
  isWhiteSpace c = false -> includesChar c (trim s) = includesChar c s.
Proof.
  intros Hc. unfold trim.
  rewrite includesChar_trimEnd, includesChar_trimStart by exact Hc. reflexivity.
Qed.

Lemma includesChar_app (c : ascii) (s t : string) :
  includesChar c (s ++ t)%string = includesChar c s || includesChar c t.
Proof.
  induction s as [|d s IH]; simpl; [reflexivity|].
  rewrite IH. apply orb_assoc.
Qed.

Lemma trimStart_blank (s : string) : trimStart s = "" <-> blank s = true.
Proof.
  unfold blank. induction s as [|c s IH]; simpl; [tauto|].
  destruct (isWhiteSpace c); simpl; [exact IH|].
  split; discriminate.
Qed.

Lemma trimEnd_empty (s : string) : trimEnd s = "" <-> blank s = true.
Proof.
  unfold blank. induction s as [|c s IH]; simpl; [tauto|].
  destruct (trimEnd s) as [|d t] eqn:E.
  - destruct (isWhiteSpace c); simpl.
    + split; intros _; [apply IH|]; reflexivity.
    + split; discriminate.
  - split; [discriminate|].
    intros H. apply andb_true_iff in H. destruct H as [_ H].
    apply IH in H. discriminate.
Qed.

Lemma blank_trimStart (s : string) : blank (trimStart s) = blank s.
Proof.
  unfold blank. induction s as [|c s IH]; simpl; [reflexivity|].
  destruct (isWhiteSpace c) eqn:W; simpl; [exact IH|].
  rewrite W. reflexivity.
Qed.

Lemma trim_blank (s : string) : trim s = "" <-> blank s = true.
Proof.
  unfold trim. rewrite trimEnd_empty, blank_trimStart. tauto.
Qed.

(** Nothing to trim on a string that neither starts nor ends with white
    space. *)
Lemma trimStart_head (c : ascii) (s : string) :
  isWhiteSpace c = false -> trimStart (String c s) = String c s.
Proof. intros H. simpl. rewrite H. reflexivity. Qed.

Lemma trimStart_result (s : string) :
  match trimStart s with
  | String c _ => isWhiteSpace c = false
  | EmptyString => True
  end.
Proof.
  induction s as [|c s IH]; simpl; [exact I|].
  destruct (isWhiteSpace c) eqn:W; [exact IH|exact W].
Qed.

Lemma trimEnd_head (s : string) :
  match trimEnd s, s with
  | String c _, String d _ => c = d
  | String _ _, EmptyString => False
  | EmptyString, _ => True
  end.
Proof.
  destruct s as [|d s]; simpl; [exact I|].
  destruct (trimEnd s); [destruct (isWhiteSpace d)|]; try exact I; reflexivity.
Qed.

Lemma trimEnd_last (s : string) :
  match last (trimEnd s) with
  | Some c => isWhiteSpace c = false
  | None => True
  end.
Proof.
  induction s as [|d s IH]; simpl; [exact I|].
  destruct (trimEnd s) as [|e t] eqn:E.
  - destruct (isWhiteSpace d) eqn:W; simpl; [exact I|exact W].
  - change (last (String d (String e t))) with (last (String e t)). exact IH.
Qed.

Lemma trim_ends (s : string) :
  match trim s with
  | String c _ => isWhiteSpace c = false
  | EmptyString => True
  end
  /\ match last (trim s) with
     | Some c => isWhiteSpace c = false
     | None => True
     end.
Proof.
  unfold trim. split; [|apply trimEnd_last].
  pose proof (trimStart_result s) as H1.
  pose proof (trimEnd_head (trimStart s)) as H2.
  destruct (trimEnd (trimStart s)) as [|c t]; [exact I|].
  destruct (trimStart s) as [|d u]; [contradiction|].
  subst. exact H1.
Qed.

Lemma trimEnd_fixed (s : string) :
  match last s with Some c => isWhiteSpace c = false | None => True end ->
  trimEnd s = s.
Proof.
  induction s as [|d s IH]; simpl; [reflexivity|].
  destruct s as [|e t].
  - intros H. simpl. rewrite H. reflexivity.
  - intros H. rewrite IH by exact H. reflexivity.
Qed.

Lemma trim_idem (s : string) : trim (trim s) = trim s.
Proof.
  destruct (trim_ends s) as [H1 H2]. unfold trim at 1.
  destruct (trim s) as [|c t] eqn:E; [reflexivity|].
  rewrite trimStart_head by exact H1. apply trimEnd_fixed. exact H2.
Qed.

Lemma trim_none (s : string) :
  forallb (fun c => negb (isWhiteSpace c)) (list_ascii_of_string s) = true -> trim s = s.
Proof.
  intros H. unfold trim.
  assert (Hs : trimStart s = s).
  { destruct s as [|c s]; [reflexivity|]. simpl in H.
    apply andb_true_iff in H. destruct H as [H _].
    apply negb_true_iff in H. apply trimStart_head. exact H. }
  rewrite Hs. apply trimEnd_fixed.
  clear Hs. induction s as [|c s IH]; simpl; [exact I|].
  simpl in H. apply andb_true_iff in H. destruct H as [H1 H2].
  destruct s as [|d t]; [apply negb_true_iff; exact H1|].
  apply IH. exact H2.
Qed.

End StringFacts.

(** ** The parsers on any text *)

Module ParserMore.

Import JS FloatFacts ParserFacts StringFacts Terms.
Local Open Scope float_scope.
#[local] Set Warnings "-inexact-float".

(** The test for the empty string is covered by the test for NaN. *)
Lemma parseCurrencyA_eq (s : string) :
  VariantA.parseCurrency s
  = let n := parseFloat (trim (removeAll VariantA.isDollarOrComma s)) in
    if isNaN n then 0 else n.
Proof.
  unfold VariantA.parseCurrency. destruct s; [vm_compute|]; reflexivity.
Qed.

(** In variant B the text is scanned with every white space, dollar sign
    and comma removed, and the parenthesis is looked for in the whole text. *)
Lemma parseCurrencyB_eq (s : string) :
  VariantB.parseCurrency s
  = let n := parseFloat (removeAll isWhiteSpace (removeAll VariantB.isDollarOrComma s)) in
    if isNaN n then 0
    else if includesChar "(" s then neg (Math_abs n) else n.
Proof.
  unfold VariantB.parseCurrency. destruct s as [|c s]; [vm_compute; reflexivity|].
  cbn [String.eqb]. cbv zeta.
  rewrite (removeAll_comm isWhiteSpace), removeAll_trim, (removeAll_comm VariantB.isDollarOrComma).
  rewrite includesChar_trim by reflexivity. reflexivity.
Qed.

Lemma removeAll_insert (cls : ascii -> bool) (s1 s2 : string) (c : ascii) :
  cls c = true -> removeAll cls (s1 ++ String c s2)%string = removeAll cls (s1 ++ s2)%string.
Proof.
  intros H. rewrite !removeAll_app. simpl. rewrite H. reflexivity.
Qed.

Lemma removeAll_insert_other (cls : ascii -> bool) (s1 s2 : string) (c : ascii) :
  cls c = false ->
  removeAll cls (s1 ++ String c s2)%string
  = (removeAll cls s1 ++ String c (removeAll cls s2))%string.
Proof.
  intros H. rewrite !removeAll_app. simpl. rewrite H. reflexivity.
Qed.

(** X1. Variant A's [parseCurrency] reads a text as if its dollar signs and
    commas were not there, wherever they stand: inserting one anywhere
    leaves the amount unchanged. *)
Theorem parseCurrencyA_ignores_dollar_and_comma (s1 s2 : string) (c : ascii) :
  VariantA.isDollarOrComma c = true ->
  VariantA.parseCurrency (s1 ++ String c s2) = VariantA.parseCurrency (s1 ++ s2).
Proof.
  intros H. rewrite !parseCurrencyA_eq. cbv zeta.
  rewrite (removeAll_insert _ s1 s2 c H). reflexivity.
Qed.

Lemma parseCurrencyA_ignores_witness :
  VariantA.isDollarOrComma "," = true
  /\ VariantA.parseCurrency "1,2$34" = VariantA.parseCurrency "12$34"
  /\ VariantA.parseCurrency "12$34" = 1234.
Proof.
  split; [reflexivity|]. split.
  - apply (parseCurrencyA_ignores_dollar_and_comma "1" "2$34" ","). reflexivity.
  - vm_compute. reflexivity.
Defined.

Lemma class_union (p q : ascii -> bool) (s1 s2 : string) (c : ascii) :
  p c || q c = true ->
  removeAll p (removeAll q (s1 ++ String c s2)%string)
  = removeAll p (removeAll q (s1 ++ s2)%string).
Proof.
  intros H. destruct (q c) eqn:Q.
  - rewrite (removeAll_insert q s1 s2 c Q). reflexivity.
  - rewrite orb_false_r in H.
    rewrite (removeAll_insert_other q s1 s2 c Q), (removeAll_app q s1 s2).
    apply removeAll_insert. exact H.
Qed.

Lemma not_paren (c : ascii) :
  isWhiteSpace c || VariantB.isDollarOrComma c = true -> Ascii.eqb "(" c = false.
Proof.
  intros H. destruct (Ascii.eqb "(" c) eqn:E; [|reflexivity].
  apply Ascii.eqb_eq in E. subst c. discriminate H.
Qed.

(** X2. Variant B's [parseCurrency] reads a text as if its white space,
    dollar signs and commas were not there, wherever they stand. *)
Theorem parseCurrencyB_ignores_space_dollar_and_comma (s1 s2 : string) (c : ascii) :
  isWhiteSpace c || VariantB.isDollarOrComma c = true ->
  VariantB.parseCurrency (s1 ++ String c s2) = VariantB.parseCurrency (s1 ++ s2).
Proof.
  intros H. rewrite !parseCurrencyB_eq. cbv zeta.
  rewrite (class_union isWhiteSpace VariantB.isDollarOrComma s1 s2 c H).
  rewrite !includesChar_app. cbn [includesChar]. rewrite (not_paren c H). reflexivity.
Qed.

Lemma parseCurrencyB_ignores_witness :
  isWhiteSpace " " || VariantB.isDollarOrComma " " = true
  /\ VariantB.parseCurrency "- 1,250.5" = VariantB.parseCurrency "-1,250.5"
  /\ VariantB.parseCurrency "-1,250.5" = -1250.5
  /\ VariantA.parseCurrency "- 1,250.5" = 0.
Proof.
  split; [reflexivity|]. split; [|split].
  - apply (parseCurrencyB_ignores_space_dollar_and_comma "-" "1,250.5" " "). reflexivity.
  - vm_compute. reflexivity.
  - vm_compute. reflexivity.
Defined.

Lemma neg_abs_nonpos (n : number) : isNaN n = false -> (neg (Math_abs n) <=? 0) = true.
Proof.
  intros H. apply nonpos_weakly. unfold neg, Math_abs.
  rewrite opp_spec, abs_spec.
  apply not_nan_Prim2SF in H. destruct (Prim2SF n); simpl; auto.
Qed.

Lemma nonpos_not_positive (x : number) : (x <=? 0) = true -> (0 <? x) = false.
Proof.
  rewrite leb_spec, ltb_spec, Prim2SF_zero. unfold SFleb, SFltb.
  destruct (Prim2SF x) as [[]|[]| |[] m e]; simpl; congruence.
Qed.

(** X3. In variant B a text with an opening parenthesis anywhere is never
    read as a gain: the amount is [-|n|] for the number [n] scanned, 0 when
    none is. *)
Theorem parseCurrencyB_parenthesis_never_gain (s : string) :
  includesChar "(" s = true ->
  (VariantB.parseCurrency s <=? 0) = true
  /\ gt (VariantB.parseCurrency s) 0 = false
  /\ VariantB.parseCurrency s
     = (let n := parseFloat (removeAll isWhiteSpace (removeAll VariantB.isDollarOrComma s)) in
        if isNaN n then 0 else neg (Math_abs n)).
Proof.
  intros H.
  assert (E : VariantB.parseCurrency s
     = (let n := parseFloat (removeAll isWhiteSpace (removeAll VariantB.isDollarOrComma s)) in
        if isNaN n then 0 else neg (Math_abs n))).
  { rewrite parseCurrencyB_eq. cbv zeta. rewrite H. reflexivity. }
  assert (L : (VariantB.parseCurrency s <=? 0) = true).
  { rewrite E. cbv zeta.
    destruct (isNaN (parseFloat _)) eqn:N; [reflexivity|].
    apply neg_abs_nonpos. exact N. }
  split; [exact L|]. split; [|exact E].
  unfold gt. apply nonpos_not_positive. exact L.
Qed.

Lemma parseCurrencyB_parenthesis_witness :
  includesChar "(" "$1,234.50 (fee" = true
  /\ (VariantB.parseCurrency "$1,234.50 (fee" <=? 0) = true
  /\ VariantB.parseCurrency "$1,234.50 (fee" = -1234.5.
Proof.
  split; [reflexivity|]. split.
  - apply (parseCurrencyB_parenthesis_never_gain "$1,234.50 (fee"). reflexivity.
  - vm_compute. reflexivity.
Defined.

(** X4. The two variants of [parseCurrency] read the same amount from
    every text that has no white space and no opening parenthesis. *)
Theorem parseCurrency_variants_agree (s : string) :
  forallb (fun c => negb (isWhiteSpace c)) (list_ascii_of_string s) = true ->
  includesChar "(" s = false ->
  VariantB.parseCurrency s = VariantA.parseCurrency s.
Proof.
  intros Hs Hp. rewrite parseCurrencyA_eq, parseCurrencyB_eq. cbv zeta.
  rewrite Hp.
  change VariantB.isDollarOrComma with VariantA.isDollarOrComma.
  pose proof (removeAll_keeps isWhiteSpace VariantA.isDollarOrComma s Hs) as Hk.
  rewrite (removeAll_none isWhiteSpace _ Hk), (trim_none _ Hk).
  destruct (isNaN _); reflexivity.
Qed.

Lemma parseCurrency_variants_witness :
  forallb (fun c => negb (isWhiteSpace c)) (list_ascii_of_string "-$1,234.56") = true
  /\ includesChar "(" "-$1,234.56" = false
  /\ VariantB.parseCurrency "-$1,234.56" = VariantA.parseCurrency "-$1,234.56"
  /\ VariantA.parseCurrency "-$1,234.56" = -1234.56.
Proof.
  split; [reflexivity|]. split; [reflexivity|]. split.
  - apply (parseCurrency_variants_agree "-$1,234.56"); reflexivity.
  - vm_compute. reflexivity.
Defined.

Lemma removeFirst_insert (c : ascii) (s1 s2 : string) :
  includesChar c s1 = false ->
  VariantA.removeFirst c (s1 ++ String c s2)%string = (s1 ++ s2)%string.
Proof.
  induction s1 as [|d s1 IH]; simpl.
  - rewrite Ascii.eqb_refl. reflexivity.
  - intros H. apply orb_false_iff in H. destruct H as [H1 H2].
    rewrite H1, IH by exact H2. reflexivity.
Qed.

Lemma removeFirst_none (c : ascii) (s : string) :
  includesChar c s = false -> VariantA.removeFirst c s = s.
Proof.
  induction s as [|d s IH]; simpl; [reflexivity|].
  intros H. apply orb_false_iff in H. destruct H as [H1 H2].
  rewrite H1, IH by exact H2. reflexivity.
Qed.

Lemma parsePct_eq (s : string) :
  VariantA.parsePct s
  = let n := parseFloat (trim (VariantA.removeFirst "%" s)) in
    if isNaN n then 0 else n.
Proof.
  unfold VariantA.parsePct. destruct s; [vm_compute|]; reflexivity.
Qed.

(** X5. [parsePct] never returns NaN.  It scans the text with its first
    percent sign taken out, wherever that sign stands, and with no other
    character taken out: a text without a percent sign is scanned as it is,
    and a second percent sign stays in the text that is scanned. *)
Theorem parsePct_drops_first_percent_sign :
  (forall s, isNaN (VariantA.parsePct s) = false)
  /\ (forall s1 s2, includesChar "%" s1 = false ->
        VariantA.parsePct (s1 ++ String "%" s2)
        = (let n := parseFloat (trim (s1 ++ s2)) in if isNaN n then 0 else n))
  /\ (forall s, includesChar "%" s = false ->
        VariantA.parsePct s
        = (let n := parseFloat (trim s) in if isNaN n then 0 else n)).
Proof.
  split; [exact parsePct_not_nan|]. split.
  - intros s1 s2 H. rewrite parsePct_eq. cbv zeta.
    rewrite (removeFirst_insert "%" s1 s2 H). reflexivity.
  - intros s H. rewrite parsePct_eq, (removeFirst_none "%" s H). reflexivity.
Qed.

Lemma parsePct_witness :
  includesChar "%" "6" = false
  /\ VariantA.parsePct "6%2.5%" = 62.5
  /\ includesChar "%" " 62.5 " = false
  /\ VariantA.parsePct " 62.5 " = 62.5.
Proof.
  destruct parsePct_drops_first_percent_sign as [_ [H1 H2]].
  split; [reflexivity|]. split; [|split; [reflexivity|]].
  - etransitivity; [exact (H1 "6" "2.5%" eq_refl)|]. vm_compute. reflexivity.
  - etransitivity; [exact (H2 " 62.5 " eq_refl)|]. vm_compute. reflexivity.
Defined.

End ParserMore.

(** ** Where NaN comes from: sums and quotients of Numbers that are not NaN *)

Module NaNFacts.

Import JS FloatFacts Spec.
Local Open Scope float_scope.

Lemma binary_round_not_nan (s : bool) (m : positive) (e : Z) :
  binary_round prec emax s m e <> S754_nan.
Proof.
  pose proof (binary_round_signed s m e) as H.
  destruct (binary_round prec emax s m e); simpl in H; try discriminate. contradiction.
Qed.

Lemma binary_normalize_not_nan (m e : Z) (sz : bool) :
  binary_normalize prec emax m e sz <> S754_nan.
Proof.
  destruct m; cbn [binary_normalize]; [discriminate| |]; apply binary_round_not_nan.
Qed.

(** A sum is NaN only for two infinities of opposite sign. *)
Lemma SFadd_nan (x y : spec_float) :
  x <> S754_nan -> y <> S754_nan ->
  (SF64add x y = S754_nan
   <-> exists s, x = S754_infinity s /\ y = S754_infinity (negb s)).
Proof.
  intros Hx Hy. unfold SF64add. split.
  - destruct x as [sx|sx| |sx mx ex], y as [sy|sy| |sy my ey]; try congruence;
      cbn [SFadd]; intros H.
    + destruct sx, sy; discriminate H.
    + discriminate H.
    + discriminate H.
    + discriminate H.
    + destruct sx, sy; try discriminate H;
        [exists true|exists false]; split; reflexivity.
    + discriminate H.
    + discriminate H.
    + discriminate H.
    + exfalso. revert H. apply binary_normalize_not_nan.
  - intros (s & -> & ->). destruct s; reflexivity.
Qed.

Lemma Prim2SF_infinity (x : float) (s : bool) :
  Prim2SF x = S754_infinity s -> x = if s then neg_infinity else infinity.
Proof.
  intros H. apply Prim2SF_inj. rewrite H. destruct s; reflexivity.
Qed.

Lemma add_nan_iff (x y : float) :
  PrimFloat.is_nan x = false -> PrimFloat.is_nan y = false ->
  (PrimFloat.is_nan (x + y) = true
   <-> (x = infinity /\ y = neg_infinity) \/ (x = neg_infinity /\ y = infinity)).
Proof.
  intros Hx Hy. apply not_nan_Prim2SF in Hx, Hy.
  rewrite is_nan_Prim2SF, add_spec, (SFadd_nan _ _ Hx Hy). split.
  - intros ([|] & H1 & H2); apply Prim2SF_infinity in H1, H2; auto.
  - intros [[-> ->]|[-> ->]]; [exists false|exists true]; split; reflexivity.
Qed.






End NaNFacts.

(** ** The rows [parseTable] keeps and the records it builds *)

Module TableMore.

Import JS DOM FloatFacts NaNFacts ParserFacts StringFacts TableFacts Spec Terms.
Local Open Scope float_scope.
#[local] Set Warnings "-inexact-float".

Lemma getCellText_content (tr : Row) (l : string) :
  getCellText tr l = trim (cellContent tr l).
Proof.
  unfold getCellText, cellContent. destruct (querySelector _ _); reflexivity.
Qed.

Lemma symbolText_content (tr : Row) : symbolText tr = trim (symbolContent tr).
Proof.
  unfold symbolText, symbolContent. destruct (symbolBadge tr); [reflexivity|].
  apply getCellText_content.
Qed.

Lemma trim_empty_blank (s : string) : (trim s =? "")%string = blank s.
Proof.
  destruct (blank s) eqn:B.
  - apply String.eqb_eq, trim_blank. exact B.
  - apply String.eqb_neq. intros E. apply trim_blank in E. congruence.
Qed.

Lemma resolves_blank (tr : Row) :
  resolves tr = negb (blank (symbolContent tr) || blank (cellContent tr "Date")).
Proof.
  unfold resolves, dateLabel.
  rewrite symbolText_content, getCellText_content, !trim_empty_blank.
  symmetry. apply negb_orb.
Qed.

(** X6. [parseTable] drops a row exactly when the text its symbol is taken
    from (the symbol badge when there is one, the Symbol cell otherwise) or
    the text of its Date cell is missing, empty or white space only; every
    other row gives one record, in table order. *)
Theorem parseTable_drops_blank_rows (host : Host) (tr : Row) (table : Table) :
  (blank (symbolContent tr) || blank (cellContent tr "Date") = true ->
     VariantA.parseTable host (tr :: table) = VariantA.parseTable host table
     /\ VariantB.parseTable host (tr :: table) = VariantB.parseTable host table)
  /\ (blank (symbolContent tr) || blank (cellContent tr "Date") = false ->
     VariantA.parseTable host (tr :: table)
     = VariantA.normalize host tr :: VariantA.parseTable host table
     /\ VariantB.parseTable host (tr :: table)
        = VariantB.normalize host tr :: VariantB.parseTable host table).
Proof.
  rewrite !parseTableA_spec, !parseTableB_spec. cbn [filter].
  rewrite resolves_blank.
  split; intros H; rewrite H; split; reflexivity.
Qed.

Lemma parseTable_blank_witness :
  blank (symbolContent (Demo.row "2024-01-05" "  " "$1.00" []))
  || blank (cellContent (Demo.row "2024-01-05" "  " "$1.00" []) "Date") = true
  /\ VariantA.parseTable Demo.host (Demo.row "2024-01-05" "  " "$1.00" [] :: Demo.table)
     = VariantA.parseTable Demo.host Demo.table
  /\ blank (symbolContent (Demo.row "n/a" " X " "" []))
     || blank (cellContent (Demo.row "n/a" " X " "" []) "Date") = false
  /\ VariantB.parseTable Demo.host (Demo.row "n/a" " X " "" [] :: Demo.table)
     = VariantB.normalize Demo.host (Demo.row "n/a" " X " "" [])
       :: VariantB.parseTable Demo.host Demo.table.
Proof.
  split; [reflexivity|]. split; [|split; [reflexivity|]].
  - apply (parseTable_drops_blank_rows Demo.host
             (Demo.row "2024-01-05" "  " "$1.00" []) Demo.table). reflexivity.
  - apply (parseTable_drops_blank_rows Demo.host
             (Demo.row "n/a" " X " "" []) Demo.table). reflexivity.
Defined.

Lemma trimmed_trim (s : string) : trimmed (trim s).
Proof. apply trim_idem. Qed.

Lemma trimmed_getCellText (tr : Row) (l : string) : trimmed (getCellText tr l).
Proof. rewrite getCellText_content. apply trimmed_trim. Qed.

Lemma trimmed_symbolText (tr : Row) : trimmed (symbolText tr).
Proof. rewrite symbolText_content. apply trimmed_trim. Qed.

Lemma nth_DAYS (n : nat) :
  (n < 7)%nat -> nth_error VariantA.DAYS n = Some (nth n VariantA.DAYS "").
Proof.
  intros H. do 7 (destruct n as [|n]; [reflexivity|]). lia.
Qed.

Lemma dayFieldsAgree_normalizeA (host : Host) (tr : Row) :
  let r := VariantA.normalize host tr in
  dayFieldsAgree host VariantA.DAYS (VariantA.date r) (VariantA.dayOfWeek r) (VariantA.dayName r).
Proof.
  cbv zeta. unfold VariantA.normalize. cbn.
  destruct (VariantA.parseDate host _); cbn; [|auto].
  split; [reflexivity|]. split; [apply getDay_lt_7|].
  apply nth_DAYS, getDay_lt_7.
Qed.

Lemma dayFieldsAgree_normalizeB (host : Host) (tr : Row) :
  let r := VariantB.normalize host tr in
  dayFieldsAgree host VariantB.DAYS (VariantB.date r) (VariantB.dayOfWeek r) (VariantB.dayName r).
Proof.
  cbv zeta. unfold VariantB.normalize. cbn.
  destruct (VariantB.parseDate host _); cbn; [|auto].
  split; [reflexivity|]. split; [apply getDay_lt_7|].
  apply nth_DAYS, getDay_lt_7.
Qed.

Lemma In_parseTableA (host : Host) (table : Table) (r : VariantA.TradeRecord) :
  In r (VariantA.parseTable host table) ->
  exists tr, In tr table /\ resolves tr = true /\ r = VariantA.normalize host tr.
Proof.
  rewrite parseTableA_spec. intros H. apply in_map_iff in H.
  destruct H as [tr [E H]]. apply filter_In in H. destruct H as [H1 H2].
  exists tr. auto.
Qed.

Lemma In_parseTableB (host : Host) (table : Table) (r : VariantB.TradeRecord) :
  In r (VariantB.parseTable host table) ->
  exists tr, In tr table /\ resolves tr = true /\ r = VariantB.normalize host tr.
Proof.
  rewrite parseTableB_spec. intros H. apply in_map_iff in H.
  destruct H as [tr [E H]]. apply filter_In in H. destruct H as [H1 H2].
  exists tr. auto.
Qed.

Lemma resolves_texts (tr : Row) :
  resolves tr = true -> symbolText tr <> "" /\ dateLabel tr <> "".
Proof.
  unfold resolves. intros H. apply andb_true_iff in H. destruct H as [H1 H2].
  apply negb_true_iff in H1, H2. split; apply String.eqb_neq; assumption.
Qed.

(** X7. Every record [parseTable] returns, in either variant, has a symbol
    and a date label that are not empty and carry no white space at either
    end, and date fields that agree: with a date, the weekday index is the
    one of the date, below 7, and the weekday label is the entry of [DAYS] at
    that index; without a date the index is null and the label empty.  The
    amounts read from a cell are Numbers other than NaN: [netPnl], [winPct],
    [avgWin] and [avgLoss] in variant A, [netPnl], [commission], [pnlHigh]
    and [pnlLow] in variant B.  Variant B's [grossPnl] is the sum of [netPnl]
    and [commission]; it is NaN exactly when the two are infinities of
    opposite sign. *)
Theorem parseTable_records_are_well_formed (host : Host) (table : Table) :
  (forall r, In r (VariantA.parseTable host table) ->
     VariantA.symbol r <> "" /\ VariantA.dateStr r <> ""
     /\ trimmed (VariantA.symbol r) /\ trimmed (VariantA.dateStr r)
     /\ isNaN (VariantA.netPnl r) = false /\ isNaN (VariantA.winPct r) = false
     /\ isNaN (VariantA.avgWin r) = false /\ isNaN (VariantA.avgLoss r) = false
     /\ VariantA.date r = VariantA.parseDate host (VariantA.dateStr r)
     /\ dayFieldsAgree host VariantA.DAYS
          (VariantA.date r) (VariantA.dayOfWeek r) (VariantA.dayName r))
  /\ (forall r, In r (VariantB.parseTable host table) ->
     VariantB.symbol r <> "" /\ VariantB.dateStr r <> ""
     /\ trimmed (VariantB.symbol r) /\ trimmed (VariantB.dateStr r)
     /\ isNaN (VariantB.netPnl r) = false /\ isNaN (VariantB.commission r) = false
     /\ VariantB.grossPnl r = VariantB.netPnl r + VariantB.commission r
     /\ (isNaN (VariantB.grossPnl r) = true
         <-> (VariantB.netPnl r = PrimFloat.infinity
              /\ VariantB.commission r = PrimFloat.neg_infinity)
             \/ (VariantB.netPnl r = PrimFloat.neg_infinity
                 /\ VariantB.commission r = PrimFloat.infinity))
     /\ (exists hi lo, VariantB.pnlHigh r = Some hi /\ VariantB.pnlLow r = Some lo
                       /\ isNaN hi = false /\ isNaN lo = false)
     /\ VariantB.date r = VariantB.parseDate host (VariantB.dateStr r)
     /\ dayFieldsAgree host VariantB.DAYS
          (VariantB.date r) (VariantB.dayOfWeek r) (VariantB.dayName r)).
Proof.
  split; intros r H.
  - apply In_parseTableA in H. destruct H as [tr [_ [Hr E]]].
    apply resolves_texts in Hr. destruct Hr as [Hs Hd].
    pose proof (dayFieldsAgree_normalizeA host tr) as Hf. cbv zeta in Hf.
    subst r. cbn [VariantA.normalize VariantA.symbol VariantA.dateStr VariantA.netPnl
                  VariantA.winPct VariantA.avgWin VariantA.avgLoss VariantA.date].
    split; [exact Hs|]. split; [exact Hd|].
    split; [apply trimmed_symbolText|]. split; [apply trimmed_getCellText|].
    do 4 (split; [first [apply parseCurrencyA_not_nan | apply parsePct_not_nan]|]).
    split; [reflexivity|exact Hf].
  - apply In_parseTableB in H. destruct H as [tr [_ [Hr E]]].
    apply resolves_texts in Hr. destruct Hr as [Hs Hd].
    pose proof (dayFieldsAgree_normalizeB host tr) as Hf. cbv zeta in Hf.
    subst r. cbn [VariantB.normalize VariantB.symbol VariantB.dateStr VariantB.netPnl
                  VariantB.commission VariantB.grossPnl VariantB.pnlHigh VariantB.pnlLow
                  VariantB.date].
    split; [exact Hs|]. split; [exact Hd|].
    split; [apply trimmed_symbolText|]. split; [apply trimmed_getCellText|].
    do 2 (split; [apply parseCurrencyB_not_nan|]).
    split; [reflexivity|].
    split; [apply add_nan_iff; apply parseCurrencyB_not_nan|].
    split; [do 2 eexists; repeat split; apply parseCurrencyB_not_nan|].
    split; [reflexivity|exact Hf].
Qed.

Lemma parseTable_records_witness :
  In (VariantA.normalize Demo.host (Demo.row " 2024-01-03 " "BBB" "-$10.00" []))
     (VariantA.parseTable Demo.host
        [Demo.row " 2024-01-03 " "BBB" "-$10.00" []])
  /\ VariantA.dateStr (VariantA.normalize Demo.host (Demo.row " 2024-01-03 " "BBB" "-$10.00" []))
     = "2024-01-03"
  /\ VariantA.dayName (VariantA.normalize Demo.host (Demo.row " 2024-01-03 " "BBB" "-$10.00" []))
     = "Wed"
  /\ dayFieldsAgree Demo.host VariantA.DAYS
       (VariantA.date (VariantA.normalize Demo.host (Demo.row " 2024-01-03 " "BBB" "-$10.00" [])))
       (VariantA.dayOfWeek (VariantA.normalize Demo.host (Demo.row " 2024-01-03 " "BBB" "-$10.00" [])))
       (VariantA.dayName (VariantA.normalize Demo.host (Demo.row " 2024-01-03 " "BBB" "-$10.00" [])))
  /\ In (VariantB.normalize Demo.host
           (Demo.row "2024-01-03" "BBB" "Infinity" [("Commission", "-Infinity")]))
        (VariantB.parseTable Demo.host
           [Demo.row "2024-01-03" "BBB" "Infinity" [("Commission", "-Infinity")]])
  /\ VariantB.netPnl (VariantB.normalize Demo.host
        (Demo.row "2024-01-03" "BBB" "Infinity" [("Commission", "-Infinity")]))
     = PrimFloat.infinity
  /\ VariantB.commission (VariantB.normalize Demo.host
        (Demo.row "2024-01-03" "BBB" "Infinity" [("Commission", "-Infinity")]))
     = PrimFloat.neg_infinity
  /\ isNaN (VariantB.grossPnl (VariantB.normalize Demo.host
        (Demo.row "2024-01-03" "BBB" "Infinity" [("Commission", "-Infinity")]))) = true.
Proof.
  assert (H : In (VariantA.normalize Demo.host (Demo.row " 2024-01-03 " "BBB" "-$10.00" []))
     (VariantA.parseTable Demo.host [Demo.row " 2024-01-03 " "BBB" "-$10.00" []])).
  { left. reflexivity. }
  assert (H' : In (VariantB.normalize Demo.host
                     (Demo.row "2024-01-03" "BBB" "Infinity" [("Commission", "-Infinity")]))
                 (VariantB.parseTable Demo.host
                    [Demo.row "2024-01-03" "BBB" "Infinity" [("Commission", "-Infinity")]])).
  { left. reflexivity. }
  split; [exact H|]. split; [reflexivity|]. split; [reflexivity|]. split.
  - apply (parseTable_records_are_well_formed Demo.host
             [Demo.row " 2024-01-03 " "BBB" "-$10.00" []]). exact H.
  - split; [exact H'|]. split; [reflexivity|]. split; [reflexivity|].
    destruct (parseTable_records_are_well_formed Demo.host
                [Demo.row "2024-01-03" "BBB" "Infinity" [("Commission", "-Infinity")]])
      as [_ HB].
    destruct (HB _ H') as (_ & _ & _ & _ & _ & _ & _ & Hnan & _).
    apply Hnan. left. split; reflexivity.
Defined.

End TableMore.

(** ** More on Numbers: quotients, products and the largest of a list *)

Module NumberMore.

Import JS FloatFacts MathFacts Spec.
Local Open Scope float_scope.

Lemma of_nat_finite (n : nat) :
  (0 < Z.of_nat n < 2 ^ 53)%Z ->
  exists m e, Prim2SF (of_nat n) = S754_finite false m e.
Proof.
  intros Hn. unfold of_nat.
  rewrite of_uint63_spec, Uint63.of_Z_spec.
  rewrite Z.mod_small by (change Uint63.wB with (2 ^ 63)%Z; lia).
  destruct (Z.of_nat n) as [|p|p] eqn:E; try lia.
  apply binary_normalize_count, digits2_pos_bound; lia.
Qed.

Lemma of_nat_nonneg (n : nat) :
  (Z.of_nat n < 2 ^ 53)%Z -> weakly false (Prim2SF (of_nat n)).
Proof.
  intros Hn. destruct n as [|n]; [exact I|].
  destruct (of_nat_finite (S n)) as (m & e & ->); [lia|reflexivity].
Qed.

Lemma SFdiv_core_nonneg (m1 m2 : positive) (e1 e2 : Z) :
  (0 <= fst (fst (SFdiv_core_binary prec emax (Zpos m1) e1 (Zpos m2) e2)))%Z.
Proof.
  unfold SFdiv_core_binary.
  set (s := (e1 - e2 - _)%Z).
  set (m' := match s with Zpos _ => Z.shiftl (Zpos m1) s | Z0 => Zpos m1 | Zneg _ => 0%Z end).
  assert (Hm : (0 <= m')%Z).
  { unfold m'. destruct s; try lia. apply Z.shiftl_nonneg. lia. }
  pose proof (Z.div_pos m' (Zpos m2) Hm ltac:(lia)) as Hq.
  unfold Z.div in Hq.
  destruct (Z.div_eucl m' (Zpos m2)) as [q r]. exact Hq.
Qed.

(** A value that is not negative, divided by a positive finite value. *)
Lemma SFdiv_weakly (x : spec_float) (m : positive) (e : Z) :
  weakly false x -> weakly false (SF64div x (S754_finite false m e)).
Proof.
  unfold SF64div. destruct x as [sx|sx| |sx mx ex]; cbn [weakly SFdiv]; try tauto.
  - intros ->. reflexivity.
  - intros ->. cbn [xorb].
    pose proof (SFdiv_core_nonneg mx m ex e) as Hq.
    destruct (SFdiv_core_binary prec emax (Zpos mx) ex (Zpos m) e) as [[mz ez] lz].
    apply signed_weakly, binary_round_aux_signed. exact Hq.
Qed.

Lemma div_count_nonneg (x : float) (n : nat) :
  (0 <=? x) = true -> (0 < Z.of_nat n < 2 ^ 53)%Z -> (0 <=? x / of_nat n) = true.
Proof.
  rewrite !nonneg_weakly, div_spec. intros Hx Hn.
  destruct (of_nat_finite n Hn) as (m & e & ->). apply SFdiv_weakly. exact Hx.
Qed.

(** A value that is not negative, times a positive finite value. *)
Lemma SFmul_weakly (x : spec_float) (m : positive) (e : Z) :
  weakly false x -> weakly false (SF64mul x (S754_finite false m e)).
Proof.
  unfold SF64mul. destruct x as [sx|sx| |sx mx ex]; cbn [weakly SFmul]; try tauto.
  - intros ->. reflexivity.
  - intros ->. cbn [xorb]. apply signed_weakly, binary_round_aux_signed. lia.
Qed.

Lemma times_100_nonneg (x : float) : (0 <=? x) = true -> (0 <=? x * 100) = true.
Proof.
  rewrite !nonneg_weakly, mul_spec. intros Hx.
  change (Prim2SF 100) with (S754_finite false 7036874417766400 (-46)).
  apply SFmul_weakly. exact Hx.
Qed.

Lemma of_nat_leb_zero (n : nat) : (Z.of_nat n < 2 ^ 53)%Z -> (0 <=? of_nat n) = true.
Proof. intros H. apply nonneg_weakly, of_nat_nonneg. exact H. Qed.

(** No Number is both above and below zero. *)
Lemma positive_not_negative (x : float) : (0 <? x) = true -> (x <? 0) = false.
Proof.
  rewrite !ltb_spec, Prim2SF_zero. unfold SFltb.
  destruct (Prim2SF x) as [[]|[]| |[] m e]; simpl; congruence.
Qed.

Lemma positive_nonneg (x : float) : (0 <? x) = true -> (0 <=? x) = true.
Proof. apply ltb_leb. Qed.

Lemma negative_nonpos (x : float) : (x <? 0) = true -> (x <=? 0) = true.
Proof. apply ltb_leb. Qed.

(** [Math.max], as [Math.min] in [MathFacts]. *)
Lemma poszero_geb_negzero (x y : float) :
  isPosZero x = true -> isNegZero y = true -> (y <=? x) = true.
Proof.
  intros Hx Hy. rewrite leb_spec, (classify_PZero x Hx), (classify_NZero y Hy).
  reflexivity.
Qed.

Lemma neg_infinity_geb (x : float) : (x <=? neg_infinity) = true -> x = neg_infinity.
Proof.
  rewrite leb_spec. change (Prim2SF neg_infinity) with (S754_infinity true).
  intros H. apply Prim2SF_inj. change (Prim2SF neg_infinity) with (S754_infinity true).
  destruct (Prim2SF x) as [s|[|]| |s m e]; try discriminate; try reflexivity;
    destruct s; discriminate.
Qed.

Lemma maxStep_choice (highest x : float) :
  maxStep highest x = x \/ maxStep highest x = highest.
Proof.
  unfold maxStep. destruct (_ && _); auto. destruct (_ <? _); auto.
Qed.

Lemma maxStep_upper (highest x : float) :
  isNaN highest = false -> isNaN x = false ->
  (highest <=? maxStep highest x) = true /\ (x <=? maxStep highest x) = true.
Proof.
  intros Hh Hx. unfold maxStep.
  destruct (isPosZero x && isNegZero highest) eqn:Ez.
  - apply andb_prop in Ez as [Ex Eh]. split.
    + now apply poszero_geb_negzero.
    + now apply leb_refl.
  - destruct (highest <? x) eqn:Elt.
    + split; [now apply ltb_leb | now apply leb_refl].
    + split; [now apply leb_refl | now apply not_ltb_leb].
Qed.

Lemma maxStep_not_nan (highest x : float) :
  isNaN highest = false -> isNaN x = false -> isNaN (maxStep highest x) = false.
Proof. intros Hh Hx. destruct (maxStep_choice highest x) as [-> | ->]; auto. Qed.

Lemma fold_maxStep (xs : list float) (highest : float) :
  isNaN highest = false -> existsb isNaN xs = false ->
  let m := fold_left maxStep xs highest in
  isNaN m = false /\ (highest <=? m) = true /\ (forall x, In x xs -> (x <=? m) = true)
  /\ (m = highest \/ In m xs).
Proof.
  revert highest. induction xs as [|x xs IH]; intros highest Hh Hxs; cbn [fold_left].
  - repeat split; auto. now apply leb_refl.
  - simpl in Hxs. apply orb_false_iff in Hxs as [Hx Hxs].
    destruct (maxStep_upper highest x Hh Hx) as [H1 H2].
    destruct (IH (maxStep highest x) (maxStep_not_nan _ _ Hh Hx) Hxs) as (Hn & Hm & Hall & Hin).
    cbv zeta. repeat split; auto.
    + eapply leb_trans; eassumption.
    + intros y [<-|Hy]; [eapply leb_trans; eassumption | now apply Hall].
    + destruct Hin as [E|Hin]; [|right; now right].
      rewrite E. destruct (maxStep_choice highest x) as [-> | ->]; [right; now left | now left].
Qed.

(** [Math.max(...xs)] of Numbers that are not NaN is one of them, and none is
    above it. *)
Lemma Math_max_spec (xs : list float) :
  xs <> [] -> existsb isNaN xs = false ->
  In (Math_max xs) xs /\ forall x, In x xs -> (x <=? Math_max xs) = true.
Proof.
  intros Hne Hxs. unfold Math_max. rewrite Hxs.
  destruct (fold_maxStep xs neg_infinity eq_refl Hxs) as (_ & _ & Hall & Hin).
  split; [|exact Hall].
  destruct Hin as [E|Hin]; [|exact Hin].
  destruct xs as [|x xs]; [congruence|].
  rewrite E. left. apply neg_infinity_geb. rewrite <- E. apply Hall. now left.
Qed.

End NumberMore.

(** ** Rates are finite: the exponent of a rounded quotient of two counts *)

Module FiniteFacts.

Import JS FloatFacts NaNFacts NumberMore Spec.
Local Open Scope float_scope.

















End FiniteFacts.

(** ** Variant A: the counts, the extremes and the signs of a summary *)

Module StatsMoreA.

Import JS JSObject FloatFacts MathFacts NumberMore ObjectFacts GroupingFacts GroupClaims.
Import TableFacts VariantA StatsA StatsB Spec Terms.
Local Open Scope float_scope.
#[local] Set Warnings "-inexact-float".

Lemma counts_spec (rows : list TradeRecord) :
  let s := computeStats rows in
  totalTrades s = List.length rows
  /\ winningTrades s = List.length (wins rows)
  /\ losingTrades s = List.length (losses rows).
Proof.
  destruct rows; cbv zeta; repeat split; reflexivity.
Qed.

Lemma three_way (rows : list TradeRecord) :
  (List.length (wins rows) + List.length (losses rows) + List.length (flat rows)
   = List.length rows)%nat.
Proof.
  unfold wins, losses, flat. induction rows as [|r rows IH]; [reflexivity|].
  cbn [filter]. unfold gt, lt in *.
  destruct (0 <? netPnl r) eqn:W.
  - rewrite (positive_not_negative _ W). cbn [negb andb List.length]. lia.
  - destruct (netPnl r <? 0) eqn:L; cbn [negb andb List.length]; lia.
Qed.

Lemma neither_sign (x : float) :
  (0 <? x) = false /\ (x <? 0) = false <-> (x =? 0) = true \/ isNaN x = true.
Proof.
  unfold isNaN. rewrite is_nan_Prim2SF, eqb_spec, !ltb_spec, Prim2SF_zero.
  unfold SFltb, SFeqb.
  destruct (Prim2SF x) as [[]|[]| |[] m e]; simpl; split; intros H;
    try tauto; try (destruct H; discriminate); try (destruct H; congruence); auto.
Qed.

(** X8. In variant A the summary counts every record once: the total is the
    number of records; a record is a win when its net amount is above zero,
    a loss when it is below, and neither when the amount is a zero or NaN.
    So wins and losses together never exceed the total, and the three counts
    do not depend on the order of the records. *)
Theorem trade_counts_partition_the_records :
  (forall rows,
      let s := computeStats rows in
      totalTrades s = List.length rows
      /\ winningTrades s = List.length (wins rows)
      /\ losingTrades s = List.length (losses rows)
      /\ (winningTrades s + losingTrades s + List.length (flat rows) = totalTrades s)%nat
      /\ (winningTrades s + losingTrades s <= totalTrades s)%nat)
  /\ (forall rows r, In r (flat rows) <->
        In r rows /\ ((netPnl r =? 0) = true \/ isNaN (netPnl r) = true))
  /\ (forall rows rows',
        Permutation rows rows' ->
        totalTrades (computeStats rows) = totalTrades (computeStats rows')
        /\ winningTrades (computeStats rows) = winningTrades (computeStats rows')
        /\ losingTrades (computeStats rows) = losingTrades (computeStats rows')).
Proof.
  split; [|split].
  - intros rows. destruct (counts_spec rows) as (Ht & Hw & Hl). cbv zeta.
    rewrite Ht, Hw, Hl. pose proof (three_way rows).
    repeat split; try reflexivity; lia.
  - intros rows r. unfold flat. rewrite filter_In, andb_true_iff, !negb_true_iff.
    unfold gt, lt. rewrite neither_sign. tauto.
  - intros rows rows' P.
    destruct (counts_spec rows) as (Ht & Hw & Hl).
    destruct (counts_spec rows') as (Ht' & Hw' & Hl').
    rewrite Ht, Hw, Hl, Ht', Hw', Hl'. unfold wins, losses.
    repeat split.
    + apply Permutation_length. exact P.
    + apply Permutation_filter_length. exact P.
    + apply Permutation_filter_length. exact P.
Qed.

Lemma trade_counts_witness :
  Permutation (parseTable Demo.host Demo.table) (rev (parseTable Demo.host Demo.table))
  /\ winningTrades (computeStats (parseTable Demo.host Demo.table))
     = winningTrades (computeStats (rev (parseTable Demo.host Demo.table)))
  /\ winningTrades (computeStats (parseTable Demo.host Demo.table)) = 2%nat
  /\ losingTrades (computeStats (parseTable Demo.host Demo.table)) = 2%nat.
Proof.
  assert (P : Permutation (parseTable Demo.host Demo.table)
                (rev (parseTable Demo.host Demo.table))) by apply Permutation_rev.
  split; [exact P|]. split; [|split; vm_compute; reflexivity].
  destruct trade_counts_partition_the_records as (_ & _ & H).
  apply (H _ _ P).
Defined.

(** The amounts of the wins, and of the losses, hold no NaN. *)
Lemma wins_not_nan {A} (f : A -> number) (l : list A) :
  existsb isNaN (map f (filter (fun r => gt (f r) 0) l)) = false.
Proof.
  induction l as [|r l IH]; [reflexivity|]. cbn [filter].
  destruct (gt (f r) 0) eqn:E; [|exact IH].
  cbn [map existsb]. rewrite IH. unfold gt in E.
  destruct (ltb_not_nan _ _ E) as [_ Hn]. unfold isNaN. rewrite Hn. reflexivity.
Qed.

Lemma losses_not_nan {A} (f : A -> number) (l : list A) :
  existsb isNaN (map f (filter (fun r => lt (f r) 0) l)) = false.
Proof.
  induction l as [|r l IH]; [reflexivity|]. cbn [filter].
  destruct (lt (f r) 0) eqn:E; [|exact IH].
  cbn [map existsb]. rewrite IH. unfold lt in E.
  destruct (ltb_not_nan _ _ E) as [Hn _]. unfold isNaN. rewrite Hn. reflexivity.
Qed.

Lemma largest_spec (rows : list TradeRecord) :
  let s := computeStats rows in
  largestWin s = (if isEmpty (wins rows) then 0 else Math_max (map netPnl (wins rows)))
  /\ largestLoss s = (if isEmpty (losses rows) then 0 else Math_min (map netPnl (losses rows))).
Proof.
  destruct rows; cbv zeta; split; reflexivity.
Qed.

Lemma map_not_nil {A B} (f : A -> B) (l : list A) : l <> [] -> map f l <> [].
Proof. destruct l; [congruence|discriminate]. Qed.

Lemma isEmpty_false {A} (l : list A) : l <> [] -> isEmpty l = false.
Proof. destruct l; [congruence|reflexivity]. Qed.

Lemma max_of_wins {A} (f : A -> number) (l : list A) :
  filter (fun r => gt (f r) 0) l <> [] ->
  let m := Math_max (map f (filter (fun r => gt (f r) 0) l)) in
  (exists r, In r l /\ gt (f r) 0 = true /\ f r = m)
  /\ (forall r, In r l -> gt (f r) 0 = true -> (f r <=? m) = true)
  /\ gt m 0 = true.
Proof.
  intros Hne. cbv zeta.
  destruct (Math_max_spec (map f (filter (fun r => gt (f r) 0) l)) (map_not_nil _ _ Hne)
              (wins_not_nan f l)) as [Hin Hall].
  apply in_map_iff in Hin. destruct Hin as [r0 [E0 H0]].
  apply filter_In in H0. destruct H0 as [H0 G0].
  split; [exists r0; auto|]. split.
  - intros r Hr Hg. apply Hall, in_map, filter_In. auto.
  - rewrite <- E0. exact G0.
Qed.

Lemma min_of_losses {A} (f : A -> number) (l : list A) :
  filter (fun r => lt (f r) 0) l <> [] ->
  let m := Math_min (map f (filter (fun r => lt (f r) 0) l)) in
  (exists r, In r l /\ lt (f r) 0 = true /\ f r = m)
  /\ (forall r, In r l -> lt (f r) 0 = true -> (m <=? f r) = true)
  /\ lt m 0 = true.
Proof.
  intros Hne. cbv zeta.
  destruct (Math_min_spec (map f (filter (fun r => lt (f r) 0) l)) (map_not_nil _ _ Hne)
              (losses_not_nan f l)) as [Hin Hall].
  apply in_map_iff in Hin. destruct Hin as [r0 [E0 H0]].
  apply filter_In in H0. destruct H0 as [H0 G0].
  split; [exists r0; auto|]. split.
  - intros r Hr Hg. apply Hall, in_map, filter_In. auto.
  - rewrite <- E0. exact G0.
Qed.

Lemma largest_signs (rows : list TradeRecord) :
  (0 <=? (if isEmpty (wins rows) then 0 else Math_max (map netPnl (wins rows)))) = true
  /\ ((if isEmpty (losses rows) then 0 else Math_min (map netPnl (losses rows))) <=? 0) = true.
Proof.
  split.
  - destruct (wins rows) as [|w ws] eqn:E; [reflexivity|]. cbn [isEmpty]. rewrite <- E.
    apply ltb_leb. apply (max_of_wins netPnl rows). fold (wins rows). rewrite E. discriminate.
  - destruct (losses rows) as [|w ws] eqn:E; [reflexivity|]. cbn [isEmpty]. rewrite <- E.
    apply ltb_leb. apply (min_of_losses netPnl rows). fold (losses rows). rewrite E. discriminate.
Qed.

(** X9. In variant A [largestWin] is the net amount of a winning record that
    no winning record exceeds, and it is above zero; [largestLoss] is the net
    amount of a losing record that no losing record is below, and it is below
    zero.  Each is 0 when there is no such record. *)
Theorem largestWin_and_largestLoss_are_extremes (rows : list TradeRecord) :
  let s := computeStats rows in
  (wins rows = [] -> largestWin s = 0)
  /\ (wins rows <> [] ->
        (exists r, In r rows /\ gt (netPnl r) 0 = true /\ netPnl r = largestWin s)
        /\ (forall r, In r rows -> gt (netPnl r) 0 = true ->
              (netPnl r <=? largestWin s) = true)
        /\ gt (largestWin s) 0 = true)
  /\ (losses rows = [] -> largestLoss s = 0)
  /\ (losses rows <> [] ->
        (exists r, In r rows /\ lt (netPnl r) 0 = true /\ netPnl r = largestLoss s)
        /\ (forall r, In r rows -> lt (netPnl r) 0 = true ->
              (largestLoss s <=? netPnl r) = true)
        /\ lt (largestLoss s) 0 = true).
Proof.
  destruct (largest_spec rows) as [Hw Hl]. cbv zeta. rewrite Hw, Hl.
  split; [intros ->; reflexivity|]. split; [|split; [intros ->; reflexivity|]].
  - intros Hne. rewrite (isEmpty_false _ Hne). apply (max_of_wins netPnl rows Hne).
  - intros Hne. rewrite (isEmpty_false _ Hne). apply (min_of_losses netPnl rows Hne).
Qed.

Lemma largest_witness :
  wins (parseTable Demo.host Demo.table) <> []
  /\ losses (parseTable Demo.host Demo.table) <> []
  /\ largestWin (computeStats (parseTable Demo.host Demo.table)) = 100
  /\ largestLoss (computeStats (parseTable Demo.host Demo.table)) = -40
  /\ gt (largestWin (computeStats (parseTable Demo.host Demo.table))) 0 = true
  /\ lt (largestLoss (computeStats (parseTable Demo.host Demo.table))) 0 = true.
Proof.
  assert (Hw : wins (parseTable Demo.host Demo.table) <> []) by (vm_compute; discriminate).
  assert (Hl : losses (parseTable Demo.host Demo.table) <> []) by (vm_compute; discriminate).
  destruct (largestWin_and_largestLoss_are_extremes (parseTable Demo.host Demo.table))
    as (_ & H1 & _ & H2).
  split; [exact Hw|]. split; [exact Hl|].
  split; [vm_compute; reflexivity|]. split; [vm_compute; reflexivity|].
  split; [apply (H1 Hw)|apply (H2 Hl)].
Defined.

Lemma length_positive {A} (l : list A) :
  l <> [] -> (Z.of_nat (List.length l) < 2 ^ 53)%Z ->
  (0 < Z.of_nat (List.length l) < 2 ^ 53)%Z.
Proof. destruct l; [congruence|]. cbn [List.length]. lia. Qed.

Lemma mean_nonneg {A} (l : list A) (x : number) :
  (0 <=? x) = true -> (Z.of_nat (List.length l) < 2 ^ 53)%Z ->
  (0 <=? (if isEmpty l then 0 else x / of_nat (List.length l))) = true.
Proof.
  intros Hx Hn. destruct l as [|a l]; [reflexivity|]. cbn [isEmpty].
  apply div_count_nonneg; [exact Hx|]. apply length_positive; [discriminate|exact Hn].
Qed.

Lemma sum_abs_of_losses_nonneg {A} (f : A -> number) (l : list A) :
  (0 <=? sumOf (fun r => Math_abs (f r)) (filter (fun r => lt (f r) 0) l)) = true.
Proof.
  unfold sumOf. apply sum_nonneg; [reflexivity|].
  intros r H. apply filter_In in H. destruct H as [_ H].
  apply abs_nonneg. unfold lt in H. destruct (ltb_not_nan _ _ H) as [Hn _]. exact Hn.
Qed.

Lemma sum_of_positive_nonneg (l : list number) :
  (0 <=? fold_left (fun a b => a + b) (filter (fun p => gt p 0) l) 0) = true.
Proof.
  apply (sum_nonneg (fun x : number => x)); [reflexivity|].
  intros x H. apply filter_In in H. destruct H as [_ H]. apply ltb_leb. exact H.
Qed.

(** X10. In variant A the win rate, the gross profit, the gross loss, the
    average win, the average loss, the largest win and the average win
    percentage are never negative and never NaN, and the largest loss is
    never positive and never NaN, whatever the amounts of the records, the
    infinite ones included. *)
Theorem summary_amounts_keep_their_sign (rows : list TradeRecord) :
  (Z.of_nat (List.length rows) < 2 ^ 53)%Z ->
  let s := computeStats rows in
  (0 <=? winRate s) = true
  /\ (0 <=? grossProfit s) = true
  /\ (0 <=? grossLoss s) = true
  /\ (0 <=? s_avgWin s) = true
  /\ (0 <=? s_avgLoss s) = true
  /\ (0 <=? largestWin s) = true
  /\ (largestLoss s <=? 0) = true
  /\ (0 <=? avgWinPct s) = true.
Proof.
  intros Hn. cbv zeta.
  destruct rows as [|r0 rows0] eqn:Er; [repeat split; reflexivity|].
  rewrite <- Er in *. assert (Hne : rows <> []) by (subst; discriminate). clear Er.
  pose proof (largest_signs rows) as [HW HL].
  unfold computeStats, computeStatsWith. rewrite (isEmpty_false _ Hne).
  cbn [winRate grossProfit grossLoss s_avgWin s_avgLoss avgWinPct largestWin largestLoss].
  split; [|split; [|split; [|split; [|split; [|split; [|split]]]]]].
  - apply times_100_nonneg, div_count_nonneg.
    + apply of_nat_leb_zero. apply filter_count. exact Hn.
    + apply length_positive; assumption.
  - apply sum_of_wins_nonneg.
  - apply sum_of_losses_nonneg.
  - apply mean_nonneg; [apply sum_of_wins_nonneg|apply filter_count; exact Hn].
  - apply mean_nonneg; [apply sum_abs_of_losses_nonneg|apply filter_count; exact Hn].
  - exact HW.
  - exact HL.
  - apply mean_nonneg; [apply sum_of_positive_nonneg|].
    apply filter_count. rewrite length_map. exact Hn.
Qed.

(** X10 on a table with amounts beyond the binary64 range: the gross profit
    is infinite and the net total NaN, the signs hold. *)
Lemma summary_signs_witness :
  (Z.of_nat (List.length (parseTable Demo.host Demo.hugeTable)) < 2 ^ 53)%Z
  /\ grossProfit (computeStats (parseTable Demo.host Demo.hugeTable)) = PrimFloat.infinity
  /\ isNaN (s_netPnl (computeStats (parseTable Demo.host Demo.hugeTable))) = true
  /\ (0 <=? s_avgLoss (computeStats (parseTable Demo.host Demo.hugeTable))) = true
  /\ (largestLoss (computeStats (parseTable Demo.host Demo.hugeTable)) <=? 0) = true.
Proof.
  assert (H : (Z.of_nat (List.length (parseTable Demo.host Demo.hugeTable)) < 2 ^ 53)%Z)
    by (vm_compute; reflexivity).
  split; [exact H|]. split; [vm_compute; reflexivity|]. split; [vm_compute; reflexivity|].
  destruct (summary_amounts_keep_their_sign (parseTable Demo.host Demo.hugeTable) H)
    as (_ & _ & _ & _ & H5 & _ & H7 & _).
  split; [exact H5|exact H7].
Defined.

Lemma sumOver_cons {R} (f : list R -> nat) (k : string) (b : list R)
    (l : list (string * list R)) :
  sumOver f ((k, b) :: l) = (f b + sumOver f l)%nat.
Proof. reflexivity. Qed.

Lemma sumOver_filter {R} (p : R -> bool) (l : list (string * list R)) :
  sumOver (fun b => List.length (filter p b)) l
  = List.length (filter p (List.concat (map snd l))).
Proof.
  induction l as [|[k b] l IH]; [reflexivity|].
  rewrite sumOver_cons, IH. cbn [map List.concat snd].
  rewrite filter_app, length_app. reflexivity.
Qed.

Lemma sumOver_length {R} (l : list (string * list R)) :
  sumOver (@List.length R) l = List.length (List.concat (map snd l)).
Proof.
  induction l as [|[k b] l IH]; [reflexivity|].
  rewrite sumOver_cons, IH. cbn [map List.concat snd].
  rewrite length_app. reflexivity.
Qed.

Lemma sumOver_ext {R} (f g : list R -> nat) (l : list (string * list R)) :
  (forall b, f b = g b) -> sumOver f l = sumOver g l.
Proof.
  intros H. unfold sumOver. f_equal. apply map_ext. intros e. apply H.
Qed.

Lemma sumOver_counts (l : list (string * list TradeRecord)) (rows : list TradeRecord) :
  Permutation (List.concat (map snd l)) rows ->
  sumOver (fun b => totalTrades (computeStats b)) l = List.length rows
  /\ sumOver (fun b => winningTrades (computeStats b)) l = List.length (wins rows)
  /\ sumOver (fun b => losingTrades (computeStats b)) l = List.length (losses rows).
Proof.
  intros P. split; [|split].
  - rewrite (sumOver_ext _ (@List.length _)) by (intros b; apply (counts_spec b)).
    rewrite sumOver_length. apply Permutation_length. exact P.
  - rewrite (sumOver_ext _ (fun b => List.length (filter (fun r => gt (netPnl r) 0) b)))
      by (intros b; apply (counts_spec b)).
    rewrite sumOver_filter. apply Permutation_filter_length. exact P.
  - rewrite (sumOver_ext _ (fun b => List.length (filter (fun r => lt (netPnl r) 0) b)))
      by (intros b; apply (counts_spec b)).
    rewrite sumOver_filter. apply Permutation_filter_length. exact P.
Qed.

(** X11. In variant A the summaries of the buckets add up to the summary of
    all records: over the buckets of [groupBySymbol] the totals, the wins and
    the losses sum to those of the whole list, and over the seven buckets of
    [groupByDayOfWeek] they sum to those of the records that have a date. *)
Theorem bucket_counts_add_up (rows : list TradeRecord) :
  (safeKeys symbol rows = true ->
   exists bySymbol,
     groupBySymbol rows = Normal bySymbol
     /\ sumOver (fun b => totalTrades (computeStats b)) (entries bySymbol)
        = totalTrades (computeStats rows)
     /\ sumOver (fun b => winningTrades (computeStats b)) (entries bySymbol)
        = winningTrades (computeStats rows)
     /\ sumOver (fun b => losingTrades (computeStats b)) (entries bySymbol)
        = losingTrades (computeStats rows))
  /\ (Forall dayFieldsA rows ->
      exists byDay,
        groupByDayOfWeek rows = Normal byDay
        /\ sumOver (fun b => totalTrades (computeStats b)) byDay
           = totalTrades (computeStats (filter hasDateA rows))
        /\ sumOver (fun b => winningTrades (computeStats b)) byDay
           = winningTrades (computeStats (filter hasDateA rows))
        /\ sumOver (fun b => losingTrades (computeStats b)) byDay
           = losingTrades (computeStats (filter hasDateA rows))).
Proof.
  split.
  - intros Hs. destruct (groupBy_spec symbol rows Hs) as (o & E & P & _).
    exists o. split; [exact E|].
    destruct (counts_spec rows) as (Ht & Hw & Hl). rewrite Ht, Hw, Hl.
    apply sumOver_counts. exact P.
  - intros Hrows. rewrite Forall_forall in Hrows.
    destruct (groupByDay_spec dayName DAYS DAYS_nodup DAYS_own rows)
      as (o & E & Hk & Hb & Hp).
    { intros r Hr. specialize (Hrows r Hr). unfold dayFieldsA in Hrows.
      destruct (date r); auto. }
    exists o. split; [exact E|].
    destruct (counts_spec (filter hasDateA rows)) as (Ht & Hw & Hl). rewrite Ht, Hw, Hl.
    apply sumOver_counts. rewrite Hp. apply Permutation_refl'. apply filter_ext_in.
    intros r Hr. specialize (Hrows r Hr). unfold dayFieldsA, hasDateA in *.
    destruct (date r); [now apply labelled_day | now apply labelled_empty].
Qed.

Lemma bucket_counts_witness :
  safeKeys symbol (parseTable Demo.host Demo.table) = true
  /\ (exists bySymbol,
        groupBySymbol (parseTable Demo.host Demo.table) = Normal bySymbol
        /\ sumOver (fun b => totalTrades (computeStats b)) (entries bySymbol) = 4%nat)
  /\ Forall dayFieldsA (parseTable Demo.host Demo.table)
  /\ (exists byDay,
        groupByDayOfWeek (parseTable Demo.host Demo.table) = Normal byDay
        /\ sumOver (fun b => totalTrades (computeStats b)) byDay = 3%nat).
Proof.
  assert (Hs : safeKeys symbol (parseTable Demo.host Demo.table) = true) by reflexivity.
  assert (Hd : Forall dayFieldsA (parseTable Demo.host Demo.table))
    by apply parseTableA_dayFields.
  destruct (bucket_counts_add_up (parseTable Demo.host Demo.table)) as [H1 H2].
  split; [exact Hs|]. split; [|split; [exact Hd|]].
  - destruct (H1 Hs) as (o & E & Ht & _). exists o. split; [exact E|].
    rewrite Ht. reflexivity.
  - destruct (H2 Hd) as (o & E & Ht & _). exists o. split; [exact E|].
    rewrite Ht. reflexivity.
Defined.

End StatsMoreA.

(** ** The symbols of the asset selector *)

Module GroupMore.

Import JS JSObject Grouping ObjectFacts GroupingFacts SortFacts GroupClaims Spec.

Lemma sorted_perm_eq (l1 l2 : list string) :
  StronglySorted codeUnitLe l1 -> StronglySorted codeUnitLe l2 ->
  Permutation l1 l2 -> l1 = l2.
Proof.
  revert l2. induction l1 as [|a l1 IH]; intros l2 S1 S2 P.
  - apply Permutation_nil in P. subst. reflexivity.
  - destruct l2 as [|b l2]; [apply Permutation_sym, Permutation_nil in P; discriminate|].
    inversion S1 as [|? ? S1' F1]; subst. inversion S2 as [|? ? S2' F2]; subst.
    rewrite Forall_forall in F1, F2.
    assert (E : a = b).
    { assert (Hb : In b (a :: l1))
        by (apply (Permutation_in b (Permutation_sym P)); left; reflexivity).
      assert (Ha : In a (b :: l2)) by (apply (Permutation_in a P); left; reflexivity).
      destruct Hb as [Hb|Hb]; [exact Hb|]. destruct Ha as [Ha|Ha]; [symmetry; exact Ha|].
      apply String.leb_antisym; [apply F1|apply F2]; assumption. }
    subst b. f_equal. apply IH; try assumption.
    apply Permutation_cons_inv in P. exact P.
Qed.

Section Records.
Context {R : Type}.
Variable key : R -> string.

Lemma groupBy_normal (rows : list R) (o : obj (list R)) :
  groupBy key rows = Normal o -> safeKeys key rows = true /\ grouped key o rows.
Proof.
  intros E. destruct (safeKeys key rows) eqn:Hs.
  - split; [reflexivity|].
    destruct (groupBy_grouped key rows Hs) as (o' & E' & G). congruence.
  - rewrite (groupBy_throws key rows Hs) in E. discriminate.
Qed.

Lemma keys_of_permuted (rows rows' : list R) (o o' : obj (list R)) :
  Permutation rows rows' -> grouped key o rows -> grouped key o' rows' ->
  Permutation (keys o) (keys o').
Proof.
  intros P G G'.
  rewrite (keys_perm o), (keys_perm o').
  apply NoDup_Permutation; [apply G|apply G'|].
  intros k. rewrite (grouped_keys key o rows k G), (grouped_keys key o' rows' k G').
  split; intros (r & Hr & E); exists r; split; try exact E.
  - apply (Permutation_in r P Hr).
  - apply (Permutation_in r (Permutation_sym P) Hr).
Qed.

Lemma sorted_keys_of_permuted (rows rows' : list R) (o o' : obj (list R)) :
  Permutation rows rows' ->
  groupBy key rows = Normal o -> groupBy key rows' = Normal o' ->
  Sort.sort (keys o) = Sort.sort (keys o').
Proof.
  intros P E E'.
  apply groupBy_normal in E, E'. destruct E as [_ G], E' as [_ G'].
  apply sorted_perm_eq; try apply sort_sorted.
  rewrite !sort_perm. apply (keys_of_permuted rows rows'); assumption.
Qed.

Lemma groupBy_permuted (rows rows' : list R) :
  Permutation rows rows' ->
  (exists o, groupBy key rows = Normal o) -> exists o', groupBy key rows' = Normal o'.
Proof.
  intros P [o E]. apply groupBy_normal in E. destruct E as [Hs _].
  destruct (groupBy_grouped key rows') as (o' & E' & _); [|exists o'; exact E'].
  unfold safeKeys in *. rewrite forallb_forall in *.
  intros r Hr. apply Hs. apply (Permutation_in r (Permutation_sym P) Hr).
Qed.

End Records.

(** X12. The symbols [renderPanel] offers in the asset selector do not depend
    on the order of the rows: two lists with the same records give the same
    sorted symbols, and [groupBySymbol] returns for the one when it returns
    for the other.  Both scripts. *)
Theorem symbols_do_not_depend_on_row_order :
  (forall rows rows' bySymbol,
      Permutation rows rows' -> VariantA.groupBySymbol rows = Normal bySymbol ->
      exists bySymbol',
        VariantA.groupBySymbol rows' = Normal bySymbol'
        /\ VariantA.symbols bySymbol' = VariantA.symbols bySymbol)
  /\ (forall rows rows' bySymbol,
      Permutation rows rows' -> VariantB.groupBySymbol rows = Normal bySymbol ->
      exists bySymbol',
        VariantB.groupBySymbol rows' = Normal bySymbol'
        /\ VariantB.symbols bySymbol' = VariantB.symbols bySymbol).
Proof.
  split; intros rows rows' o P E.
  - destruct (groupBy_permuted VariantA.symbol rows rows' P) as [o' E'];
      [exists o; exact E|].
    exists o'. split; [exact E'|]. symmetry.
    apply (sorted_keys_of_permuted VariantA.symbol rows rows' o o' P E E').
  - destruct (groupBy_permuted VariantB.symbol rows rows' P) as [o' E'];
      [exists o; exact E|].
    exists o'. split; [exact E'|]. symmetry.
    apply (sorted_keys_of_permuted VariantB.symbol rows rows' o o' P E E').
Qed.

Lemma symbols_order_witness :
  exists bySymbol bySymbol',
    VariantA.groupBySymbol (VariantA.parseTable Demo.host Demo.table) = Normal bySymbol
    /\ VariantA.groupBySymbol (rev (VariantA.parseTable Demo.host Demo.table)) = Normal bySymbol'
    /\ keys bySymbol = ["AAA"; "BBB"; "CCC"]
    /\ keys bySymbol' = ["CCC"; "BBB"; "AAA"]
    /\ VariantA.symbols bySymbol' = VariantA.symbols bySymbol.
Proof.
  destruct symbols_do_not_depend_on_row_order as [H _].
  destruct (VariantA.groupBySymbol (VariantA.parseTable Demo.host Demo.table))
    as [o|] eqn:E; [|discriminate E].
  destruct (H _ _ o (Permutation_rev _) E) as (o' & E' & Hs).
  exists o, o'. split; [reflexivity|]. split; [exact E'|].
  split; [injection E as <-; reflexivity|].
  split; [|exact Hs].
  vm_compute in E'. injection E' as <-. reflexivity.
Defined.

End GroupMore.

(** ** Variant B: the days of a summary *)

Module StatsMoreB.

Import JS JSObject DOM FloatFacts MathFacts NumberMore ObjectFacts GroupingFacts GroupClaims.
Import DayFacts TableFacts TableMore StatsA StatsB StatsMoreA VariantB Spec Terms.
Local Open Scope float_scope.
#[local] Set Warnings "-inexact-float".

Lemma disjoint_counts {A} (p q : A -> bool) (l : list A) :
  (forall x, p x = true -> q x = false) ->
  (List.length (filter p l) + List.length (filter q l) <= List.length l)%nat.
Proof.
  intros H. induction l as [|x l IH]; [reflexivity|]. cbn [filter].
  destruct (p x) eqn:P; [rewrite (H x P)|destruct (q x)]; cbn [List.length]; lia.
Qed.

Lemma worstDayNet_nonpos (rows : list TradeRecord) :
  ((if isEmpty (lossAmounts rows) then 0 else Math_min (lossAmounts rows)) <=? 0) = true.
Proof.
  unfold lossAmounts.
  destruct (filter (fun r => lt (netPnl r) 0) rows) as [|w ws] eqn:E; [reflexivity|].
  cbn [map isEmpty]. change (netPnl w :: map netPnl ws) with (map netPnl (w :: ws)).
  rewrite <- E. apply ltb_leb. apply (min_of_losses netPnl rows). rewrite E. discriminate.
Qed.

(** X13. In variant B a trading day is profitable, losing or neither, so the
    two day counts together never exceed the number of trading days, which
    never exceeds the number of records; the day win rate is never negative
    and never NaN, and the worst day is never positive and never NaN. *)
Theorem day_counts_are_bounded (host : Host) (rows : list TradeRecord) :
  safeKeys (dateKey host) rows = true ->
  (Z.of_nat (List.length rows) < 2 ^ 53)%Z ->
  exists s,
    computeStats host rows = Normal s
    /\ (profitableDays s + losingDays s <= List.length (tradingDays host rows))%nat
    /\ (List.length (tradingDays host rows) <= List.length rows)%nat
    /\ (0 <=? dayWinRatePct s) = true
    /\ (worstDayNet s <=? 0) = true.
Proof.
  intros Hs Hn.
  pose proof (tradingDays_length host rows) as Hd.
  destruct (computeStats_returns host PrimFloat.div rows Hs) as (byDate & E & Es).
  destruct rows as [|r0 rows0] eqn:Er.
  - exists emptyStats. split; [reflexivity|]. cbn. repeat split; try reflexivity; lia.
  - rewrite <- Er in *.
    assert (Ei : isEmpty rows = false) by (rewrite Er; reflexivity).
    clear Er. rewrite Ei in Es.
    exists (summarize PrimFloat.div rows byDate).
    split; [exact Es|].
    destruct (summarize_days host PrimFloat.div rows byDate E Hs) as (Hp & Hl & Hr).
    destruct (summarize_worst PrimFloat.div rows byDate) as [Hw _].
    cbv zeta in Hp, Hl, Hr, Hw.
    split; [|split; [exact Hd|split]].
    + rewrite Hp, Hl. apply disjoint_counts.
      intros d. unfold gt, lt. apply positive_not_negative.
    + rewrite Hr. destruct (Nat.eqb_spec (List.length (tradingDays host rows)) 0) as [|Hz];
        [reflexivity|].
      apply times_100_nonneg, div_count_nonneg; [|lia].
      apply of_nat_leb_zero. rewrite Hp.
      pose proof (filter_length_le (fun d => gt (netOfDay host rows d) 0)
                    (tradingDays host rows)). lia.
    + rewrite Hw. apply worstDayNet_nonpos.
Qed.

Lemma day_counts_witness :
  safeKeys (dateKey Demo.host) (parseTable Demo.host Demo.table) = true
  /\ (Z.of_nat (List.length (parseTable Demo.host Demo.table)) < 2 ^ 53)%Z
  /\ exists s,
       computeStats Demo.host (parseTable Demo.host Demo.table) = Normal s
       /\ (profitableDays s + losingDays s
           <= List.length (tradingDays Demo.host (parseTable Demo.host Demo.table)))%nat
       /\ (0 <=? dayWinRatePct s) = true
       /\ (worstDayNet s <=? 0) = true.
Proof.
  assert (H1 : safeKeys (dateKey Demo.host) (parseTable Demo.host Demo.table) = true)
    by reflexivity.
  assert (H2 : (Z.of_nat (List.length (parseTable Demo.host Demo.table)) < 2 ^ 53)%Z)
    by (vm_compute; reflexivity).
  split; [exact H1|]. split; [exact H2|].
  destruct (day_counts_are_bounded Demo.host (parseTable Demo.host Demo.table) H1 H2)
    as (s & E & Ha & _ & Hb & Hc).
  exists s. auto.
Defined.

Lemma dateKey_label (host : Host) (r : TradeRecord) :
  dateStr r <> "" -> dateKey host r = dateStr r.
Proof.
  intros H. unfold dateKey. apply String.eqb_neq in H. rewrite H. reflexivity.
Qed.

Lemma groupByDate_labels (host host' : Host) (rows : list TradeRecord) :
  (forall r, In r rows -> dateStr r <> "") ->
  groupByDate host' rows = groupByDate host rows.
Proof.
  intros H. unfold groupByDate. apply forEach_ext_in. intros o r Hr.
  unfold pushDate. rewrite !(dateKey_label _ r (H r Hr)). reflexivity.
Qed.

Lemma computeStats_labels (host host' : Host) (rows : list TradeRecord) :
  (forall r, In r rows -> dateStr r <> "") ->
  computeStats host' rows = computeStats host rows.
Proof.
  intros H. unfold computeStats, computeStatsWith.
  rewrite (groupByDate_labels host host' rows H). reflexivity.
Qed.

Lemma parseTable_labels (host : Host) (table : Table) (r : TradeRecord) :
  In r (parseTable host table) -> dateStr r <> "".
Proof.
  intros H. apply In_parseTableB in H. destruct H as (tr & _ & Hr & ->).
  apply resolves_texts in Hr. apply Hr.
Qed.

(** X14. In variant B the key of a record [parseTable] built is the text of
    its Date cell, readable as a date or not: the trading days of a parsed
    table are the distinct date texts, and [computeStats] on a parsed table
    reads neither a parsed date nor [toISOString]. *)
Theorem trading_days_are_the_date_texts (host host' : Host) (table : Table) :
  (forall r, In r (parseTable host table) ->
     dateKey host' r = dateStr r /\ dated host' r = true)
  /\ tradingDays host' (parseTable host table)
     = nodup string_dec (map dateStr (parseTable host table))
  /\ computeStats host' (parseTable host table) = computeStats host (parseTable host table).
Proof.
  assert (Hk : forall r, In r (parseTable host table) ->
                 dateKey host' r = dateStr r /\ dated host' r = true).
  { intros r Hr. pose proof (parseTable_labels host table r Hr) as Hl.
    split; [apply dateKey_label; exact Hl|].
    unfold dated. rewrite (dateKey_label host' r Hl).
    apply negb_true_iff, String.eqb_neq. exact Hl. }
  split; [exact Hk|]. split.
  - unfold tradingDays. f_equal.
    assert (Hf : filter (dated host') (parseTable host table) = parseTable host table).
    { apply forallb_filter_id. apply forallb_forall. intros r Hr. apply (Hk r Hr). }
    rewrite Hf. apply map_ext_in. intros r Hr. apply (Hk r Hr).
  - apply computeStats_labels. apply parseTable_labels.
Qed.

Lemma trading_days_witness :
  In (normalize Demo.host (Demo.row "n/a" "CCC" "$7.50" [("Win %", "garbage")]))
     (parseTable Demo.host Demo.table)
  /\ date (normalize Demo.host (Demo.row "n/a" "CCC" "$7.50" [("Win %", "garbage")])) = None
  /\ dateKey Demo.host (normalize Demo.host (Demo.row "n/a" "CCC" "$7.50" [("Win %", "garbage")]))
     = "n/a"
  /\ tradingDays Demo.host (parseTable Demo.host Demo.table)
     = nodup string_dec (map dateStr (parseTable Demo.host Demo.table))
  /\ List.length (tradingDays Demo.host (parseTable Demo.host Demo.table)) = 3%nat.
Proof.
  assert (H : In (normalize Demo.host (Demo.row "n/a" "CCC" "$7.50" [("Win %", "garbage")]))
                (parseTable Demo.host Demo.table)).
  { right. right. right. left. reflexivity. }
  destruct (trading_days_are_the_date_texts Demo.host Demo.host Demo.table) as (H1 & H2 & _).
  split; [exact H|]. split; [reflexivity|]. split; [|split; [exact H2|]].
  - etransitivity; [apply (H1 _ H)|]. reflexivity.
  - vm_compute. reflexivity.
Defined.

End StatsMoreB.

(** ** The panel: which records a view summarizes *)

Module PanelFacts.

Import JS JSObject Grouping ObjectFacts GroupingFacts SortFacts GroupClaims GroupMore.
Import Spec Terms Panel.

Section Records.
Context {R : Type}.
Variable key : R -> string.

(** What the dictionary of [groupBySymbol] answers under any key. *)
Lemma get_grouped (o : obj (list R)) (rows : list R) (k : string) :
  grouped key o rows ->
  get o k = if existsb (hasKey key k) rows then Own (bucketOf key k rows)
            else if inherited k then Inherited else Undefined.
Proof.
  intros [_ G]. unfold get. rewrite (G k).
  destruct (existsb (hasKey key k) rows); reflexivity.
Qed.

Lemma existsb_hasKey (rows : list R) (k : string) :
  existsb (hasKey key k) rows = true <-> In k (map key rows).
Proof.
  rewrite existsb_exists, in_map_iff. unfold hasKey.
  split; intros (r & H1 & H2); exists r.
  - apply String.eqb_eq in H2. auto.
  - split; [exact H2|]. apply String.eqb_eq. exact H1.
Qed.

Lemma selects_grouped_hit (o : obj (list R)) (rows : list R) (k : string) :
  grouped key o rows -> k <> "" -> In k (map key rows) ->
  selects o (Some k) = true /\ get o k = Own (bucketOf key k rows).
Proof.
  intros G Hk Hin. apply existsb_hasKey in Hin. unfold selects.
  rewrite (get_grouped o rows k G), Hin.
  apply String.eqb_neq in Hk. rewrite Hk. split; reflexivity.
Qed.

Lemma selects_grouped_miss (o : obj (list R)) (rows : list R) (k : string) :
  grouped key o rows -> k = "" \/ (~ In k (map key rows) /\ inherited k = false) ->
  selects o (Some k) = false.
Proof.
  intros G [->|[Hin Hi]]; [reflexivity|]. unfold selects.
  rewrite (get_grouped o rows k G), Hi.
  destruct (existsb (hasKey key k) rows) eqn:E.
  - apply existsb_hasKey in E. contradiction.
  - apply andb_false_r.
Qed.

Lemma safeKeys_not_inherited (rows : list R) (k : string) :
  safeKeys key rows = true -> inherited k = true -> existsb (hasKey key k) rows = false.
Proof.
  intros Hs Hi. destruct (existsb (hasKey key k) rows) eqn:E; [|reflexivity].
  apply existsb_hasKey, in_map_iff in E. destruct E as (r & E & Hr).
  unfold safeKeys in Hs. rewrite forallb_forall in Hs. specialize (Hs r Hr).
  rewrite E, Hi in Hs. discriminate.
Qed.

Lemma selects_grouped_inherited (o : obj (list R)) (rows : list R) (k : string) :
  grouped key o rows -> safeKeys key rows = true -> inherited k = true ->
  selects o (Some k) = true /\ get o k = Inherited.
Proof.
  intros G Hs Hi. unfold selects.
  rewrite (get_grouped o rows k G), (safeKeys_not_inherited rows k Hs Hi), Hi.
  assert (Hk : (k =? "") = false) by (apply String.eqb_neq; intros ->; discriminate Hi).
  rewrite Hk. split; reflexivity.
Qed.

(** What the dictionary of [groupByDayOfWeek] answers. *)
Variable days : list string.

Lemma get_dayGrouped_in (o : obj (list R)) (rows : list R) (d : string) :
  dayGrouped key days o rows -> In d days -> get o d = Own (bucketOf key d rows).
Proof.
  intros [_ G] Hd. unfold get. rewrite (G d Hd). reflexivity.
Qed.

Lemma get_dayGrouped_out (o : obj (list R)) (rows : list R) (d : string) :
  dayGrouped key days o rows -> ~ In d days ->
  get o d = if inherited d then Inherited else Undefined.
Proof.
  intros [K _] Hd. unfold get.
  assert (E : getOwn o d = None) by (apply getOwn_None; rewrite K; exact Hd).
  rewrite E. reflexivity.
Qed.

Lemma selects_day_hit (o : obj (list R)) (rows : list R) (d : string) :
  dayGrouped key days o rows -> d <> "" -> In d days ->
  selects o (Some d) = true /\ get o d = Own (bucketOf key d rows).
Proof.
  intros G Hk Hd. unfold selects. rewrite (get_dayGrouped_in o rows d G Hd).
  apply String.eqb_neq in Hk. rewrite Hk. split; reflexivity.
Qed.

Lemma selects_day_miss (o : obj (list R)) (rows : list R) (d : string) :
  dayGrouped key days o rows -> d = "" \/ (~ In d days /\ inherited d = false) ->
  selects o (Some d) = false.
Proof.
  intros G [->|[Hd Hi]]; [reflexivity|]. unfold selects.
  rewrite (get_dayGrouped_out o rows d G Hd), Hi. apply andb_false_r.
Qed.

End Records.

(** The first of the sorted symbols is the least of them. *)
Lemma first_is_least (l : list string) (k : string) :
  StronglySorted codeUnitLe l -> nth_error l 0 = Some k ->
  forall s, In s l -> codeUnitLe k s.
Proof.
  intros S E s Hs. destruct l as [|a l]; [discriminate E|].
  injection E as ->. inversion S as [|? ? _ F]; subst.
  destruct Hs as [<-|Hs].
  - unfold codeUnitLe. destruct (String.leb_total k k); assumption.
  - rewrite Forall_forall in F. apply F. exact Hs.
Qed.

End PanelFacts.

(** *** Variant A *)

Module PanelViewA.

Import JS JSObject DOM Grouping ObjectFacts GroupingFacts SortFacts GroupClaims GroupMore.
Import TableFacts TableMore PanelFacts VariantA PanelA Spec Terms Panel.

Lemma groups (rows : list TradeRecord) :
  safeKeys symbol rows = true -> Forall dayFieldsA rows ->
  exists bySymbol byDay,
    groupBySymbol rows = Normal bySymbol /\ grouped symbol bySymbol rows
    /\ groupByDayOfWeek rows = Normal byDay /\ dayGrouped dayName DAYS byDay rows.
Proof.
  intros Hs Hd.
  destruct (groupBy_grouped symbol rows Hs) as (o1 & E1 & G1).
  destruct (groupByDay_grouped dayName DAYS DAYS_nodup DAYS_own rows) as (o2 & E2 & G2).
  { intros r Hr. rewrite Forall_forall in Hd. specialize (Hd r Hr).
    unfold dayFieldsA in Hd. destruct (date r); [left; exact Hd|right; rewrite Hd; reflexivity]. }
  exists o1, o2. auto.
Qed.

(** The panel once both dictionaries are there. *)
Lemma renderPanel_grouped (rows : list TradeRecord) (a : Args) bySymbol byDay :
  groupBySymbol rows = Normal bySymbol -> groupByDayOfWeek rows = Normal byDay ->
  renderPanel rows a
  = bind (if (viewMode a =? "asset") && selects bySymbol (assetKey a)
          then computeStatsAt bySymbol (keyText (assetKey a))
          else if (viewMode a =? "day") && selects byDay (dayKey a)
          then computeStatsAt byDay (keyText (dayKey a))
          else Normal (computeStats rows))
      (fun s => Normal {| v_viewMode := viewMode a; v_assetKey := assetKey a;
                          v_dayKey := dayKey a; v_symbols := symbols bySymbol;
                          currentStats := s |}).
Proof.
  intros E1 E2. unfold renderPanel. rewrite E1, E2. reflexivity.
Qed.

Lemma all_rows_shown (rows : list TradeRecord) (a : Args) bySymbol byDay :
  groupBySymbol rows = Normal bySymbol -> groupByDayOfWeek rows = Normal byDay ->
  (viewMode a =? "asset") && selects bySymbol (assetKey a) = false ->
  (viewMode a =? "day") && selects byDay (dayKey a) = false ->
  exists v, renderPanel rows a = Normal v /\ currentStats v = computeStats rows
            /\ v_symbols v = symbols bySymbol.
Proof.
  intros E1 E2 H1 H2. rewrite (renderPanel_grouped rows a _ _ E1 E2), H1, H2.
  eexists. split; [reflexivity|]. split; reflexivity.
Qed.

Lemma symbol_shown (rows : list TradeRecord) (k : string) (d : option string) :
  safeKeys symbol rows = true -> Forall dayFieldsA rows ->
  k <> "" -> In k (map symbol rows) ->
  exists v,
    renderPanel rows {| viewMode := "asset"; assetKey := Some k; dayKey := d |} = Normal v
    /\ currentStats v = computeStats (filter (fun r => symbol r =? k) rows).
Proof.
  intros Hs Hd Hk Hin. destruct (groups rows Hs Hd) as (o1 & o2 & E1 & G1 & E2 & G2).
  destruct (selects_grouped_hit symbol o1 rows k G1 Hk Hin) as [S1 K1].
  rewrite (renderPanel_grouped rows _ _ _ E1 E2).
  cbn [viewMode assetKey dayKey keyText]. rewrite S1. cbn [String.eqb Ascii.eqb Bool.eqb andb].
  unfold computeStatsAt. rewrite K1. eexists. split; reflexivity.
Qed.

Lemma weekday_shown (rows : list TradeRecord) (k : string) (a : option string) :
  safeKeys symbol rows = true -> Forall dayFieldsA rows -> In k DAYS ->
  exists v,
    renderPanel rows {| viewMode := "day"; assetKey := a; dayKey := Some k |} = Normal v
    /\ currentStats v = computeStats (filter (fun r => dayName r =? k) rows).
Proof.
  intros Hs Hd Hin. destruct (groups rows Hs Hd) as (o1 & o2 & E1 & G1 & E2 & G2).
  destruct (selects_day_hit dayName DAYS o2 rows k G2 (DAYS_own k Hin) Hin) as [S2 K2].
  rewrite (renderPanel_grouped rows _ _ _ E1 E2).
  cbn [viewMode assetKey dayKey keyText]. rewrite S2. cbn [String.eqb Ascii.eqb Bool.eqb andb].
  unfold computeStatsAt. rewrite K2. eexists. split; reflexivity.
Qed.

Lemma prototype_asset_key (rows : list TradeRecord) (k : string) (d : option string) :
  safeKeys symbol rows = true -> Forall dayFieldsA rows -> inherited k = true ->
  renderPanel rows {| viewMode := "asset"; assetKey := Some k; dayKey := d |} = Throw TypeError
  \/ exists v,
       renderPanel rows {| viewMode := "asset"; assetKey := Some k; dayKey := d |} = Normal v
       /\ currentStats v = emptyStats.
Proof.
  intros Hs Hd Hi. destruct (groups rows Hs Hd) as (o1 & o2 & E1 & G1 & E2 & G2).
  destruct (selects_grouped_inherited symbol o1 rows k G1 Hs Hi) as [S1 K1].
  rewrite (renderPanel_grouped rows _ _ _ E1 E2).
  cbn [viewMode assetKey dayKey keyText]. rewrite S1.
  cbn [String.eqb Ascii.eqb Bool.eqb andb].
  unfold computeStatsAt. rewrite K1.
  destruct (inheritedLength k) as [[|n]|].
  - right. eexists. split; reflexivity.
  - left. reflexivity.
  - right. eexists. split; reflexivity.
Qed.

(** X15. Take records whose symbols name no property of [Object.prototype]
    and whose date fields agree, as [parseTable] leaves them.  Variant A's
    panel in the asset view shows the summary of the records of the symbol
    given as key, in table order, when the key is the symbol of a record.
    With a key that is empty or null, or that is neither the symbol of a
    record nor the name of a property of [Object.prototype], it silently
    shows the summary of all records, as every view mode other than 'asset'
    and 'day' does.  A key that names a property of [Object.prototype] is the
    symbol of no record and does not fall back: the panel shows the all-zero
    summary or [renderPanel] throws a [TypeError]. *)
Theorem asset_view_summarizes_one_symbol
    (rows : list TradeRecord) (k : string) (d : option string) :
  safeKeys symbol rows = true -> Forall dayFieldsA rows ->
  (k <> "" -> In k (map symbol rows) ->
     exists v,
       renderPanel rows {| viewMode := "asset"; assetKey := Some k; dayKey := d |} = Normal v
       /\ currentStats v = computeStats (filter (fun r => symbol r =? k) rows))
  /\ (k = "" \/ (~ In k (map symbol rows) /\ inherited k = false) ->
     exists v,
       renderPanel rows {| viewMode := "asset"; assetKey := Some k; dayKey := d |} = Normal v
       /\ currentStats v = computeStats rows)
  /\ (exists v,
       renderPanel rows {| viewMode := "asset"; assetKey := None; dayKey := d |} = Normal v
       /\ currentStats v = computeStats rows)
  /\ (forall m a, m <> "asset" -> m <> "day" ->
      exists v,
        renderPanel rows {| viewMode := m; assetKey := a; dayKey := d |} = Normal v
        /\ currentStats v = computeStats rows)
  /\ (inherited k = true ->
      ~ In k (map symbol rows)
      /\ (renderPanel rows {| viewMode := "asset"; assetKey := Some k; dayKey := d |}
          = Throw TypeError
          \/ exists v,
               renderPanel rows {| viewMode := "asset"; assetKey := Some k; dayKey := d |}
               = Normal v
               /\ currentStats v = emptyStats)).
Proof.
  intros Hs Hd. split; [apply symbol_shown; assumption|].
  destruct (groups rows Hs Hd) as (o1 & o2 & E1 & G1 & E2 & G2).
  split; [|split; [|split]].
  - intros Hmiss.
    destruct (all_rows_shown rows {| viewMode := "asset"; assetKey := Some k; dayKey := d |}
                o1 o2 E1 E2) as (v & E & Hv & _).
    + cbn [viewMode assetKey]. rewrite (selects_grouped_miss symbol o1 rows k G1 Hmiss).
      reflexivity.
    + reflexivity.
    + exists v. auto.
  - destruct (all_rows_shown rows {| viewMode := "asset"; assetKey := None; dayKey := d |}
                o1 o2 E1 E2) as (v & E & Hv & _); try reflexivity.
    exists v. auto.
  - intros m a Hm1 Hm2.
    apply String.eqb_neq in Hm1, Hm2.
    destruct (all_rows_shown rows {| viewMode := m; assetKey := a; dayKey := d |}
                o1 o2 E1 E2) as (v & E & Hv & _).
    + cbn [viewMode]. rewrite Hm1. reflexivity.
    + cbn [viewMode]. rewrite Hm2. reflexivity.
    + exists v. auto.
  - intros Hi. split; [|apply prototype_asset_key; assumption].
    intros Hin. apply (existsb_hasKey symbol) in Hin.
    rewrite (safeKeys_not_inherited symbol rows k Hs Hi) in Hin. discriminate Hin.
Qed.

Lemma asset_view_witness :
  safeKeys symbol (parseTable Demo.host Demo.table) = true
  /\ Forall dayFieldsA (parseTable Demo.host Demo.table)
  /\ In "AAA" (map symbol (parseTable Demo.host Demo.table))
  /\ (exists v,
        renderPanel (parseTable Demo.host Demo.table)
          {| viewMode := "asset"; assetKey := Some "AAA"; dayKey := None |} = Normal v
        /\ currentStats v
           = computeStats (filter (fun r => symbol r =? "AAA") (parseTable Demo.host Demo.table))
        /\ totalTrades (currentStats v) = 2%nat)
  /\ ~ In "ZZZ" (map symbol (parseTable Demo.host Demo.table))
  /\ (exists v,
        renderPanel (parseTable Demo.host Demo.table)
          {| viewMode := "asset"; assetKey := Some "ZZZ"; dayKey := None |} = Normal v
        /\ currentStats v = computeStats (parseTable Demo.host Demo.table))
  /\ inherited "toString" = true
  /\ (renderPanel (parseTable Demo.host Demo.table)
        {| viewMode := "asset"; assetKey := Some "toString"; dayKey := None |}
      = Throw TypeError
      \/ exists v,
           renderPanel (parseTable Demo.host Demo.table)
             {| viewMode := "asset"; assetKey := Some "toString"; dayKey := None |}
           = Normal v
           /\ currentStats v = emptyStats).
Proof.
  assert (Hs : safeKeys symbol (parseTable Demo.host Demo.table) = true) by reflexivity.
  assert (Hd : Forall dayFieldsA (parseTable Demo.host Demo.table))
    by apply parseTableA_dayFields.
  assert (Hin : In "AAA" (map symbol (parseTable Demo.host Demo.table)))
    by (left; reflexivity).
  assert (Hout : ~ In "ZZZ" (map symbol (parseTable Demo.host Demo.table))).
  { intros H. vm_compute in H. repeat destruct H as [H|H]; try discriminate H. exact H. }
  split; [exact Hs|]. split; [exact Hd|]. split; [exact Hin|].
  split; [|split; [exact Hout|split; [|split; [reflexivity|]]]].
  - destruct (asset_view_summarizes_one_symbol _ "AAA" None Hs Hd) as (H & _).
    destruct (H ltac:(discriminate) Hin) as (v & E & Hv).
    exists v. split; [exact E|]. split; [exact Hv|]. rewrite Hv. reflexivity.
  - destruct (asset_view_summarizes_one_symbol _ "ZZZ" None Hs Hd) as (_ & H & _).
    apply H. right. split; [exact Hout|reflexivity].
  - destruct (asset_view_summarizes_one_symbol _ "toString" None Hs Hd)
      as (_ & _ & _ & _ & H).
    apply (H eq_refl).
Defined.

Lemma no_record_of_weekday (rows : list TradeRecord) (k : string) :
  (forall r, In r rows -> dayName r <> k) -> filter (fun r => dayName r =? k) rows = [].
Proof.
  intros H. induction rows as [|r rows IH]; [reflexivity|]. cbn [filter].
  assert (E : (dayName r =? k) = false) by (apply String.eqb_neq, H; left; reflexivity).
  rewrite E. apply IH. intros r' Hr'. apply H. right. exact Hr'.
Qed.

(** X16. Variant A's panel in the day view shows the summary of the records
    of the selected weekday, in table order; for a weekday without a record
    that is the all-zero summary, not the summary of all records.  Only a key
    that is empty, null or no weekday label falls back to all records.  A
    change of the day selector to a weekday label opens that weekday. *)
Theorem day_view_summarizes_one_weekday
    (rows : list TradeRecord) (k : string) (a : option string) :
  safeKeys symbol rows = true -> Forall dayFieldsA rows ->
  (In k DAYS ->
     exists v,
       renderPanel rows {| viewMode := "day"; assetKey := a; dayKey := Some k |} = Normal v
       /\ currentStats v = computeStats (filter (fun r => dayName r =? k) rows)
       /\ ((forall r, In r rows -> dayName r <> k) -> currentStats v = emptyStats))
  /\ (k = "" \/ (~ In k DAYS /\ inherited k = false) ->
     exists v,
       renderPanel rows {| viewMode := "day"; assetKey := a; dayKey := Some k |} = Normal v
       /\ currentStats v = computeStats rows)
  /\ (exists v,
       renderPanel rows {| viewMode := "day"; assetKey := a; dayKey := None |} = Normal v
       /\ currentStats v = computeStats rows)
  /\ (In k DAYS ->
     exists v,
       renderPanel rows (onDayChange k) = Normal v
       /\ currentStats v = computeStats (filter (fun r => dayName r =? k) rows)).
Proof.
  intros Hs Hd. split; [|split; [|split; [|apply (weekday_shown rows k None Hs Hd)]]].
  - intros Hin. destruct (weekday_shown rows k a Hs Hd Hin) as (v & E & Hv).
    exists v. split; [exact E|]. split; [exact Hv|].
    intros Hno. rewrite Hv, (no_record_of_weekday rows k Hno). reflexivity.
  - intros Hmiss. destruct (groups rows Hs Hd) as (o1 & o2 & E1 & G1 & E2 & G2).
    destruct (all_rows_shown rows {| viewMode := "day"; assetKey := a; dayKey := Some k |}
                o1 o2 E1 E2) as (v & E & Hv & _).
    + reflexivity.
    + cbn [viewMode dayKey]. rewrite (selects_day_miss dayName DAYS o2 rows k G2 Hmiss).
      reflexivity.
    + exists v. auto.
  - destruct (groups rows Hs Hd) as (o1 & o2 & E1 & G1 & E2 & G2).
    destruct (all_rows_shown rows {| viewMode := "day"; assetKey := a; dayKey := None |}
                o1 o2 E1 E2) as (v & E & Hv & _); try reflexivity.
    exists v. auto.
Qed.

Lemma day_view_witness :
  safeKeys symbol (parseTable Demo.host Demo.table) = true
  /\ Forall dayFieldsA (parseTable Demo.host Demo.table)
  /\ In "Mon" DAYS
  /\ (forall r, In r (parseTable Demo.host Demo.table) -> dayName r <> "Mon")
  /\ (exists v,
        renderPanel (parseTable Demo.host Demo.table)
          {| viewMode := "day"; assetKey := None; dayKey := Some "Mon" |} = Normal v
        /\ currentStats v = emptyStats)
  /\ (exists v,
        renderPanel (parseTable Demo.host Demo.table)
          {| viewMode := "day"; assetKey := None; dayKey := Some "Wed" |} = Normal v
        /\ totalTrades (currentStats v) = 2%nat).
Proof.
  assert (Hs : safeKeys symbol (parseTable Demo.host Demo.table) = true) by reflexivity.
  assert (Hd : Forall dayFieldsA (parseTable Demo.host Demo.table))
    by apply parseTableA_dayFields.
  assert (Hm : In "Mon" DAYS) by (right; left; reflexivity).
  assert (Hw : In "Wed" DAYS) by (do 3 right; left; reflexivity).
  assert (Hno : forall r, In r (parseTable Demo.host Demo.table) -> dayName r <> "Mon").
  { intros r H. vm_compute in H.
    repeat destruct H as [H|H]; try (subst r; discriminate). destruct H. }
  split; [exact Hs|]. split; [exact Hd|]. split; [exact Hm|]. split; [exact Hno|]. split.
  - destruct (day_view_summarizes_one_weekday _ "Mon" None Hs Hd) as (H & _).
    destruct (H Hm) as (v & E & _ & Hv). exists v. split; [exact E|]. apply Hv, Hno.
  - destruct (day_view_summarizes_one_weekday _ "Wed" None Hs Hd) as (H & _).
    destruct (H Hw) as (v & E & Hv & _). exists v. split; [exact E|].
    rewrite Hv. reflexivity.
Defined.

(** X17. A view key that names a property of [Object.prototype] passes the
    test [bySymbol[assetKey]] (or [byDay[dayKey]]) although no record has
    it: the panel then shows the all-zero summary when the inherited value
    has no [length] or a [length] of 0, as "toString" and "__proto__", and
    [renderPanel] throws a [TypeError] when it has another, as
    "constructor". *)
Theorem view_key_naming_a_prototype_property
    (rows : list TradeRecord) (k : string) (other : option string) :
  safeKeys symbol rows = true -> Forall dayFieldsA rows -> inherited k = true ->
  ((inheritedLength k = None \/ inheritedLength k = Some 0%nat) ->
     (exists v,
        renderPanel rows {| viewMode := "asset"; assetKey := Some k; dayKey := other |}
        = Normal v /\ currentStats v = emptyStats)
     /\ (exists v,
        renderPanel rows {| viewMode := "day"; assetKey := other; dayKey := Some k |}
        = Normal v /\ currentStats v = emptyStats))
  /\ (forall n, inheritedLength k = Some (S n) ->
     renderPanel rows {| viewMode := "asset"; assetKey := Some k; dayKey := other |}
     = Throw TypeError
     /\ renderPanel rows {| viewMode := "day"; assetKey := other; dayKey := Some k |}
        = Throw TypeError).
Proof.
  intros Hs Hd Hi. destruct (groups rows Hs Hd) as (o1 & o2 & E1 & G1 & E2 & G2).
  destruct (selects_grouped_inherited symbol o1 rows k G1 Hs Hi) as [S1 K1].
  assert (Hk : (k =? "") = false) by (apply String.eqb_neq; intros ->; discriminate Hi).
  assert (Hout : ~ In k DAYS).
  { intros H. simpl in H. repeat destruct H as [H|H]; try (subst k; discriminate Hi).
    exact H. }
  assert (K2 : get o2 k = Inherited).
  { rewrite (get_dayGrouped_out dayName DAYS o2 rows k G2 Hout), Hi. reflexivity. }
  assert (S2 : selects o2 (Some k) = true).
  { unfold selects. rewrite K2, Hk. reflexivity. }
  rewrite !(renderPanel_grouped rows _ _ _ E1 E2).
  cbn [viewMode assetKey dayKey keyText]. rewrite S1, S2.
  cbn [String.eqb Ascii.eqb Bool.eqb andb].
  unfold computeStatsAt. rewrite K1, K2.
  split.
  - intros [L|L]; rewrite L; split; eexists; split; reflexivity.
  - intros n L. rewrite L. split; reflexivity.
Qed.

Lemma prototype_key_witness :
  safeKeys symbol (parseTable Demo.host Demo.table) = true
  /\ Forall dayFieldsA (parseTable Demo.host Demo.table)
  /\ inherited "toString" = true /\ inheritedLength "toString" = Some 0%nat
  /\ (exists v,
        renderPanel (parseTable Demo.host Demo.table)
          {| viewMode := "asset"; assetKey := Some "toString"; dayKey := None |} = Normal v
        /\ currentStats v = emptyStats)
  /\ inherited "constructor" = true /\ inheritedLength "constructor" = Some 1%nat
  /\ renderPanel (parseTable Demo.host Demo.table)
       {| viewMode := "asset"; assetKey := Some "constructor"; dayKey := None |}
     = Throw TypeError.
Proof.
  assert (Hs : safeKeys symbol (parseTable Demo.host Demo.table) = true) by reflexivity.
  assert (Hd : Forall dayFieldsA (parseTable Demo.host Demo.table))
    by apply parseTableA_dayFields.
  split; [exact Hs|]. split; [exact Hd|]. split; [reflexivity|]. split; [reflexivity|].
  split; [|split; [reflexivity|split; [reflexivity|]]].
  - destruct (view_key_naming_a_prototype_property _ "toString" None Hs Hd eq_refl)
      as (H & _).
    destruct (H (or_intror eq_refl)) as (H1 & _). exact H1.
  - destruct (view_key_naming_a_prototype_property _ "constructor" None Hs Hd eq_refl)
      as (_ & H).
    destruct (H 0%nat eq_refl) as (H1 & _). exact H1.
Defined.

Lemma parsed_symbols (host : Host) (table : Table) (r : TradeRecord) :
  In r (parseTable host table) -> symbol r <> "".
Proof.
  intros H. apply In_parseTableA in H. destruct H as (tr & _ & Hr & ->).
  apply resolves_texts in Hr. apply Hr.
Qed.

Lemma first_symbol (rows : list TradeRecord) bySymbol :
  rows <> [] -> grouped symbol bySymbol rows ->
  exists k,
    nth_error (symbols bySymbol) 0 = Some k
    /\ In k (map symbol rows)
    /\ (forall s, In s (map symbol rows) -> codeUnitLe k s).
Proof.
  intros Hne G. destruct (sorted_keys symbol bySymbol rows G) as (Hsorted & _ & Hin).
  fold (symbols bySymbol) in Hsorted, Hin.
  assert (Hmap : forall s, In s (symbols bySymbol) <-> In s (map symbol rows)).
  { intros s. rewrite Hin, in_map_iff. split; intros (r & H1 & H2); exists r; auto. }
  destruct rows as [|r0 rows0] eqn:Er; [congruence|]. rewrite <- Er in *.
  assert (H0 : In (symbol r0) (symbols bySymbol)).
  { apply Hmap, in_map. rewrite Er. left. reflexivity. }
  destruct (symbols bySymbol) as [|k l] eqn:Es; [destruct H0|].
  exists k. split; [reflexivity|]. split.
  - apply Hmap. left. reflexivity.
  - intros s Hs. apply (first_is_least (k :: l) k Hsorted eq_refl). apply Hmap. exact Hs.
Qed.

Lemma toggle_asset (l : list string) (k : string) :
  nth_error l 0 = Some k ->
  toggle l "asset" = {| viewMode := "asset"; assetKey := Some k; dayKey := None |}.
Proof.
  intros E. destruct l as [|a l]; [discriminate E|]. injection E as ->. reflexivity.
Qed.

(** X18. In variant A the first panel, rendered by [injectPanel], shows the
    summary of all records.  From it the By asset toggle opens the records of
    the least symbol in code-unit order, the By day toggle opens Sunday's
    records, and the All toggle shows all records again. *)
Theorem toggles_open_the_first_slice (host : Host) (table : Table) :
  parseTable host table <> [] -> safeKeys symbol (parseTable host table) = true ->
  exists v0,
    renderPanel (parseTable host table) initial = Normal v0
    /\ currentStats v0 = computeStats (parseTable host table)
    /\ (exists k v,
          nth_error (v_symbols v0) 0 = Some k
          /\ In k (map symbol (parseTable host table))
          /\ (forall s, In s (map symbol (parseTable host table)) -> codeUnitLe k s)
          /\ renderPanel (parseTable host table) (toggle (v_symbols v0) "asset") = Normal v
          /\ currentStats v
             = computeStats (filter (fun r => symbol r =? k) (parseTable host table)))
    /\ (exists v,
          renderPanel (parseTable host table) (toggle (v_symbols v0) "day") = Normal v
          /\ currentStats v
             = computeStats (filter (fun r => dayName r =? "Sun") (parseTable host table)))
    /\ (exists v,
          renderPanel (parseTable host table) (toggle (v_symbols v0) "all") = Normal v
          /\ currentStats v = computeStats (parseTable host table)).
Proof.
  intros Hne Hs. set (rows := parseTable host table) in *.
  assert (Hd : Forall dayFieldsA rows) by apply parseTableA_dayFields.
  destruct (groups rows Hs Hd) as (o1 & o2 & E1 & G1 & E2 & G2).
  destruct (all_rows_shown rows initial o1 o2 E1 E2 eq_refl eq_refl) as (v0 & E0 & H0 & Hsym).
  exists v0. split; [exact E0|]. split; [exact H0|]. rewrite Hsym. split; [|split].
  - destruct (first_symbol rows o1 Hne G1) as (k & Hk & Hin & Hleast).
    assert (Hk0 : k <> "").
    { apply in_map_iff in Hin. destruct Hin as (r & <- & Hr).
      apply (parsed_symbols host table r Hr). }
    destruct (symbol_shown rows k None Hs Hd Hk0 Hin) as (v & E & Hv).
    exists k, v. rewrite (toggle_asset _ k Hk). auto.
  - assert (Hsun : In "Sun" DAYS) by (left; reflexivity).
    destruct (weekday_shown rows "Sun" None Hs Hd Hsun) as (v & E & Hv).
    exists v. split; [exact E|exact Hv].
  - destruct (all_rows_shown rows (toggle (symbols o1) "all") o1 o2 E1 E2 eq_refl eq_refl)
      as (v & E & Hv & _).
    exists v. auto.
Qed.

Lemma toggles_witness :
  parseTable Demo.host Demo.table <> []
  /\ safeKeys symbol (parseTable Demo.host Demo.table) = true
  /\ exists v0 k v,
       renderPanel (parseTable Demo.host Demo.table) initial = Normal v0
       /\ nth_error (v_symbols v0) 0 = Some k
       /\ renderPanel (parseTable Demo.host Demo.table) (toggle (v_symbols v0) "asset")
          = Normal v
       /\ currentStats v
          = computeStats (filter (fun r => symbol r =? k) (parseTable Demo.host Demo.table)).
Proof.
  assert (Hne : parseTable Demo.host Demo.table <> []) by (vm_compute; discriminate).
  assert (Hs : safeKeys symbol (parseTable Demo.host Demo.table) = true) by reflexivity.
  split; [exact Hne|]. split; [exact Hs|].
  destruct (toggles_open_the_first_slice Demo.host Demo.table Hne Hs)
    as (v0 & E0 & _ & (k & v & Hk & _ & _ & E & Hv) & _).
  exists v0, k, v. auto.
Defined.

End PanelViewA.

(** *** Variant B *)

Module PanelViewB.

Import JS JSObject DOM Grouping ObjectFacts GroupingFacts SortFacts GroupClaims GroupMore.
Import DayFacts TableFacts TableMore StatsMoreB PanelFacts VariantB PanelB Spec Terms Panel.

Section Host.
Variable host : Host.

Lemma groupsB (rows : list TradeRecord) :
  safeKeys symbol rows = true -> Forall dayFieldsB rows ->
  exists bySymbol byDay,
    groupBySymbol rows = Normal bySymbol /\ grouped symbol bySymbol rows
    /\ groupByDayOfWeek rows = Normal byDay /\ dayGrouped dayName DAYS byDay rows.
Proof.
  intros Hs Hd.
  destruct (groupBy_grouped symbol rows Hs) as (o1 & E1 & G1).
  destruct (groupByDay_grouped dayName VariantA.DAYS DAYS_nodup DAYS_own rows)
    as (o2 & E2 & G2).
  { intros r Hr. rewrite Forall_forall in Hd. specialize (Hd r Hr).
    unfold dayFieldsB in Hd. destruct (date r); [left; exact Hd|right; rewrite Hd; reflexivity]. }
  exists o1, o2. auto.
Qed.

Lemma renderPanelB_grouped (rows : list TradeRecord) (a : Args) bySymbol byDay all :
  groupBySymbol rows = Normal bySymbol -> groupByDayOfWeek rows = Normal byDay ->
  computeStats host rows = Normal all ->
  renderPanel host rows a
  = bind (if (viewMode a =? "asset") && selects bySymbol (assetKey a)
          then computeStatsAt host bySymbol (keyText (assetKey a))
          else if (viewMode a =? "day") && selects byDay (dayKey a)
          then computeStatsAt host byDay (keyText (dayKey a))
          else Normal all)
      (fun s => Normal {| v_viewMode := viewMode a; v_assetKey := assetKey a;
                          v_dayKey := dayKey a; v_symbols := symbols bySymbol;
                          currentStats := s |}).
Proof.
  intros E1 E2 E3. unfold renderPanel. rewrite E1, E2, E3. reflexivity.
Qed.

Lemma computeStats_normal (rows : list TradeRecord) :
  safeKeys (dateKey host) rows = true -> exists s, computeStats host rows = Normal s.
Proof.
  intros Hs. destruct (computeStats_returns host PrimFloat.div rows Hs) as (o & _ & E).
  eexists. exact E.
Qed.

Lemma safeKeys_filter (p : TradeRecord -> bool) (rows : list TradeRecord) :
  safeKeys (dateKey host) rows = true -> safeKeys (dateKey host) (filter p rows) = true.
Proof.
  unfold safeKeys. rewrite !forallb_forall. intros H r Hr.
  apply filter_In in Hr. apply H, Hr.
Qed.

Lemma all_rowsB_shown (rows : list TradeRecord) (a : Args) bySymbol byDay :
  groupBySymbol rows = Normal bySymbol -> groupByDayOfWeek rows = Normal byDay ->
  safeKeys (dateKey host) rows = true ->
  (viewMode a =? "asset") && selects bySymbol (assetKey a) = false ->
  (viewMode a =? "day") && selects byDay (dayKey a) = false ->
  exists v, renderPanel host rows a = Normal v
            /\ computeStats host rows = Normal (currentStats v)
            /\ v_symbols v = symbols bySymbol.
Proof.
  intros E1 E2 Hk H1 H2. destruct (computeStats_normal rows Hk) as [all E3].
  rewrite (renderPanelB_grouped rows a _ _ all E1 E2 E3), H1, H2.
  eexists. split; [reflexivity|]. split; [exact E3|reflexivity].
Qed.

Lemma symbolB_shown (rows : list TradeRecord) (k : string) (d : option string) :
  safeKeys symbol rows = true -> Forall dayFieldsB rows ->
  safeKeys (dateKey host) rows = true ->
  k <> "" -> In k (map symbol rows) ->
  exists v,
    renderPanel host rows {| viewMode := "asset"; assetKey := Some k; dayKey := d |} = Normal v
    /\ computeStats host (filter (fun r => symbol r =? k) rows) = Normal (currentStats v).
Proof.
  intros Hs Hd Hdk Hk Hin. destruct (groupsB rows Hs Hd) as (o1 & o2 & E1 & G1 & E2 & G2).
  destruct (selects_grouped_hit symbol o1 rows k G1 Hk Hin) as [S1 K1].
  destruct (computeStats_normal rows Hdk) as [all E3].
  destruct (computeStats_normal (filter (fun r => symbol r =? k) rows)
              (safeKeys_filter _ rows Hdk)) as [s E4].
  rewrite (renderPanelB_grouped rows _ _ _ all E1 E2 E3).
  cbn [viewMode assetKey dayKey keyText]. rewrite S1. cbn [String.eqb Ascii.eqb Bool.eqb andb].
  unfold computeStatsAt. rewrite K1. unfold bucketOf, hasKey. rewrite E4.
  eexists. split; reflexivity.
Qed.

Lemma weekdayB_shown (rows : list TradeRecord) (k : string) (a : option string) :
  safeKeys symbol rows = true -> Forall dayFieldsB rows ->
  safeKeys (dateKey host) rows = true -> In k DAYS ->
  exists v,
    renderPanel host rows {| viewMode := "day"; assetKey := a; dayKey := Some k |} = Normal v
    /\ computeStats host (filter (fun r => dayName r =? k) rows) = Normal (currentStats v).
Proof.
  intros Hs Hd Hdk Hin. destruct (groupsB rows Hs Hd) as (o1 & o2 & E1 & G1 & E2 & G2).
  destruct (selects_day_hit dayName DAYS o2 rows k G2 (DAYS_own k Hin) Hin) as [S2 K2].
  destruct (computeStats_normal rows Hdk) as [all E3].
  destruct (computeStats_normal (filter (fun r => dayName r =? k) rows)
              (safeKeys_filter _ rows Hdk)) as [s E4].
  rewrite (renderPanelB_grouped rows _ _ _ all E1 E2 E3).
  cbn [viewMode assetKey dayKey keyText]. rewrite S2. cbn [String.eqb Ascii.eqb Bool.eqb andb].
  unfold computeStatsAt. rewrite K2. unfold bucketOf, hasKey. rewrite E4.
  eexists. split; reflexivity.
Qed.

Lemma parsedB_symbols (table : Table) (r : TradeRecord) :
  In r (parseTable host table) -> symbol r <> "".
Proof.
  intros H. apply In_parseTableB in H. destruct H as (tr & _ & Hr & ->).
  apply resolves_texts in Hr. apply Hr.
Qed.

Lemma forallb_agree {A} (f g : A -> bool) (l : list A) :
  (forall x, In x l -> f x = g x) -> forallb f l = forallb g l.
Proof.
  induction l as [|x l IH]; intros H; [reflexivity|]. cbn [forallb].
  rewrite (H x (or_introl eq_refl)), IH; [reflexivity|].
  intros y Hy. apply H. right. exact Hy.
Qed.

Lemma parsed_dateKeys (table : Table) :
  safeKeys (dateKey host) (parseTable host table) = safeKeys dateStr (parseTable host table).
Proof.
  unfold safeKeys. apply forallb_agree. intros r Hr.
  rewrite (dateKey_label host r (parseTable_labels host table r Hr)). reflexivity.
Qed.

Lemma first_symbolB (rows : list TradeRecord) bySymbol :
  rows <> [] -> grouped symbol bySymbol rows ->
  exists k,
    nth_error (symbols bySymbol) 0 = Some k
    /\ In k (map symbol rows)
    /\ (forall s, In s (map symbol rows) -> codeUnitLe k s).
Proof.
  intros Hne G. destruct (sorted_keys symbol bySymbol rows G) as (Hsorted & _ & Hin).
  fold (symbols bySymbol) in Hsorted, Hin.
  assert (Hmap : forall s, In s (symbols bySymbol) <-> In s (map symbol rows)).
  { intros s. rewrite Hin, in_map_iff. split; intros (r & H1 & H2); exists r; auto. }
  destruct rows as [|r0 rows0] eqn:Er; [congruence|]. rewrite <- Er in *.
  assert (H0 : In (symbol r0) (symbols bySymbol)).
  { apply Hmap, in_map. rewrite Er. left. reflexivity. }
  destruct (symbols bySymbol) as [|k l] eqn:Es; [destruct H0|].
  exists k. split; [reflexivity|]. split.
  - apply Hmap. left. reflexivity.
  - intros s Hs. apply (first_is_least (k :: l) k Hsorted eq_refl). apply Hmap. exact Hs.
Qed.

Lemma toggleB_asset (l : list string) (k : string) :
  nth_error l 0 = Some k ->
  toggle l "asset" = {| viewMode := "asset"; assetKey := Some k; dayKey := None |}.
Proof.
  intros E. destruct l as [|a l]; [discriminate E|]. injection E as ->. reflexivity.
Qed.

Lemma renderPanel_args (rows : list TradeRecord) (a : Args) (v : View) :
  renderPanel host rows a = Normal v ->
  v_viewMode v = viewMode a /\ v_assetKey v = assetKey a /\ v_dayKey v = dayKey a.
Proof.
  unfold renderPanel.
  destruct (groupBySymbol rows) as [o1|]; [|discriminate]. cbn [bind].
  destruct (groupByDayOfWeek rows) as [o2|]; [|discriminate]. cbn [bind].
  destruct (computeStats host rows) as [all|]; [|discriminate]. cbn [bind].
  match goal with |- bind ?c _ = _ -> _ => destruct c as [s|] end; [|discriminate].
  cbn [bind]. intros E. injection E as <-. auto.
Qed.

Lemma renderPanel_throws (rows : list TradeRecord) (a : Args) :
  safeKeys symbol rows = false -> renderPanel host rows a = Throw TypeError.
Proof.
  intros H. unfold renderPanel, groupBySymbol. rewrite (groupBy_throws symbol rows H).
  reflexivity.
Qed.

Lemma renderPanel_throws_on_dates (rows : list TradeRecord) (a : Args) :
  safeKeys (dateKey host) rows = false -> renderPanel host rows a = Throw TypeError.
Proof.
  intros H. unfold renderPanel.
  destruct (groupBySymbol rows) as [o1|[]]; [|reflexivity]. cbn [bind].
  destruct (groupByDayOfWeek rows) as [o2|[]]; [|reflexivity]. cbn [bind].
  unfold computeStats. rewrite (computeStats_throws host PrimFloat.div rows H). reflexivity.
Qed.

Lemma no_record_of_weekdayB (rows : list TradeRecord) (k : string) :
  (forall r, In r rows -> dayName r <> k) -> filter (fun r => dayName r =? k) rows = [].
Proof.
  intros H. induction rows as [|r rows IH]; [reflexivity|]. cbn [filter].
  assert (E : (dayName r =? k) = false) by (apply String.eqb_neq, H; left; reflexivity).
  rewrite E. apply IH. intros r' Hr'. apply H. right. exact Hr'.
Qed.

End Host.

(** X19. Take records whose symbols and date keys name no property of
    [Object.prototype] and whose date fields agree, as [parseTable] leaves
    them.  Variant B's panel shows in the asset view the summary of the
    records of the symbol given as key and in the day view the summary of the
    records of the weekday given as key, the all-zero summary for a weekday
    without a record.  The day view takes each of the seven labels of
    [DAYS], Saturday and Sunday too; the day selector offers the five of
    [WORK_DAYS], and a change to one of them opens that weekday.  A key that
    is empty, or that is neither a symbol of a record (a weekday label, in
    the day view) nor the name of a property of [Object.prototype], falls
    back to the summary of all records.  A key that names a property of
    [Object.prototype] is no symbol of a record and no weekday label, and
    does not fall back: the panel shows the all-zero summary when the
    inherited value has no [length] or a [length] of 0, and [renderPanel]
    throws a [TypeError] otherwise. *)
Theorem variant_B_views_summarize_one_slice
    (host : Host) (rows : list TradeRecord) (k : string) (other : option string) :
  safeKeys symbol rows = true -> Forall dayFieldsB rows ->
  safeKeys (dateKey host) rows = true ->
  (k <> "" -> In k (map symbol rows) ->
     exists v,
       renderPanel host rows {| viewMode := "asset"; assetKey := Some k; dayKey := other |}
       = Normal v
       /\ computeStats host (filter (fun r => symbol r =? k) rows) = Normal (currentStats v))
  /\ (In k DAYS ->
     exists v,
       renderPanel host rows {| viewMode := "day"; assetKey := other; dayKey := Some k |}
       = Normal v
       /\ computeStats host (filter (fun r => dayName r =? k) rows) = Normal (currentStats v)
       /\ ((forall r, In r rows -> dayName r <> k) -> currentStats v = emptyStats))
  /\ (k = "" \/ (~ In k (map symbol rows) /\ inherited k = false) ->
     exists v,
       renderPanel host rows {| viewMode := "asset"; assetKey := Some k; dayKey := other |}
       = Normal v
       /\ computeStats host rows = Normal (currentStats v))
  /\ (k = "" \/ (~ In k DAYS /\ inherited k = false) ->
     exists v,
       renderPanel host rows {| viewMode := "day"; assetKey := other; dayKey := Some k |}
       = Normal v
       /\ computeStats host rows = Normal (currentStats v))
  /\ (In k WORK_DAYS ->
     exists v,
       renderPanel host rows (onDayChange k) = Normal v
       /\ computeStats host (filter (fun r => dayName r =? k) rows) = Normal (currentStats v))
  /\ (inherited k = true ->
      ~ In k (map symbol rows) /\ ~ In k DAYS
      /\ ((inheritedLength k = None \/ inheritedLength k = Some 0%nat) ->
            (exists v,
               renderPanel host rows
                 {| viewMode := "asset"; assetKey := Some k; dayKey := other |} = Normal v
               /\ currentStats v = emptyStats)
            /\ (exists v,
               renderPanel host rows
                 {| viewMode := "day"; assetKey := other; dayKey := Some k |} = Normal v
               /\ currentStats v = emptyStats))
      /\ (forall n, inheritedLength k = Some (S n) ->
            renderPanel host rows
              {| viewMode := "asset"; assetKey := Some k; dayKey := other |} = Throw TypeError
            /\ renderPanel host rows
                 {| viewMode := "day"; assetKey := other; dayKey := Some k |}
               = Throw TypeError)).
Proof.
  intros Hs Hd Hl.
  split; [apply symbolB_shown; assumption|].
  split; [|split; [|split; [|split;
    [intros Hw; apply (weekdayB_shown host rows k None Hs Hd Hl);
     simpl in Hw; simpl; tauto|]]]].
  - intros Hin. destruct (weekdayB_shown host rows k other Hs Hd Hl Hin) as (v & E & Hv).
    exists v. split; [exact E|]. split; [exact Hv|].
    intros Hno. rewrite (no_record_of_weekdayB rows k Hno) in Hv.
    injection Hv as <-. reflexivity.
  - intros Hmiss. destruct (groupsB rows Hs Hd) as (o1 & o2 & E1 & G1 & E2 & G2).
    destruct (all_rowsB_shown host rows
                {| viewMode := "asset"; assetKey := Some k; dayKey := other |}
                o1 o2 E1 E2 Hl) as (v & E & Hv & _).
    + cbn [viewMode assetKey]. rewrite (selects_grouped_miss symbol o1 rows k G1 Hmiss).
      reflexivity.
    + reflexivity.
    + exists v. auto.
  - intros Hmiss. destruct (groupsB rows Hs Hd) as (o1 & o2 & E1 & G1 & E2 & G2).
    destruct (all_rowsB_shown host rows
                {| viewMode := "day"; assetKey := other; dayKey := Some k |}
                o1 o2 E1 E2 Hl) as (v & E & Hv & _).
    + reflexivity.
    + cbn [viewMode dayKey]. rewrite (selects_day_miss dayName DAYS o2 rows k G2 Hmiss).
      reflexivity.
    + exists v. auto.
  - intros Hi. destruct (groupsB rows Hs Hd) as (o1 & o2 & E1 & G1 & E2 & G2).
    destruct (computeStats_normal host rows Hl) as [all E3].
    destruct (selects_grouped_inherited symbol o1 rows k G1 Hs Hi) as [S1 K1].
    assert (Hk : (k =? "") = false) by (apply String.eqb_neq; intros ->; discriminate Hi).
    assert (Hout : ~ In k DAYS).
    { intros H. simpl in H. repeat destruct H as [H|H]; try (subst k; discriminate Hi).
      exact H. }
    assert (Hnot : ~ In k (map symbol rows)).
    { intros Hin. apply (existsb_hasKey symbol) in Hin.
      rewrite (safeKeys_not_inherited symbol rows k Hs Hi) in Hin. discriminate Hin. }
    assert (K2 : get o2 k = Inherited).
    { rewrite (get_dayGrouped_out dayName DAYS o2 rows k G2 Hout), Hi. reflexivity. }
    assert (S2 : selects o2 (Some k) = true).
    { unfold selects. rewrite K2, Hk. reflexivity. }
    split; [exact Hnot|]. split; [exact Hout|].
    rewrite !(renderPanelB_grouped host rows _ _ _ all E1 E2 E3).
    cbn [viewMode assetKey dayKey keyText]. rewrite S1, S2.
    cbn [String.eqb Ascii.eqb Bool.eqb andb].
    unfold computeStatsAt. rewrite K1, K2.
    split.
    + intros [L|L]; rewrite L; split; eexists; split; reflexivity.
    + intros n L. rewrite L. split; reflexivity.
Qed.

Lemma variant_B_views_witness :
  safeKeys symbol (parseTable Demo.host Demo.twoDays) = true
  /\ Forall dayFieldsB (parseTable Demo.host Demo.twoDays)
  /\ safeKeys (dateKey Demo.host) (parseTable Demo.host Demo.twoDays) = true
  /\ In "BBB" (map symbol (parseTable Demo.host Demo.twoDays))
  /\ (exists v,
        renderPanel Demo.host (parseTable Demo.host Demo.twoDays)
          {| viewMode := "asset"; assetKey := Some "BBB"; dayKey := None |} = Normal v
        /\ profitableDays (currentStats v) = 1%nat /\ losingDays (currentStats v) = 0%nat)
  /\ In "Sat" DAYS
  /\ (exists v,
        renderPanel Demo.host (parseTable Demo.host Demo.twoDays)
          {| viewMode := "day"; assetKey := None; dayKey := Some "Sat" |} = Normal v
        /\ currentStats v = emptyStats)
  /\ inherited "toString" = true /\ inherited "constructor" = true
  /\ (exists v,
        renderPanel Demo.host (parseTable Demo.host Demo.twoDays)
          {| viewMode := "asset"; assetKey := Some "toString"; dayKey := None |} = Normal v
        /\ currentStats v = emptyStats)
  /\ renderPanel Demo.host (parseTable Demo.host Demo.twoDays)
       {| viewMode := "day"; assetKey := None; dayKey := Some "constructor" |}
     = Throw TypeError.
Proof.
  assert (Hs : safeKeys symbol (parseTable Demo.host Demo.twoDays) = true) by reflexivity.
  assert (Hd : Forall dayFieldsB (parseTable Demo.host Demo.twoDays))
    by apply parseTableB_dayFields.
  assert (Hl : safeKeys (dateKey Demo.host) (parseTable Demo.host Demo.twoDays) = true)
    by reflexivity.
  assert (Hin : In "BBB" (map symbol (parseTable Demo.host Demo.twoDays)))
    by (right; right; left; reflexivity).
  assert (Hsat : In "Sat" DAYS) by (do 6 right; left; reflexivity).
  destruct (variant_B_views_summarize_one_slice Demo.host _ "BBB" None Hs Hd Hl)
    as (H1 & _).
  destruct (variant_B_views_summarize_one_slice Demo.host _ "Sat" None Hs Hd Hl)
    as (_ & H2 & _).
  split; [exact Hs|]. split; [exact Hd|]. split; [exact Hl|]. split; [exact Hin|].
  destruct (variant_B_views_summarize_one_slice Demo.host _ "toString" None Hs Hd Hl)
    as (_ & _ & _ & _ & _ & H3).
  destruct (variant_B_views_summarize_one_slice Demo.host _ "constructor" None Hs Hd Hl)
    as (_ & _ & _ & _ & _ & H4).
  split; [|split; [exact Hsat|split; [|split; [reflexivity|split; [reflexivity|split]]]]].
  - destruct (H1 ltac:(discriminate) Hin) as (v & E & Hv). exists v. split; [exact E|].
    revert Hv. generalize (currentStats v). intros s Hc.
    vm_compute in Hc. injection Hc as <-. split; reflexivity.
  - destruct (H2 Hsat) as (v & E & _ & Hv). exists v. split; [exact E|]. apply Hv.
    intros r Hr. vm_compute in Hr.
    repeat destruct Hr as [Hr|Hr]; try (subst r; discriminate). destruct Hr.
  - destruct (H3 eq_refl) as (_ & _ & H & _).
    destruct (H (or_intror eq_refl)) as [Ha _]. exact Ha.
  - destruct (H4 eq_refl) as (_ & _ & _ & H).
    destruct (H 0%nat eq_refl) as [_ Hb]. exact Hb.
Defined.

(** X20. In variant B the first panel shows the summary of all records; the
    By asset toggle opens the records of the least symbol in code-unit order
    and the By day toggle opens Monday's records, the first of [WORK_DAYS],
    where variant A opens Sunday's. *)
Theorem toggles_open_monday_in_variant_B (host : Host) (table : Table) :
  parseTable host table <> [] ->
  safeKeys symbol (parseTable host table) = true ->
  safeKeys dateStr (parseTable host table) = true ->
  exists v0,
    renderPanel host (parseTable host table) initial = Normal v0
    /\ computeStats host (parseTable host table) = Normal (currentStats v0)
    /\ (exists k v,
          nth_error (v_symbols v0) 0 = Some k
          /\ In k (map symbol (parseTable host table))
          /\ (forall s, In s (map symbol (parseTable host table)) -> codeUnitLe k s)
          /\ renderPanel host (parseTable host table) (toggle (v_symbols v0) "asset")
             = Normal v
          /\ computeStats host (filter (fun r => symbol r =? k) (parseTable host table))
             = Normal (currentStats v))
    /\ (exists v,
          renderPanel host (parseTable host table) (toggle (v_symbols v0) "day") = Normal v
          /\ v_dayKey v = Some "Mon"
          /\ computeStats host (filter (fun r => dayName r =? "Mon") (parseTable host table))
             = Normal (currentStats v)).
Proof.
  intros Hne Hs Hl. rewrite <- parsed_dateKeys in Hl.
  set (rows := parseTable host table) in *.
  assert (Hd : Forall dayFieldsB rows) by apply parseTableB_dayFields.
  destruct (groupsB rows Hs Hd) as (o1 & o2 & E1 & G1 & E2 & G2).
  destruct (all_rowsB_shown host rows initial o1 o2 E1 E2 Hl eq_refl eq_refl)
    as (v0 & E0 & H0 & Hsym).
  exists v0. split; [exact E0|]. split; [exact H0|]. rewrite Hsym. split.
  - destruct (first_symbolB rows o1 Hne G1) as (k & Hk & Hin & Hleast).
    assert (Hk0 : k <> "").
    { apply in_map_iff in Hin. destruct Hin as (r & <- & Hr).
      apply (parsedB_symbols host table r Hr). }
    destruct (symbolB_shown host rows k None Hs Hd Hl Hk0 Hin) as (v & E & Hv).
    exists k, v. rewrite (toggleB_asset _ k Hk). auto.
  - assert (Hmon : In "Mon" DAYS) by (right; left; reflexivity).
    destruct (weekdayB_shown host rows "Mon" None Hs Hd Hl Hmon) as (v & E & Hv).
    exists v. split; [exact E|]. split; [|exact Hv].
    apply (renderPanel_args host) in E. apply E.
Qed.

Lemma toggles_monday_witness :
  parseTable Demo.host Demo.table <> []
  /\ safeKeys symbol (parseTable Demo.host Demo.table) = true
  /\ safeKeys dateStr (parseTable Demo.host Demo.table) = true
  /\ exists v0 v,
       renderPanel Demo.host (parseTable Demo.host Demo.table) initial = Normal v0
       /\ renderPanel Demo.host (parseTable Demo.host Demo.table) (toggle (v_symbols v0) "day")
          = Normal v
       /\ v_dayKey v = Some "Mon"
       /\ currentStats v = emptyStats.
Proof.
  assert (Hne : parseTable Demo.host Demo.table <> []) by (vm_compute; discriminate).
  assert (Hs : safeKeys symbol (parseTable Demo.host Demo.table) = true) by reflexivity.
  assert (Hl : safeKeys dateStr (parseTable Demo.host Demo.table) = true) by reflexivity.
  split; [exact Hne|]. split; [exact Hs|]. split; [exact Hl|].
  destruct (toggles_open_monday_in_variant_B Demo.host Demo.table Hne Hs Hl)
    as (v0 & E0 & _ & _ & (v & E & Hk & Hv)).
  exists v0, v. split; [exact E0|]. split; [exact E|]. split; [exact Hk|].
  assert (Hnone : filter (fun r => dayName r =? "Mon") (parseTable Demo.host Demo.table) = [])
    by reflexivity.
  rewrite Hnone in Hv. injection Hv as <-. reflexivity.
Defined.

(** X21. With the arguments [injectPanel] passes, [renderPanel] returns
    exactly when no key of the parsed table names a property of
    [Object.prototype]: no symbol in variant A, no symbol and no date text in
    variant B; otherwise it throws a [TypeError], whatever the view. *)
Theorem first_panel_renders_iff_keys_are_safe (host : Host) (table : Table) :
  ((exists v, PanelA.renderPanel (VariantA.parseTable host table) initial = Normal v)
   <-> safeKeys VariantA.symbol (VariantA.parseTable host table) = true)
  /\ (forall a,
        safeKeys VariantA.symbol (VariantA.parseTable host table) = false ->
        PanelA.renderPanel (VariantA.parseTable host table) a = Throw TypeError)
  /\ ((exists v, renderPanel host (parseTable host table) initial = Normal v)
      <-> safeKeys symbol (parseTable host table) = true
          /\ safeKeys dateStr (parseTable host table) = true)
  /\ (forall a,
        safeKeys symbol (parseTable host table) = false
        \/ safeKeys dateStr (parseTable host table) = false ->
        renderPanel host (parseTable host table) a = Throw TypeError).
Proof.
  assert (HA : forall a,
             safeKeys VariantA.symbol (VariantA.parseTable host table) = false ->
             PanelA.renderPanel (VariantA.parseTable host table) a = Throw TypeError).
  { intros a H. unfold PanelA.renderPanel, VariantA.groupBySymbol.
    rewrite (groupBy_throws VariantA.symbol _ H). reflexivity. }
  assert (HB : forall a,
             safeKeys symbol (parseTable host table) = false
             \/ safeKeys dateStr (parseTable host table) = false ->
             renderPanel host (parseTable host table) a = Throw TypeError).
  { intros a [H|H]; [apply renderPanel_throws; exact H|].
    apply renderPanel_throws_on_dates. rewrite parsed_dateKeys. exact H. }
  split; [|split; [exact HA|split; [|exact HB]]].
  - split.
    + intros [v E].
      destruct (safeKeys VariantA.symbol (VariantA.parseTable host table)) eqn:Hs;
        [reflexivity|].
      rewrite (HA initial eq_refl) in E. discriminate E.
    + intros Hs.
      destruct (PanelViewA.groups _ Hs (parseTableA_dayFields host table))
        as (o1 & o2 & E1 & _ & E2 & _).
      destruct (PanelViewA.all_rows_shown _ initial o1 o2 E1 E2 eq_refl eq_refl)
        as (v & E & _).
      exists v. exact E.
  - split.
    + intros [v E].
      destruct (safeKeys symbol (parseTable host table)) eqn:Hs;
        [|rewrite (HB initial (or_introl eq_refl)) in E; discriminate E].
      destruct (safeKeys dateStr (parseTable host table)) eqn:Hl;
        [|rewrite (HB initial (or_intror eq_refl)) in E; discriminate E].
      split; reflexivity.
    + intros [Hs Hl]. rewrite <- parsed_dateKeys in Hl.
      destruct (groupsB _ Hs (parseTableB_dayFields host table))
        as (o1 & o2 & E1 & _ & E2 & _).
      destruct (all_rowsB_shown host _ initial o1 o2 E1 E2 Hl eq_refl eq_refl)
        as (v & E & _).
      exists v. exact E.
Qed.

Lemma first_panel_witness :
  safeKeys symbol (parseTable Demo.host Demo.oddTable) = false
  /\ renderPanel Demo.host (parseTable Demo.host Demo.oddTable) initial = Throw TypeError
  /\ safeKeys VariantA.symbol (VariantA.parseTable Demo.host Demo.table) = true
  /\ exists v, PanelA.renderPanel (VariantA.parseTable Demo.host Demo.table) initial = Normal v.
Proof.
  destruct (first_panel_renders_iff_keys_are_safe Demo.host Demo.oddTable)
    as (_ & _ & _ & H).
  destruct (first_panel_renders_iff_keys_are_safe Demo.host Demo.table)
    as (H' & _).
  split; [reflexivity|]. split; [apply H; left; reflexivity|].
  split; [reflexivity|]. apply H'. reflexivity.
Defined.

End PanelViewB.

(** ** Formatting: the sign of an amount *)

Module FormatFacts.

Import JS FloatFacts NumberMore StatsA Format.
Local Open Scope float_scope.

Lemma abs_opp (x : float) : abs (- x) = abs x.
Proof.
  apply Prim2SF_inj. rewrite !abs_spec, opp_spec.
  destruct (Prim2SF x); reflexivity.
Qed.

Lemma abs_zero (x : float) : (x =? 0) = true -> abs x = 0.
Proof.
  rewrite eqb_spec, Prim2SF_zero. intros H.
  apply Prim2SF_inj. rewrite abs_spec, Prim2SF_zero.
  unfold SFeqb in H. destruct (Prim2SF x) as [s|[]| |[] m e]; simpl in H;
    try discriminate H; reflexivity.
Qed.

Lemma abs_nan (x : float) : PrimFloat.is_nan x = true -> abs x = x.
Proof.
  intros H. apply Prim2SF_inj. rewrite abs_spec.
  apply is_nan_Prim2SF in H. rewrite H. reflexivity.
Qed.

Lemma zero_nonneg (x : float) : (x =? 0) = true -> (0 <=? x) = true.
Proof.
  rewrite eqb_spec, leb_spec, Prim2SF_zero. unfold SFeqb, SFleb.
  destruct (Prim2SF x) as [[]|[]| |[] m e]; simpl; congruence.
Qed.

Lemma opp_positive (x : float) : (0 <? x) = true -> (0 <=? - x) = false.
Proof.
  rewrite ltb_spec, leb_spec, opp_spec, Prim2SF_zero. unfold SFltb, SFleb.
  destruct (Prim2SF x) as [[]|[]| |[] m e]; simpl; congruence.
Qed.

Lemma nan_not_nonneg (x : float) : PrimFloat.is_nan x = true -> (0 <=? x) = false.
Proof.
  intros H. apply is_nan_Prim2SF in H. rewrite leb_spec, H. reflexivity.
Qed.

Lemma positive_not_eq_zero (x : float) : (0 <? x) = true -> (x =? 0) = false.
Proof.
  rewrite ltb_spec, eqb_spec, Prim2SF_zero. unfold SFltb, SFeqb.
  destruct (Prim2SF x) as [[]|[]| |[] m e]; simpl; congruence.
Qed.

Section Formatter.
Variable fmt : Formatter.

Lemma formatMoney_opp (x : float) :
  (0 <? x) = true -> formatMoney fmt (- x) = ("-" ++ formatMoney fmt x)%string.
Proof.
  intros H. unfold formatMoney, Math_abs. cbv zeta.
  rewrite (opp_positive x H), (ltb_leb _ _ H), abs_opp. reflexivity.
Qed.

Lemma formatMoney_zero (x : float) :
  (x =? 0) = true -> formatMoney fmt x = formatMoney fmt 0.
Proof.
  intros H. unfold formatMoney, Math_abs. cbv zeta.
  rewrite (zero_nonneg x H), (abs_zero x H). reflexivity.
Qed.

Lemma opp_zero (x : float) : (x =? 0) = true -> (- x =? 0) = true.
Proof.
  rewrite !eqb_spec, opp_spec, Prim2SF_zero. unfold SFeqb.
  destruct (Prim2SF x) as [[]|[]| |[] m e]; simpl; congruence.
Qed.

Lemma formatMoney_of_loss (x : float) :
  (0 <=? x) = true ->
  formatMoney fmt (- x)
  = if (x =? 0) then formatMoney fmt 0 else ("-" ++ formatMoney fmt x)%string.
Proof.
  intros H. destruct (nonneg_cases x H) as [Z|P].
  - rewrite Z. apply formatMoney_zero, opp_zero, Z.
  - rewrite (positive_not_eq_zero x P). apply formatMoney_opp, P.
Qed.

End Formatter.

(** X22. [formatMoney] writes the sign itself and hands the magnitude to
    [toLocaleString], which never receives a negative number: an amount below
    zero prints as the amount above zero with "-" in front; both zeros print
    alike, without a sign; NaN prints with a minus sign.  So the Gross loss
    card of variant A, which formats the negated gross loss, shows a minus
    sign exactly when there is a loss.  [formatPct] prints NaN and both zeros
    as zero. *)
Theorem formatMoney_writes_the_sign_itself (fmt : Formatter) :
  (forall n, isNaN n = false -> (0 <=? Math_abs n) = true)
  /\ (forall n, (0 <=? n) = true ->
        formatMoney fmt n = ("$" ++ toLocaleString fmt (Math_abs n))%string)
  /\ (forall x, (0 <? x) = true ->
        formatMoney fmt (neg x) = ("-" ++ formatMoney fmt x)%string)
  /\ (forall x, (x =? 0) = true -> formatMoney fmt x = formatMoney fmt 0)
  /\ (forall n, isNaN n = true ->
        formatMoney fmt n = ("-$" ++ toLocaleString fmt n)%string)
  /\ (forall rows,
        let gl := VariantA.grossLoss (VariantA.computeStats rows) in
        formatMoney fmt (neg gl)
        = if (gl =? 0) then formatMoney fmt 0 else ("-" ++ formatMoney fmt gl)%string)
  /\ (forall n, truthy n = false -> formatPct fmt n = formatPct fmt 0).
Proof.
  split; [exact abs_nonneg|]. split; [|split; [|split; [|split; [|split]]]].
  - intros n H. unfold formatMoney. cbv zeta. rewrite H. reflexivity.
  - intros x H. apply formatMoney_opp, H.
  - intros x H. apply formatMoney_zero, H.
  - intros n H. unfold formatMoney, Math_abs, isNaN in *. cbv zeta.
    rewrite (nan_not_nonneg n H), (abs_nan n H). reflexivity.
  - intros rows. cbv zeta. apply formatMoney_of_loss.
    destruct (profitFactor_spec rows) as (_ & -> & _). apply sum_of_losses_nonneg.
  - intros n H. unfold formatPct. rewrite H. reflexivity.
Qed.

Lemma formatMoney_witness :
  (0 <? 40) = true
  /\ formatMoney Terms.marks (-40) = ("-" ++ formatMoney Terms.marks 40)%string
  /\ formatMoney Terms.marks (-40) = "-$#.##"%string
  /\ (PrimFloat.neg_zero =? 0) = true
  /\ formatMoney Terms.marks PrimFloat.neg_zero = formatMoney Terms.marks 0
  /\ isNaN PrimFloat.nan = true
  /\ formatMoney Terms.marks PrimFloat.nan
     = ("-$" ++ toLocaleString Terms.marks PrimFloat.nan)%string.
Proof.
  destruct (formatMoney_writes_the_sign_itself Terms.marks) as (_ & _ & H1 & H2 & H3 & _).
  split; [reflexivity|]. split; [apply (H1 40); reflexivity|].
  split; [reflexivity|].
  split; [reflexivity|]. split; [apply (H2 PrimFloat.neg_zero); reflexivity|].
  split; [reflexivity|]. apply (H3 PrimFloat.nan). reflexivity.
Defined.

End FormatFacts.

(** ** The summary: defaults, guards, and which fields can be NaN *)

Module SummaryClaims.

Import JS JSObject FloatFacts MathFacts NaNFacts NumberMore FiniteFacts ObjectFacts GroupingFacts.
Import GroupClaims DayFacts StatsA StatsB StatsMoreA StatsMoreB StatsClaims VariantB Spec Terms.
Local Open Scope float_scope.
#[local] Set Warnings "-inexact-float".







Section Host.
Variable host : Host.


End Host.




End SummaryClaims.
